(** * linux-media-uploader: the subject-aware crop-parameter engine

    A shallow embedding of [src/video_processor.py] (class [VideoProcessor]):
    [detect_subjects], [calculate_crop_parameters], the sampling loop of
    [analyze_video_for_cropping] and the plan dispatch of [process_video].

    Python [int] is [Z]; Python [float] is IEEE-754 binary64, taken from the
    library's executable specification [SpecFloat] at precision 53 and
    maximal exponent 1024; a Python [dict] with string keys is a [gmap];
    a raised exception is the [Raise] branch of [result]. *)

From stdpp Require Import base option list gmap strings.
From Stdlib Require Import ZArith Reals Lia Lra Psatz List Bool Ascii Sorted.
From Stdlib Require Import SpecFloat.

Local Open Scope Z_scope.

(** ** Python exceptions and fallible computations *)

Inductive exn : Type :=
  | ZeroDivisionError
  | OverflowError
  | ValueError
  | IndexError
  | TypeError
  | KeyError (key : string)
  | ExternalError (msg : string).

Inductive result (A : Type) : Type :=
  | Ok (a : A)
  | Raise (e : exn).

Arguments Ok {A} a.
Arguments Raise {A} e.

Definition bind {A B : Type} (r : result A) (k : A -> result B) : result B :=
  match r with
  | Ok a => k a
  | Raise e => Raise e
  end.

Notation "'let*' x ':=' e 'in' k" := (bind e (fun x => k))
  (at level 10, x name, e at level 100, k at level 200).

(** ** Python floats: binary64 *)

Definition prec : Z := 53.
Definition emax : Z := 1024.

Definition float : Type := spec_float.

Definition fadd : float -> float -> float := SFadd prec emax.
Definition fsub : float -> float -> float := SFsub prec emax.
Definition fmul : float -> float -> float := SFmul prec emax.
Definition fabs : float -> float := SFabs.
Definition flt : float -> float -> bool := SFltb.
Definition fgt (x y : float) : bool := SFltb y x.

Definition is_zero (x : float) : bool :=
  match x with
  | S754_zero _ => true
  | _ => false
  end.

(** [x / y] on floats: Python raises on a zero divisor, otherwise the
    IEEE quotient (which may be an infinity or a NaN). *)
Definition float_div (x y : float) : result float :=
  if is_zero y then Raise ZeroDivisionError else Ok (SFdiv prec emax x y).

(** [float(z)], the implicit conversion of an [int] operand: the nearest
    binary64, ties to even; Python raises when [z] is too large. *)
Definition of_int (z : Z) : result float :=
  match binary_normalize prec emax z 0 false with
  | S754_infinity _ => Raise OverflowError
  | f => Ok f
  end.

(** [a / b] on ints (true division): the quotient of the two integers
    rounded once to the nearest binary64. *)
Definition int_truediv (a b : Z) : result float :=
  match b with
  | Z0 => Raise ZeroDivisionError
  | _ =>
    match a with
    | Z0 => Ok (S754_zero (b <? 0))
    | _ =>
      let '(q, e, l) := SFdiv_core_binary prec emax (Z.abs a) 0 (Z.abs b) 0 in
      match binary_round_aux prec emax (xorb (a <? 0) (b <? 0)) q e l with
      | S754_infinity _ => Raise OverflowError
      | f => Ok f
      end
    end
  end.

(** [int(x)] on a float: truncation toward zero; raises on infinities and
    NaN. *)
Definition to_int (x : float) : result Z :=
  match x with
  | S754_zero _ => Ok 0
  | S754_finite s m e => Ok (cond_Zopp s (Z.shiftl (Zpos m) e))
  | S754_infinity _ => Raise OverflowError
  | S754_nan => Raise ValueError
  end.

(** The literal [0.01]: the binary64 nearest to 1/100,
    [0x1.47ae147ae147bp-7]. *)
Definition lit_0_01 : float := S754_finite false 5764607523034235 (-59).

(** ** Python values stored in the plan dictionary *)

Inductive pyval : Type :=
  | VBool (b : bool)
  | VInt (z : Z)
  | VStr (s : string).

Definition dict : Type := gmap string pyval.

(** [d[key]] *)
Definition getitem (d : dict) (key : string) : result pyval :=
  match d !! key with
  | Some v => Ok v
  | None => Raise (KeyError key)
  end.

(** An item used as an [int] operand. *)
Definition as_int (v : pyval) : result Z :=
  match v with
  | VInt z => Ok z
  | VBool b => Ok (if b then 1 else 0)
  | VStr _ => Raise TypeError
  end.

Definition pyval_eqb (v w : pyval) : bool :=
  match v, w with
  | VBool a, VBool b => Bool.eqb a b
  | VInt a, VInt b => a =? b
  | VBool a, VInt b => (if a then 1 else 0) =? b
  | VInt a, VBool b => a =? (if b then 1 else 0)
  | VStr a, VStr b => String.eqb a b
  | _, _ => false
  end.

(** [range(n)] *)
Definition range (n : Z) : list Z := map Z.of_nat (seq 0 (Z.to_nat n)).

(** [sum(...)] over ints *)
Definition sum (l : list Z) : Z := fold_left Z.add l 0.

(** ** [get_video_info]: the record the probe returns *)

Record video_info : Type := {
  width : Z;
  height : Z;
  duration : float;
  fps : float;
  bitrate : Z;
  aspect_ratio : float;
  target_ratio : float;
  has_audio : bool
}.

(** The dictionary built at the end of [get_video_info] from the stream's
    [width] and [height]: ['aspect_ratio': width / height] and
    ['target_ratio': 9/16].  A raised exception makes [get_video_info]
    return [None]. *)
Definition make_video_info (w h : Z) (dur rate : float) (br : Z) (audio : bool)
  : option video_info :=
  match int_truediv w h, int_truediv 9 16 with
  | Ok ar, Ok tr =>
    Some {| width := w; height := h; duration := dur; fps := rate;
            bitrate := br; aspect_ratio := ar; target_ratio := tr;
            has_audio := audio |}
  | _, _ => None
  end.

(** ** [calculate_crop_parameters] *)

Definition plan_none (w h : Z) : dict :=
  {[ "needs_crop" := VBool false;
     "crop_x" := VInt 0;
     "crop_y" := VInt 0;
     "crop_width" := VInt w;
     "crop_height" := VInt h ]}.

Definition plan_crop (x y w h : Z) (operation : string) : dict :=
  {[ "needs_crop" := VBool true;
     "crop_x" := VInt x;
     "crop_y" := VInt y;
     "crop_width" := VInt w;
     "crop_height" := VInt h;
     "operation" := VStr operation ]}.

Definition plan_pad (w h pad_height : Z) : dict :=
  {[ "needs_crop" := VBool true;
     "crop_x" := VInt 0;
     "crop_y" := VInt 0;
     "crop_width" := VInt w;
     "crop_height" := VInt h;
     "pad_height" := VInt pad_height;
     "operation" := VStr "add_padding" ]}.

(** [abs(current_ratio - target_ratio) < 0.01] *)
Definition within_tolerance (current target : float) : bool :=
  flt (fabs (fsub current target)) lit_0_01.

Definition calculate_crop_parameters
    (info : video_info) (subject_center : Z * Z) : result dict :=
  let width := width info in
  let height := height info in
  let* target_ratio := int_truediv 9 16 in
  let* current_ratio := int_truediv width height in
  let '(subject_x, subject_y) := subject_center in
  if within_tolerance current_ratio target_ratio then
    Ok (plan_none width height)
  else if fgt current_ratio target_ratio then
    let* fheight := of_int height in
    let* target_width := to_int (fmul fheight target_ratio) in
    let crop_x :=
      Z.max 0 (Z.min (subject_x - target_width / 2) (width - target_width)) in
    let crop_y := 0 in
    Ok (plan_crop crop_x crop_y target_width height "crop_width")
  else
    let* fwidth := of_int width in
    let* quotient := float_div fwidth target_ratio in
    let* target_height := to_int quotient in
    if target_height <=? height then
      let crop_y :=
        Z.max 0 (Z.min (subject_y - target_height / 2) (height - target_height)) in
      let crop_x := 0 in
      Ok (plan_crop crop_x crop_y width target_height "crop_height")
    else
      let pad_height := target_height - height in
      Ok (plan_pad width height pad_height).

(** The [else] branch of [calculate_crop_parameters] ("Video is too
    narrow - need to crop height or add padding") on its own: what the
    planner runs once the tolerance test and the test
    [current_ratio > target_ratio] have both failed.
    [calculate_crop_parameters_else_branch] below shows that the planner
    is built from it. *)
Definition too_narrow_branch
    (width height : Z) (target_ratio : float) (subject_y : Z) : result dict :=
  let* fwidth := of_int width in
  let* quotient := float_div fwidth target_ratio in
  let* target_height := to_int quotient in
  if target_height <=? height then
    let crop_y :=
      Z.max 0 (Z.min (subject_y - target_height / 2) (height - target_height)) in
    let crop_x := 0 in
    Ok (plan_crop crop_x crop_y width target_height "crop_height")
  else
    let pad_height := target_height - height in
    Ok (plan_pad width height pad_height).


(** The same decisions in integer arithmetic, with every quotient taken
    exactly: [|w/h - 9/16| < 1/100] is [100 * |16 w - 9 h| < 16 h], and
    [w/h > 9/16] is [9 h < 16 w].  [calculate_crop_parameters_integer]
    below proves that the floating-point code computes this plan. *)
Definition integer_plan (width height : Z) (subject_center : Z * Z) : dict :=
  let '(subject_x, subject_y) := subject_center in
  if 100 * Z.abs (16 * width - 9 * height) <? 16 * height then
    plan_none width height
  else if 9 * height <? 16 * width then
    let target_width := 9 * height / 16 in
    let crop_x :=
      Z.max 0 (Z.min (subject_x - target_width / 2) (width - target_width)) in
    plan_crop crop_x 0 target_width height "crop_width"
  else
    let target_height := 16 * width / 9 in
    if target_height <=? height then
      let crop_y :=
        Z.max 0 (Z.min (subject_y - target_height / 2) (height - target_height)) in
      plan_crop 0 crop_y width target_height "crop_height"
    else
      plan_pad width height (target_height - height).

(** Pixel dimensions as the probe delivers them: positive C ints. *)
Definition pixel_dim (n : Z) : Prop := 0 < n < 2 ^ 31.

(** [|w/h - 9/16| < 0.01], cross-multiplied. *)
Definition near_target (w h : Z) : Prop :=
  100 * Z.abs (16 * w - 9 * h) < 16 * h.

(** The dimensions of the frame the executor produces from a plan
    ([process_video]): the crop rectangle for the two crop operations,
    [crop_width x (crop_height + pad_height)] for padding, and nothing
    for a plan without an operation. *)
Definition output_dims (crop_params : dict) : option (Z * Z) :=
  match crop_params !! "operation",
        crop_params !! "crop_width", crop_params !! "crop_height" with
  | Some (VStr op), Some (VInt w), Some (VInt h) =>
    if String.eqb op "add_padding" then
      match crop_params !! "pad_height" with
      | Some (VInt pad) => Some (w, h + pad)
      | _ => None
      end
    else Some (w, h)
  | _, _, _ => None
  end.

(** ** [detect_subjects] *)

(** What MediaPipe hands back: a face detection's
    [location_data.relative_bounding_box] and a pose landmark, both in
    normalised coordinates. *)
Record bounding_box : Type := {
  xmin : float;
  ymin : float;
  box_width : float;
  box_height : float
}.

Record landmark : Type := {
  lm_x : float;
  lm_y : float
}.

(** [mp.solutions.pose.PoseLandmark.*.value] *)
Definition LEFT_SHOULDER : nat := 11.
Definition RIGHT_SHOULDER : nat := 12.
Definition LEFT_HIP : nat := 23.
Definition RIGHT_HIP : nat := 24.

(** [landmarks[i]] *)
Definition landmark_at (landmarks : list landmark) (i : nat) : result landmark :=
  match nth_error landmarks i with
  | Some l => Ok l
  | None => Raise IndexError
  end.

Definition subject : Type := Z * Z * string.

Definition subject_x (s : subject) : Z := fst (fst s).
Definition subject_y (s : subject) : Z := snd (fst s).

(** [int((lo + extent/2) * size)] *)
Definition box_center (lo extent : float) (size : Z) : result Z :=
  let* two := of_int 2 in
  let* half := float_div extent two in
  let* fsize := of_int size in
  to_int (fmul (fadd lo half) fsize).

(** The body of the loop over [face_results.detections]. *)
Definition face_subject (bbox : bounding_box) (width height : Z)
  : result subject :=
  let* center_x := box_center (xmin bbox) (box_width bbox) width in
  let* center_y := box_center (ymin bbox) (box_height bbox) height in
  Ok (center_x, center_y, "face").

(** The loop runs inside [try]: an exception stops it and keeps what was
    appended before. *)
Fixpoint face_loop (detections : list bounding_box) (width height : Z)
    (subjects : list subject) : list subject :=
  match detections with
  | [] => subjects
  | bbox :: rest =>
    match face_subject bbox width height with
    | Ok s => face_loop rest width height (subjects ++ [s])
    | Raise _ => subjects
    end
  end.

(** [int(((a + b + c + d) / 4) * size)] *)
Definition torso_coordinate (a b c d : float) (size : Z) : result Z :=
  let* four := of_int 4 in
  let* mean := float_div (fadd (fadd (fadd a b) c) d) four in
  let* fsize := of_int size in
  to_int (fmul mean fsize).

Definition torso_subject (landmarks : list landmark) (width height : Z)
  : result subject :=
  let* left_shoulder := landmark_at landmarks LEFT_SHOULDER in
  let* right_shoulder := landmark_at landmarks RIGHT_SHOULDER in
  let* left_hip := landmark_at landmarks LEFT_HIP in
  let* right_hip := landmark_at landmarks RIGHT_HIP in
  let* center_x :=
    torso_coordinate (lm_x left_shoulder) (lm_x right_shoulder)
      (lm_x left_hip) (lm_x right_hip) width in
  let* center_y :=
    torso_coordinate (lm_y left_shoulder) (lm_y right_shoulder)
      (lm_y left_hip) (lm_y right_hip) height in
  Ok (center_x, center_y, "person").

(** [int(sum(...) / len(...))] over one coordinate *)
Definition mean_coordinate (values : list Z) : result float :=
  int_truediv (sum values) (Z.of_nat (length values)).

Section Detectors.

(** A decoded frame, its [shape[:2]] (height, then width), and the two
    MediaPipe models: each either raises or returns its detections
    ([detections] being [None] is the empty list; [pose_landmarks]
    being [None] is [None]). *)
Variable frame : Type.
Variable shape : frame -> Z * Z.
Variable face_process : frame -> result (list bounding_box).
Variable pose_process : frame -> result (option (list landmark)).

(** The first [try] block. *)
Definition detect_faces (f : frame) (width height : Z)
    (subjects : list subject) : list subject :=
  match face_process f with
  | Ok detections => face_loop detections width height subjects
  | Raise _ => subjects
  end.

(** The second [try] block. *)
Definition detect_pose (f : frame) (width height : Z)
    (subjects : list subject) : list subject :=
  match pose_process f with
  | Ok (Some landmarks) =>
    match torso_subject landmarks width height with
    | Ok s => subjects ++ [s]
    | Raise _ => subjects
    end
  | Ok None => subjects
  | Raise _ => subjects
  end.

Definition detect_subjects (f : frame) : result (Z * Z) :=
  let '(height, width) := shape f in
  let subjects := [] in
  let subjects := detect_faces f width height subjects in
  let subjects := detect_pose f width height subjects in
  match subjects with
  | _ :: _ =>
    let* avg_x := mean_coordinate (map subject_x subjects) in
    let* avg_y := mean_coordinate (map subject_y subjects) in
    let* x := to_int avg_x in
    let* y := to_int avg_y in
    Ok (x, y)
  | [] => Ok (width / 2, height / 2)
  end.

(** The centre [detect_subjects] returns for a frame
    ([detect_subjects_total]: it always returns one). *)
Definition center_of (f : frame) : Z * Z :=
  match detect_subjects f with
  | Ok c => c
  | Raise _ => (0, 0)
  end.

(** ** [analyze_video_for_cropping] *)

(** [cv2.VideoCapture]: whether it opened, [int(cap.get(
    CAP_PROP_FRAME_COUNT))], and what [cap.read()] returns after
    seeking to a frame number ([None] when [ret] is false). *)
Record capture : Type := {
  isOpened : bool;
  frame_count : Z;
  read_at : Z -> option frame
}.

(** [int((i / sample_frames) * total_frames)] *)
Definition frame_number (i sample_frames total_frames : Z) : result Z :=
  let* fraction := int_truediv i sample_frames in
  let* ftotal := of_int total_frames in
  to_int (fmul fraction ftotal).

(** The [for i in range(sample_frames)] loop; besides
    [subject_centers] it records the frame numbers it seeks to. *)
Fixpoint sample_loop (cap : capture) (indices : list Z)
    (sample_frames total_frames : Z)
    (seeks : list Z) (subject_centers : list (Z * Z))
  : result (list Z * list (Z * Z)) :=
  match indices with
  | [] => Ok (seeks, subject_centers)
  | i :: rest =>
    let* frame_num := frame_number i sample_frames total_frames in
    match read_at cap frame_num with
    | Some f =>
      let* center := detect_subjects f in
      sample_loop cap rest sample_frames total_frames
        (seeks ++ [frame_num]) (subject_centers ++ [center])
    | None =>
      sample_loop cap rest sample_frames total_frames
        (seeks ++ [frame_num]) subject_centers
    end
  end.

(** From [total_frames = ...] to the choice of [subject_center]. *)
Definition sample_subject_center (info : video_info) (cap : capture)
  : result (list Z * (Z * Z)) :=
  let total_frames := frame_count cap in
  let sample_frames := Z.min 5 total_frames in
  let* sampled :=
    sample_loop cap (range sample_frames) sample_frames total_frames [] [] in
  let '(seeks, subject_centers) := sampled in
  match subject_centers with
  | _ :: _ =>
    let* avg_x := mean_coordinate (map fst subject_centers) in
    let* avg_y := mean_coordinate (map snd subject_centers) in
    let* x := to_int avg_x in
    let* y := to_int avg_y in
    Ok (seeks, (x, y))
  | [] => Ok (seeks, (width info / 2, height info / 2))
  end.

Inductive analysis : Type :=
  | AnalysisError (error : string)
  | AlreadyTarget (reason : string) (info : video_info)
  | Analysis (needs_processing : pyval) (info : video_info)
      (subject_center : Z * Z) (crop_params : dict).

Definition analyze_video_for_cropping
    (probe : option video_info) (cap : capture) : result analysis :=
  match probe with
  | None => Ok (AnalysisError "Could not read video information")
  | Some info =>
    if within_tolerance (aspect_ratio info) (target_ratio info) then
      Ok (AlreadyTarget "Already 9:16 aspect ratio" info)
    else if negb (isOpened cap) then
      Ok (AnalysisError "Could not open video file")
    else
      let* sampled := sample_subject_center info cap in
      let subject_center := snd sampled in
      let* crop_params := calculate_crop_parameters info subject_center in
      let* needs_crop := getitem crop_params "needs_crop" in
      Ok (Analysis needs_crop info subject_center crop_params)
  end.

End Detectors.

Arguments detect_faces {frame} face_process f width height subjects.
Arguments detect_pose {frame} pose_process f width height subjects.
Arguments detect_subjects {frame} shape face_process pose_process f.
Arguments center_of {frame} shape face_process pose_process f.
Arguments isOpened {frame} c.
Arguments frame_count {frame} c.
Arguments read_at {frame} c _.
Arguments sample_loop {frame} shape face_process pose_process cap indices
  sample_frames total_frames seeks subject_centers.
Arguments sample_subject_center {frame} shape face_process pose_process
  info cap.
Arguments analyze_video_for_cropping {frame} shape face_process pose_process
  probe cap.

(** The frames that decode among the given frame numbers, in order. *)
Fixpoint decoded_frames {frame : Type} (cap : capture frame)
    (frame_nums : list Z) : list frame :=
  match frame_nums with
  | [] => []
  | n :: rest =>
    match read_at cap n with
    | Some f => f :: decoded_frames cap rest
    | None => decoded_frames cap rest
    end
  end.

(** A clip of twelve frames none of which decodes. *)
Definition undecodable_clip : capture unit :=
  {| isOpened := true; frame_count := 12; read_at := fun _ => None |}.

(** ** [process_video] *)

(** The filter handed to FFmpeg. *)
Inductive video_filter : Type :=
  | Crop (x y w h : Z)
  | Pad (w h x y : Z) (color : string)
  | Unfiltered.

(** [crop_params[key]] used as a number. *)
Definition getint (crop_params : dict) (key : string) : result Z :=
  let* v := getitem crop_params key in as_int v.

(** "Apply crop or pad filter based on operation". *)
Definition select_filter (crop_params : dict) : result video_filter :=
  let* operation := getitem crop_params "operation" in
  let* is_crop :=
    if pyval_eqb operation (VStr "crop_width") then Ok true
    else
      let* operation' := getitem crop_params "operation" in
      Ok (pyval_eqb operation' (VStr "crop_height")) in
  if (is_crop : bool) then
    let* x := getint crop_params "crop_x" in
    let* y := getint crop_params "crop_y" in
    let* w := getint crop_params "crop_width" in
    let* h := getint crop_params "crop_height" in
    Ok (Crop x y w h)
  else
    let* operation' := getitem crop_params "operation" in
    if pyval_eqb operation' (VStr "add_padding") then
      let* crop_height := getint crop_params "crop_height" in
      let* pad_height := getint crop_params "pad_height" in
      let total_height := crop_height + pad_height in
      let* pad_height' := getint crop_params "pad_height" in
      let pad_y := pad_height' / 2 in
      let* crop_width := getint crop_params "crop_width" in
      Ok (Pad crop_width total_height 0 pad_y "black")
    else Ok Unfiltered.

(** The body of the [try]: the probe of the input, the filter, and the
    FFmpeg run, which either completes or raises. *)
Definition process_video_body (probe : option video_info) (crop_params : dict)
    (run_ffmpeg : video_filter -> bool -> result unit) : result bool :=
  match probe with
  | None => Ok false
  | Some info =>
    let* stream := select_filter crop_params in
    let* done := run_ffmpeg stream (has_audio info) in
    Ok true
  end.

(** Both [except] clauses print and return [False]. *)
Definition process_video (probe : option video_info) (crop_params : dict)
    (run_ffmpeg : video_filter -> bool -> result unit) : bool :=
  match process_video_body probe crop_params run_ffmpeg with
  | Ok b => b
  | Raise _ => false
  end.

(** The largest finite binary64, [2^1024 - 2^971], as an integer. *)
Definition max_float_int : Z := (2 ^ 53 - 1) * 2 ^ 971.

(** A probe result of the given dimensions, the other fields as
    [get_video_info] fills them for a silent one-second clip. *)
Definition probe_result (w h : Z) : video_info :=
  {| width := w;
     height := h;
     duration := S754_finite false 4503599627370496 (-52);
     fps := S754_finite false 8444249301319680 (-48);
     bitrate := 0;
     aspect_ratio :=
       match int_truediv w h with
       | Ok r => r
       | Raise _ => S754_nan
       end;
     target_ratio := S754_finite false 5066549580791808 (-53);
     has_audio := false |}.

(** [clamp(v, lo, hi)] as the code writes it: [max(lo, min(v, hi))]. *)
Definition clamp (v lo hi : Z) : Z := Z.max lo (Z.min v hi).

(** The shape of a [crop_width] plan: full height, the window
    [floor(9 h / 16)] wide, centred on the subject and clamped inside
    the frame. *)
Definition crop_width_plan_at (info : video_info) (subject_center : Z * Z)
  : Prop :=
  let w := width info in
  let h := height info in
  let target_width := 9 * h / 16 in
  exists crop_x,
    calculate_crop_parameters info subject_center
    = Ok (plan_crop crop_x 0 target_width h "crop_width") /\
    crop_x = clamp (fst subject_center - target_width / 2) 0 (w - target_width) /\
    0 <= crop_x /\ crop_x + target_width <= w.

(** The shape of a [crop_height] plan: full width, the window
    [floor(16 w / 9)] high, centred on the subject and clamped. *)
Definition crop_height_plan_at (info : video_info) (subject_center : Z * Z)
  : Prop :=
  let w := width info in
  let h := height info in
  let target_height := 16 * w / 9 in
  exists crop_y,
    calculate_crop_parameters info subject_center
    = Ok (plan_crop 0 crop_y w target_height "crop_height") /\
    crop_y = clamp (snd subject_center - target_height / 2) 0 (h - target_height) /\
    0 <= crop_y /\ crop_y + target_height <= h.

(** The shape of an [add_padding] plan: the full source frame and
    [pad_height = floor(16 w / 9) - h]. *)
Definition add_padding_plan_at (info : video_info) (subject_center : Z * Z)
  : Prop :=
  let w := width info in
  let h := height info in
  calculate_crop_parameters info subject_center
  = Ok (plan_pad w h (16 * w / 9 - h)).

(** A subject whose pixel coordinates are those of a finite binary64. *)
Definition bounded_subject (s : subject) : Prop :=
  Z.abs (subject_x s) <= max_float_int /\ Z.abs (subject_y s) <= max_float_int.

(** The mean of integers truncated toward zero, [int(sum(l) / len(l))]
    in exact arithmetic. *)
Definition truncated_mean (l : list Z) : Z :=
  Z.quot (sum l) (Z.of_nat (length l)).

(** The torso point the pose block appends: none without landmarks. *)
Definition torso_conversion (pose : option (list landmark)) (w h : Z)
    (torso : list subject) : Prop :=
  match pose with
  | None => torso = []
  | Some landmarks =>
    exists t, torso_subject landmarks w h = Ok t /\ torso = [t]
  end.

(** Two faces and a body in a 1920x1080 frame. *)
Definition quarter : float := S754_finite false 4503599627370496 (-54).
Definition half : float := S754_finite false 4503599627370496 (-53).

Definition two_faces : list bounding_box :=
  [ {| xmin := quarter; ymin := quarter; box_width := half; box_height := half |};
    {| xmin := half; ymin := half; box_width := quarter; box_height := quarter |} ].

Definition centred_body : list landmark :=
  repeat {| lm_x := half; lm_y := half |} 33.

(** * Verification *)

(** ** Real values of binary64 numbers

    The reals are used only to state what the floating-point operations
    compute; the results about the program are stated over [Z]. *)

Definition bpow (e : Z) : R := powerRZ 2 e.

Definition F2R (m e : Z) : R := (IZR m * bpow e)%R.

(** The state of the right-shift of [SpecFloat]: the real [x] lies in
    [[m * 2^e, (m+1) * 2^e)], the round bit tells whether it is in the
    upper half, the sticky bit whether it is off the two marks. *)
Definition rec_located (x : R) (mrs : shr_record) (e : Z) : Prop :=
  0 <= shr_m mrs /\
  (F2R (shr_m mrs) e <= x < F2R (shr_m mrs + 1) e)%R /\
  (shr_r mrs = true <-> (F2R (shr_m mrs) e + bpow e / 2 <= x)%R) /\
  (shr_s mrs = true <->
   x <> (F2R (shr_m mrs) e + (if shr_r mrs then bpow e / 2 else 0))%R).

Definition located (x : R) (m e : Z) (l : location) : Prop :=
  rec_located x (shr_record_of_loc m l) e.

(** The value [binary_round_aux] builds from a rounded mantissa. *)
Definition build (s : bool) (m e : Z) : float :=
  match m with
  | Z0 => S754_zero s
  | Zpos p => if e <=? emax - prec then S754_finite s p e else S754_infinity s
  | Zneg _ => S754_nan
  end.

(** [rounded x p e]: the binary64 of mantissa [p] and exponent [e] is a
    nearest one to the positive real [x], in the normal range. *)
Definition rounded (x : R) (p : positive) (e : Z) : Prop :=
  exists E : Z,
    2 ^ 52 <= Zpos p < 2 ^ 53 /\
    (e = E - 53 \/ (e = E - 52 /\ p = (2 ^ 52)%positive)) /\
    (Rabs (F2R (Zpos p) e - x) <= bpow (E - 54))%R /\
    (bpow (E - 1) <= x < bpow E)%R /\
    (forall k, x = F2R k (E - 53) -> F2R (Zpos p) e = x).

(** The value of [target_ratio = 9/16]. *)
Definition c916 : float := S754_finite false 5066549580791808 (-53).

(** ** [get_video_info]: reading the probe *)

(** A scalar of the JSON documents the application reads: the stream
    entries ffprobe prints and the items of [history.json]. *)
Inductive json : Type :=
  | JNull
  | JBool (b : bool)
  | JInt (z : Z)
  | JFloat (x : float)
  | JStr (s : string).

Definition json_eqb_str (v : json) (s : string) : bool :=
  match v with
  | JStr t => String.eqb t s
  | _ => false
  end.

(** Truth value of a JSON scalar in a condition. *)
Definition json_truthy (v : json) : bool :=
  match v with
  | JNull => false
  | JBool b => b
  | JInt z => negb (z =? 0)
  | JFloat x => negb (is_zero x)
  | JStr s => negb (String.eqb s "")
  end.

Definition stream : Type := gmap string json.

(** [stream[key]] *)
Definition stream_item (s : stream) (key : string) : result json :=
  match s !! key with
  | Some v => Ok v
  | None => Raise (KeyError key)
  end.

(** [stream.get(key, default)] *)
Definition stream_get (s : stream) (key : string) (default : json) : json :=
  match s !! key with
  | Some v => v
  | None => default
  end.

(** [next((stream for stream in streams if stream['codec_type'] == codec),
    None)]: the generator stops at the first match, and raises when a
    stream it reaches has no ['codec_type']. *)
Fixpoint next_stream (codec : string) (streams : list stream)
  : result (option stream) :=
  match streams with
  | [] => Ok None
  | s :: rest =>
    let* codec_type := stream_item s "codec_type" in
    if json_eqb_str codec_type codec then Ok (Some s)
    else next_stream codec rest
  end.

(** The conversions of strings that the standard library does: [int(s)],
    [float(s)], and [eval(s)] of a frame-rate string, the value of which is
    kept as a float. *)
Record parsers : Type := {
  int_of_str : string -> result Z;
  float_of_str : string -> result float;
  eval_str : string -> result float
}.

Definition bool_int (b : bool) : Z := if b then 1 else 0.

(** [int(v)] *)
Definition py_int (p : parsers) (v : json) : result Z :=
  match v with
  | JNull => Raise TypeError
  | JBool b => Ok (bool_int b)
  | JInt z => Ok z
  | JFloat x => to_int x
  | JStr s => int_of_str p s
  end.

(** [float(v)] *)
Definition py_float (p : parsers) (v : json) : result float :=
  match v with
  | JNull => Raise TypeError
  | JBool b => of_int (bool_int b)
  | JInt z => of_int z
  | JFloat x => Ok x
  | JStr s => float_of_str p s
  end.

(** [eval(v)] *)
Definition py_eval (p : parsers) (v : json) : result float :=
  match v with
  | JStr s => eval_str p s
  | _ => Raise TypeError
  end.

(** The body of the [try]; [probe] is the outcome of
    [ffmpeg.probe(video_path)['streams']]. *)
Definition get_video_info_body (p : parsers) (probe : result (list stream))
  : result (option video_info) :=
  let* streams := probe in
  let* video_stream := next_stream "video" streams in
  let* audio_stream := next_stream "audio" streams in
  match video_stream with
  | None => Ok None
  | Some video_stream =>
    let* w := stream_item video_stream "width" in
    let* width := py_int p w in
    let* h := stream_item video_stream "height" in
    let* height := py_int p h in
    let* duration := py_float p (stream_get video_stream "duration" (JInt 0)) in
    let* fps :=
      py_eval p (stream_get video_stream "avg_frame_rate" (JStr "30/1")) in
    let* bitrate := py_int p (stream_get video_stream "bit_rate" (JInt 0)) in
    Ok (make_video_info width height duration fps bitrate
          (match audio_stream with Some _ => true | None => false end))
  end.

(** [except Exception]: print and return [None]. *)
Definition get_video_info (p : parsers) (probe : result (list stream))
  : option video_info :=
  match get_video_info_body p probe with
  | Ok info => info
  | Raise _ => None
  end.

(** What every record returned by [get_video_info] satisfies. *)
Definition probed (info : video_info) : Prop :=
  height info <> 0 /\
  int_truediv (width info) (height info) = Ok (aspect_ratio info) /\
  target_ratio info = c916.

(** ** Paths: [os.path.splitext] and [os.path.basename]

    A Python [str] is the [string] of its characters. *)

(** [p.rfind(c)]: the highest index at which [c] occurs, [-1] if none. *)
Fixpoint rfind_from (p : string) (c : Ascii.ascii) (i found : Z) : Z :=
  match p with
  | EmptyString => found
  | String a rest =>
    rfind_from rest c (i + 1) (if Ascii.eqb a c then i else found)
  end.

Definition rfind (p : string) (c : Ascii.ascii) : Z := rfind_from p c 0 (-1).

Fixpoint string_take (n : nat) (p : string) : string :=
  match n, p with
  | S k, String a rest => String a (string_take k rest)
  | _, _ => EmptyString
  end.

Fixpoint string_drop (n : nat) (p : string) : string :=
  match n, p with
  | S k, String _ rest => string_drop k rest
  | _, _ => p
  end.

(** [p[:i]] and [p[i:]] for [0 <= i]. *)
Definition slice_to (p : string) (i : Z) : string := string_take (Z.to_nat i) p.
Definition slice_from (p : string) (i : Z) : string := string_drop (Z.to_nat i) p.

(** [p[i:i+1] != '.'] *)
Definition not_dot_at (p : string) (i : Z) : bool :=
  match String.get (Z.to_nat i) p with
  | Some a => negb (Ascii.eqb a "."%char)
  | None => true
  end.

(** The loop [while filenameIndex < dotIndex] that skips the leading dots
    of the file name: [true] when it finds another character and the path
    is split at the last dot. *)
Fixpoint skip_leading_dots (p : string) (filenameIndex : Z) (steps : nat)
  : bool :=
  match steps with
  | O => false
  | S k =>
    if not_dot_at p filenameIndex then true
    else skip_leading_dots p (filenameIndex + 1) k
  end.

(** [os.path.splitext(p)] *)
Definition splitext (p : string) : string * string :=
  let sepIndex := rfind p "/"%char in
  let dotIndex := rfind p "."%char in
  if (sepIndex <? dotIndex)
     && skip_leading_dots p (sepIndex + 1) (Z.to_nat (dotIndex - (sepIndex + 1)))
  then (slice_to p dotIndex, slice_from p dotIndex)
  else (p, ""%string).

(** [os.path.basename(p)] *)
Definition basename (p : string) : string := slice_from p (rfind p "/"%char + 1).

(** The characters of a string. *)
Fixpoint chars (s : string) : list ascii :=
  match s with
  | EmptyString => []
  | String a rest => a :: chars rest
  end.

(** ** The routes of [app.py] that call the processor *)

(** What a request sees of the machine it runs on: the files that exist,
    what ffprobe and OpenCV read from a file, what MediaPipe finds in a
    frame, how an FFmpeg run from an input into an output file ends, and
    the text [str(e)] of an exception. *)
Record machine (frame : Type) : Type := {
  path_exists : string -> bool;
  ffprobe : string -> result (list stream);
  parse : parsers;
  video_capture : string -> capture frame;
  frame_shape : frame -> Z * Z;
  face_detection : frame -> result (list bounding_box);
  pose_detection : frame -> result (option (list landmark));
  ffmpeg_run : string -> string -> video_filter -> bool -> result unit;
  exception_text : exn -> string
}.

Arguments path_exists {frame} m _.
Arguments ffprobe {frame} m _.
Arguments parse {frame} m.
Arguments video_capture {frame} m _.
Arguments frame_shape {frame} m _.
Arguments face_detection {frame} m _.
Arguments pose_detection {frame} m _.
Arguments ffmpeg_run {frame} m _ _ _ _.
Arguments exception_text {frame} m _.

(** [video_processor.get_video_info(video_path)] *)
Definition probe_file {frame : Type} (m : machine frame) (video_path : string)
  : option video_info :=
  get_video_info (parse m) (ffprobe m video_path).

(** [video_processor.analyze_video_for_cropping(video_path)] *)
Definition analyze_file {frame : Type} (m : machine frame) (video_path : string)
  : result analysis :=
  analyze_video_for_cropping (frame_shape m) (face_detection m)
    (pose_detection m) (probe_file m video_path) (video_capture m video_path).

(** [video_processor.process_video(input_path, output_path, crop_params)] *)
Definition process_file {frame : Type} (m : machine frame)
    (input_path output_path : string) (crop_params : dict) : bool :=
  process_video (probe_file m input_path) crop_params
    (ffmpeg_run m input_path output_path).

(** The JSON a route answers with: [{'success': False, 'error': ...}],
    [{'success': True, 'analysis': ...}] and [{'success': True,
    'output_path': ..., 'output_filename': ..., 'analysis': ...}]. *)
Inductive response : Type :=
  | Failure (error : string)
  | Analyzed (a : analysis)
  | Processed (output_path output_filename : string) (a : analysis).

(** Truth value of a plan item in a condition. *)
Definition truthy (v : pyval) : bool :=
  match v with
  | VBool b => b
  | VInt z => negb (z =? 0)
  | VStr s => negb (String.eqb s "")
  end.

(** [not video_path or not os.path.exists(video_path)], for the
    [video_path] of the request: a string, or [None] when the field is
    absent. *)
Definition missing_file {frame : Type} (m : machine frame)
    (video_path : option string) : bool :=
  match video_path with
  | None => true
  | Some path => String.eqb path "" || negb (path_exists m path)
  end.

(** [/api/analyze_video] *)
Definition analyze_video {frame : Type} (m : machine frame)
    (video_path : option string) : response :=
  match video_path with
  | None => Failure "Video file not found"
  | Some path =>
    if missing_file m video_path then Failure "Video file not found"
    else
      match analyze_file m path with
      | Raise e => Failure (exception_text m e)
      | Ok (AnalysisError error) => Failure error
      | Ok analysis => Analyzed analysis
      end
  end.

(** [/api/process_video] *)
Definition process_video_route {frame : Type} (m : machine frame)
    (video_path : option string) : response :=
  match video_path with
  | None => Failure "Video file not found"
  | Some path =>
    if missing_file m video_path then Failure "Video file not found"
    else
      match analyze_file m path with
      | Raise e => Failure (exception_text m e)
      | Ok (AnalysisError error) => Failure error
      | Ok (AlreadyTarget reason info) =>
        Failure "Video does not need processing - already 9:16 aspect ratio"
      | Ok (Analysis needs_processing info subject_center crop_params) =>
        if negb (truthy needs_processing) then
          Failure "Video does not need processing - already 9:16 aspect ratio"
        else
          let base_name := fst (splitext path) in
          let extension := snd (splitext path) in
          let output_path :=
            (base_name ++ "_crop916" ++ extension)%string in
          if path_exists m output_path then
            Failure ("Processed file already exists: "
                     ++ basename output_path)%string
          else if process_file m path output_path crop_params then
            Processed output_path (basename output_path)
              (Analysis needs_processing info subject_center crop_params)
          else Failure "Video processing failed"
      end
  end.

(** ** Detections inside the frame *)

(** The real number a float stands for (zero for the special values). *)
Definition float_value (x : float) : R :=
  match x with
  | S754_finite s m e => F2R (cond_Zopp s (Zpos m)) e
  | _ => 0%R
  end.

(** Zero, or a positive finite float. *)
Definition nonneg_finite (x : float) : Prop :=
  match x with
  | S754_zero _ => True
  | S754_finite s _ _ => s = false
  | _ => False
  end.

(** A normalised coordinate as MediaPipe reports it for a point of the
    image: a binary64 number between 0 and 1. *)
Definition unit_coordinate (x : float) : Prop :=
  valid_binary prec emax x = true /\ nonneg_finite x /\
  (float_value x <= 1)%R.

(** A side of a relative bounding box that lies inside the image. *)
Definition side_inside (lo extent : float) : Prop :=
  nonneg_finite lo /\
  valid_binary prec emax extent = true /\ nonneg_finite extent /\
  (float_value lo + float_value extent <= 1)%R.

Definition box_inside (bbox : bounding_box) : Prop :=
  side_inside (xmin bbox) (box_width bbox) /\
  side_inside (ymin bbox) (box_height bbox).

Definition landmark_inside (l : landmark) : Prop :=
  unit_coordinate (lm_x l) /\ unit_coordinate (lm_y l).

(** The four landmarks of the torso are inside the image. *)
Definition torso_inside (landmarks : list landmark) : Prop :=
  forall i l,
    In i [LEFT_SHOULDER; RIGHT_SHOULDER; LEFT_HIP; RIGHT_HIP] ->
    nth_error landmarks i = Some l -> landmark_inside l.

(** A point of a frame of the given size. *)
Definition in_frame (width height : Z) (point : Z * Z) : Prop :=
  0 <= fst point <= width /\ 0 <= snd point <= height.

(** A non-negative float of value at most [b]. *)
Definition at_most (x : float) (b : R) : Prop :=
  nonneg_finite x /\ (float_value x <= b)%R.

(** What the two models report for a frame lies inside the image. *)
Definition detections_inside {frame : Type}
    (face_process : frame -> result (list bounding_box))
    (pose_process : frame -> result (option (list landmark)))
    (f : frame) : Prop :=
  (forall detections,
     face_process f = Ok detections -> Forall box_inside detections) /\
  (forall landmarks,
     pose_process f = Ok (Some landmarks) -> torso_inside landmarks).

(** ** [scan_folder]: the history index and the classification of a file *)

(** [{item['filename']: item for item in history
      if item.get('status') == status}]: a later item replaces an earlier
    one of the same name.  A key that is not a string equals no file name
    and is left out. *)
Fixpoint files_with_status (status : string) (history : list stream)
    (files : gmap string stream) : result (gmap string stream) :=
  match history with
  | [] => Ok files
  | item :: rest =>
    if json_eqb_str (stream_get item "status" JNull) status then
      let* name := stream_item item "filename" in
      files_with_status status rest
        (match name with
         | JStr filename => <[filename := item]> files
         | _ => files
         end)
    else files_with_status status rest files
  end.

(** An item of the history that the index files under [name]. *)
Definition filed_as (status name : string) (item : stream) : Prop :=
  json_eqb_str (stream_get item "status" JNull) status = true /\
  item !! "filename" = Some (JStr name).

(** [s.endswith(suffix)] *)
Definition endswith (s suffix : string) : bool :=
  (String.length suffix <=? String.length s)%nat
  && String.eqb
       (string_drop (String.length s - String.length suffix) s) suffix.

(** [os.path.join(a, b)] *)
Definition path_join (a b : string) : string :=
  match b with
  | String "/" _ => b
  | _ =>
    if String.eqb a "" || endswith a "/" then (a ++ b)%string
    else (a ++ "/" ++ b)%string
  end.

(** [s.replace('Z', '+00:00')] *)
Fixpoint replace_Z (s : string) : string :=
  match s with
  | EmptyString => EmptyString
  | String c rest =>
    if Ascii.eqb c "Z" then ("+00:00" ++ replace_Z rest)%string
    else String c (replace_Z rest)
  end.

(** What the scan needs of the machine besides [machine]: the size of a
    file, [datetime.fromisoformat(s).strftime('%b %d, %Y')], and the
    text of a ratio printed with two decimals. *)
Record scanner (frame : Type) : Type := {
  host : machine frame;
  getsize : string -> result Z;
  strftime_iso : string -> result string;
  format_2f : float -> string
}.

Arguments host {frame} s.
Arguments getsize {frame} s _.
Arguments strftime_iso {frame} s _.
Arguments format_2f {frame} s _.

(** The date shown for an earlier upload. *)
Definition formatted_date {frame : Type} (sc : scanner frame)
    (upload_date : json) : result string :=
  if json_truthy upload_date then
    match upload_date with
    | JStr s =>
      match strftime_iso sc (replace_Z s) with
      | Ok date => Ok date
      | Raise _ => Ok (string_take 10 s)
      end
    | _ => Raise TypeError
    end
  else Ok "Unknown date"%string.

(** An entry of the list [videos]. *)
Record scan_entry : Type := {
  entry_filename : string;
  entry_path : string;
  entry_valid : bool;
  entry_message : string;
  entry_status_type : string;
  entry_youtube_url : json;
  entry_upload_date : json;
  entry_needs_cropping : bool;
  entry_aspect_ratio : option float;
  entry_size : Z
}.

(** The basic validation of a new file. *)
Definition validate_new_file {frame : Type} (sc : scanner frame)
    (video_path : string) : bool * string * string :=
  match getsize sc video_path with
  | Ok file_size =>
    if file_size =? 0 then (false, "Empty file", "invalid")%string
    else if file_size <? 1024 then (false, "File too small", "invalid")%string
    else (true, "Ready to upload", "new")%string
  | Raise e =>
    (false, "Cannot read file: " ++ exception_text (host sc) e, "invalid")%string
  end.

(** The body of the loop of [scan_folder] for a file with a video
    extension. *)
Definition scan_file {frame : Type} (sc : scanner frame)
    (uploaded_files failed_files : gmap string stream)
    (folder_path filename : string) : result scan_entry :=
  let video_path := path_join folder_path filename in
  let video_info := probe_file (host sc) video_path in
  let* target_ratio := int_truediv 9 16 in
  let aspect_ratio_ok :=
    match video_info with
    | Some info => within_tolerance (aspect_ratio info) target_ratio
    | None => false
    end in
  let needs_cropping :=
    match video_info with
    | Some _ => negb aspect_ratio_ok
    | None => false
    end in
  let* verdict :=
    match uploaded_files !! filename, failed_files !! filename with
    | Some upload_info, _ =>
      let upload_date := stream_get upload_info "upload_date" (JStr "") in
      let youtube_url := stream_get upload_info "youtube_url" (JStr "") in
      let* date := formatted_date sc upload_date in
      Ok (false, ("Already uploaded (" ++ date ++ ")")%string,
          "duplicate"%string, youtube_url, upload_date)
    | None, Some upload_info =>
      let upload_date := stream_get upload_info "upload_date" (JStr "") in
      let* date := formatted_date sc upload_date in
      Ok (true,
          ("Previous upload failed (" ++ date ++ ") - Ready to retry")%string,
          "retry"%string, JNull, upload_date)
    | None, None =>
      if negb aspect_ratio_ok then
        Ok (false,
            match video_info with
            | Some info =>
              ("Not 9:16 AR (current: " ++ format_2f sc (aspect_ratio info)
               ++ ") - Auto-fix available")%string
            | None => "Cannot read video - Invalid format"%string
            end,
            "wrong_ar"%string, JNull, JNull)
      else
        let '(valid, message, status_type) := validate_new_file sc video_path in
        Ok (valid, message, status_type, JNull, JNull)
    end in
  let '(valid, message, status_type, youtube_url, upload_date) := verdict in
  let* size :=
    if path_exists (host sc) video_path then getsize sc video_path
    else Ok 0 in
  Ok {| entry_filename := filename;
        entry_path := video_path;
        entry_valid := valid;
        entry_message := message;
        entry_status_type := status_type;
        entry_youtube_url := youtube_url;
        entry_upload_date := upload_date;
        entry_needs_cropping := needs_cropping;
        entry_aspect_ratio :=
          match video_info with
          | Some info => Some (aspect_ratio info)
          | None => None
          end;
        entry_size := size |}.

(** ** Sample data: a clip on disk and the history of earlier uploads *)

(** Parsers of a probe that has no string to convert but the default
    frame rate ['30/1']. *)
Definition sample_parsers : parsers :=
  {| int_of_str := fun _ => Raise ValueError;
     float_of_str := fun _ => Raise ValueError;
     eval_str := fun _ => Ok (S754_finite false 8444249301319680 (-48)) |}.

(** The video stream of a silent one-second clip, and two streams that
    are no video. *)
Definition clip_stream (w h : Z) : stream :=
  {[ "codec_type" := JStr "video";
     "width" := JInt w;
     "height" := JInt h;
     "duration" := JFloat (S754_finite false 4503599627370496 (-52)) ]}.

Definition subtitle_stream : stream := {[ "codec_type" := JStr "subtitle" ]}.

Definition untyped_stream : stream := {[ "index" := JInt 1 ]}.

(** A clip of twelve frames, each of which decodes. *)
Definition decodable_clip : capture unit :=
  {| isOpened := true; frame_count := 12; read_at := fun _ => Some tt |}.

(** A machine with the single file [/videos/clip.mp4], a [w] x [h] clip
    in which MediaPipe finds nothing, and an FFmpeg that succeeds. *)
Definition sample_machine (w h : Z) : machine unit :=
  {| path_exists := fun p => String.eqb p "/videos/clip.mp4";
     ffprobe := fun _ => Ok [clip_stream w h];
     parse := sample_parsers;
     video_capture := fun _ => decodable_clip;
     frame_shape := fun _ => (h, w);
     face_detection := fun _ => Ok [];
     pose_detection := fun _ => Ok None;
     ffmpeg_run := fun _ _ _ _ => Ok tt;
     exception_text := fun _ => "error"%string |}.

Definition sample_scanner (w h : Z) : scanner unit :=
  {| host := sample_machine w h;
     getsize := fun _ => Ok 4096;
     strftime_iso := fun _ => Raise ValueError;
     format_2f := fun _ => "1.78"%string |}.

Definition history_item (filename status upload_date : string) : stream :=
  {[ "filename" := JStr filename;
     "status" := JStr status;
     "upload_date" := JStr upload_date ]}.

Definition sample_history : list stream :=
  [ history_item "clip.mp4" "completed" "2025-01-05T10:00:00";
    history_item "other.mp4" "failed" "2025-01-06T10:00:00";
    history_item "clip.mp4" "completed" "2025-02-07T10:00:00" ].

(** A face whose box has no left edge. *)
Definition nan_box : bounding_box :=
  {| xmin := S754_nan; ymin := quarter; box_width := half; box_height := half |}.

Definition centre_face : bounding_box :=
  {| xmin := quarter; ymin := quarter; box_width := half; box_height := half |}.

Definition corner_face : bounding_box :=
  {| xmin := half; ymin := half; box_width := quarter; box_height := quarter |}.

(** The entry the scan makes for [/videos/clip.mp4] on the sample
    machine. *)
Definition scanned_clip (w h : Z) (valid : bool) (message status : string)
    (needs_cropping : bool) : scan_entry :=
  {| entry_filename := "clip.mp4";
     entry_path := "/videos/clip.mp4";
     entry_valid := valid;
     entry_message := message;
     entry_status_type := status;
     entry_youtube_url := JNull;
     entry_upload_date := JNull;
     entry_needs_cropping := needs_cropping;
     entry_aspect_ratio := Some (aspect_ratio (probe_result w h));
     entry_size := 4096 |}.

(** A scanner whose ffprobe fails on every file. *)
Definition unreadable_scanner : scanner unit :=
  {| host :=
       {| path_exists := fun _ => true;
          ffprobe := fun _ => Raise (ExternalError "ffprobe error");
          parse := sample_parsers;
          video_capture := fun _ => undecodable_clip;
          frame_shape := fun _ => (0, 0);
          face_detection := fun _ => Ok [];
          pose_detection := fun _ => Ok None;
          ffmpeg_run := fun _ _ _ _ => Ok tt;
          exception_text := fun _ => "error"%string |};
     getsize := fun _ => Ok 4096;
     strftime_iso := fun _ => Raise ValueError;
     format_2f := fun _ => "0.00"%string |}.


(** ** The model on concrete inputs

    The values CPython prints for the same expressions:
    [229/400 = 0x1.251eb851eb852p-1], [0.01 = 0x1.47ae147ae147bp-7],
    [abs(229/400 - 9/16) < 0.01] is [False],
    [int((3/5) * 12) = 7]. *)

Example truediv_229_400 :
  int_truediv 229 400 = Ok (S754_finite false 5156621573339218 (-53)).
Proof. vm_compute. reflexivity. Qed.

Example literal_0_01_nearest : int_truediv 1 100 = Ok lit_0_01.
Proof. vm_compute. reflexivity. Qed.

Example tolerance_edge_229_400 :
  (let* current_ratio := int_truediv 229 400 in
   let* target_ratio := int_truediv 9 16 in
   Ok (within_tolerance current_ratio target_ratio)) = Ok false.
Proof. vm_compute. reflexivity. Qed.

Example frame_number_3_of_12 : frame_number 3 5 12 = Ok 7.
Proof. vm_compute. reflexivity. Qed.

Example plan_1920_1080 :
  (let* plan := calculate_crop_parameters (probe_result 1920 1080) (960, 540) in
   Ok (plan !! "operation", plan !! "crop_x", plan !! "crop_width"))
  = Ok (Some (VStr "crop_width"), Some (VInt 657), Some (VInt 607)).
Proof. vm_compute. reflexivity. Qed.

Example plan_1080_1080 :
  (let* plan := calculate_crop_parameters (probe_result 1080 1080) (540, 540) in
   Ok (plan !! "operation", plan !! "crop_x", plan !! "crop_width"))
  = Ok (Some (VStr "crop_width"), Some (VInt 237), Some (VInt 607)).
Proof. vm_compute. reflexivity. Qed.

Example plan_1080_1920 :
  (let* plan := calculate_crop_parameters (probe_result 1080 1920) (540, 960) in
   Ok (plan !! "operation", plan !! "needs_crop", plan !! "crop_width"))
  = Ok (None, Some (VBool false), Some (VInt 1080)).
Proof. vm_compute. reflexivity. Qed.

Example plan_zero_height :
  calculate_crop_parameters (probe_result 1080 0) (540, 0)
  = Raise ZeroDivisionError.
Proof. vm_compute. reflexivity. Qed.

(** ** Rounding to binary64 *)

Section BinaryRounding.

Local Open Scope R_scope.

Lemma bpow_pos e : 0 < bpow e.
Proof. apply powerRZ_lt; lra. Qed.

Lemma bpow_add a b : bpow (a + b) = bpow a * bpow b.
Proof. apply powerRZ_add; lra. Qed.

Lemma bpow_succ e : bpow (e + 1) = 2 * bpow e.
Proof. rewrite bpow_add. unfold bpow at 2. simpl. lra. Qed.

Lemma bpow_IZR k : (0 <= k)%Z -> bpow k = IZR (2 ^ k).
Proof.
  intros Hk. unfold bpow. rewrite <- (Z2Nat.id k Hk) at 1.
  rewrite <- pow_powerRZ. rewrite <- (Z2Nat.id k Hk) at 2.
  rewrite <- pow_IZR. reflexivity.
Qed.


Lemma IZR_xI p : IZR (Zpos p~1) = 2 * IZR (Zpos p) + 1.
Proof. rewrite Pos2Z.inj_xI, plus_IZR, mult_IZR. reflexivity. Qed.

Lemma IZR_xO p : IZR (Zpos p~0) = 2 * IZR (Zpos p).
Proof. rewrite Pos2Z.inj_xO, mult_IZR. reflexivity. Qed.

Lemma shr_1_located x mrs e :
  rec_located x mrs e -> rec_located x (shr_1 mrs) (e + 1).
Proof.
  destruct mrs as [m r s]. unfold rec_located, F2R. simpl.
  intros (Hm & Hx & Hr & Hs).
  rewrite bpow_succ. pose proof (bpow_pos e) as HB.
  set (B := bpow e) in *. clearbody B.
  rewrite plus_IZR in Hx.
  destruct m as [|p|p]; [ | destruct p as [p|p|] | lia ]; simpl;
    rewrite ?(IZR_xI p), ?(IZR_xO p) in *;
    rewrite ?plus_IZR in *;
    (split; [lia|]).
  all: destruct r, s; simpl in *.
  all: destruct Hr as [Hr1 Hr2]; destruct Hs as [Hs1 Hs2].
  all: repeat split; try (intros; try discriminate; lra).
  all: try (intros; exfalso; solve [ lra | specialize (Hr1 eq_refl); lra | apply Hs1; [reflexivity|lra] ]).
Qed.

Lemma iter_shr_located p : forall x mrs e,
  rec_located x mrs e ->
  rec_located x (iter_pos shr_1 p mrs) (e + Zpos p).
Proof.
  induction p as [p IH|p IH|]; intros x mrs e H; simpl.
  - apply shr_1_located in H. apply IH in H. apply IH in H.
    replace (e + Z.pos p~1)%Z with (e + 1 + Z.pos p + Z.pos p)%Z by lia.
    exact H.
  - apply IH in H. apply IH in H.
    replace (e + Z.pos p~0)%Z with (e + Z.pos p + Z.pos p)%Z by lia.
    exact H.
  - apply shr_1_located. exact H.
Qed.

Lemma shr_located x mrs e n :
  rec_located x mrs e ->
  rec_located x (fst (shr mrs e n)) (e + Z.max n 0) /\
  snd (shr mrs e n) = (e + Z.max n 0)%Z.
Proof.
  intros H. destruct n as [|p|p]; simpl.
  - rewrite Z.add_0_r. split; [exact H | reflexivity].
  - split; [apply iter_shr_located; exact H | reflexivity].
  - rewrite Z.add_0_r. split; [exact H | reflexivity].
Qed.

Lemma shr_record_of_loc_m m l : shr_m (shr_record_of_loc m l) = m.
Proof. destruct l as [|[| |]]; reflexivity. Qed.

Lemma shr_record_eta mrs :
  shr_record_of_loc (shr_m mrs) (loc_of_shr_record mrs) = mrs.
Proof. destruct mrs as [m [|] [|]]; reflexivity. Qed.

Lemma located_exact x m e :
  (0 <= m)%Z -> x = F2R m e -> located x m e loc_Exact.
Proof.
  intros Hm ->. unfold located, rec_located, F2R; simpl.
  pose proof (bpow_pos e). rewrite plus_IZR.
  repeat split; try lia; try lra; intros; try discriminate; try lra.
Qed.

Lemma located_inexact x m e c :
  (0 <= m)%Z -> F2R m e < x < F2R (m + 1) e ->
  match c with
  | Lt => x < F2R m e + bpow e / 2
  | Eq => x = F2R m e + bpow e / 2
  | Gt => F2R m e + bpow e / 2 < x
  end ->
  located x m e (loc_Inexact c).
Proof.
  intros Hm Hx Hc. unfold located, rec_located, F2R in *.
  pose proof (bpow_pos e). rewrite plus_IZR in *.
  destruct c; simpl; repeat split; try lia; try lra;
    intros; try discriminate; try lra.
Qed.

Lemma located_bounds x m e l :
  located x m e l -> (0 <= m)%Z /\ F2R m e <= x < F2R (m + 1) e.
Proof.
  unfold located, rec_located. rewrite shr_record_of_loc_m. tauto.
Qed.

Lemma round_nearest_even_located x mrs e :
  rec_located x mrs e ->
  let m' := round_nearest_even (shr_m mrs) (loc_of_shr_record mrs) in
  (m' = shr_m mrs \/ m' = (shr_m mrs + 1)%Z) /\
  Rabs (F2R m' e - x) <= bpow e / 2.
Proof.
  destruct mrs as [m r s]. unfold rec_located, F2R. simpl.
  intros (Hm & Hx & [Hr1 Hr2] & [Hs1 Hs2]).
  pose proof (bpow_pos e) as HB. rewrite plus_IZR in *.
  destruct r, s; simpl.
  - split; [right; reflexivity|]. specialize (Hr1 eq_refl).
    rewrite plus_IZR. apply Rabs_le. lra.
  - assert (x = IZR m * bpow e + bpow e / 2) as Hx'.
    { destruct (Req_dec x (IZR m * bpow e + bpow e / 2)) as [E|E]; [exact E|].
      apply Hs2 in E. discriminate. }
    destruct (Z.even m); (split; [auto|]); rewrite ?plus_IZR;
      apply Rabs_le; lra.
  - split; [left; reflexivity|].
    assert (~ (IZR m * bpow e + bpow e / 2 <= x)) as Hn.
    { intros E. apply Hr2 in E. discriminate. }
    apply Rabs_le. lra.
  - split; [left; reflexivity|].
    assert (x = IZR m * bpow e + 0) as Hx'.
    { destruct (Req_dec x (IZR m * bpow e + 0)) as [E|E]; [exact E|].
      apply Hs2 in E. discriminate. }
    apply Rabs_le. lra.
Qed.

Lemma digits2_pos_bounds p :
  (2 ^ (Zpos (digits2_pos p) - 1) <= Zpos p < 2 ^ Zpos (digits2_pos p))%Z.
Proof.
  induction p as [p IH|p IH|]; simpl digits2_pos;
    rewrite ?Pos2Z.inj_succ;
    try (replace (Z.succ (Z.pos (digits2_pos p)) - 1)%Z
           with (Z.succ (Z.pos (digits2_pos p) - 1)) by lia;
         rewrite !Z.pow_succ_r by lia; lia).
  simpl. lia.
Qed.

Lemma Zdigits2_bounds m :
  (0 < m)%Z -> (2 ^ (Zdigits2 m - 1) <= m < 2 ^ Zdigits2 m)%Z.
Proof.
  destruct m as [|p|p]; try lia. intros _. apply digits2_pos_bounds.
Qed.

Lemma Zdigits2_nonneg m : (0 <= Zdigits2 m)%Z.
Proof. destruct m; simpl; lia. Qed.

Lemma Zdigits2_unique m k :
  (2 ^ (k - 1) <= m < 2 ^ k)%Z -> (0 < k)%Z -> Zdigits2 m = k.
Proof.
  intros Hm Hk.
  assert (0 < m)%Z as Hpos.
  { assert (0 < 2 ^ (k - 1))%Z by (apply Z.pow_pos_nonneg; lia). lia. }
  pose proof (Zdigits2_bounds m Hpos) as Hd.
  assert (0 < Zdigits2 m)%Z as Hd0 by (destruct m; simpl; lia).
  destruct (Z.lt_trichotomy (Zdigits2 m) k) as [L|[E|G]]; [|exact E|].
  - assert (2 ^ Zdigits2 m <= 2 ^ (k - 1))%Z by (apply Z.pow_le_mono_r; lia). lia.
  - assert (2 ^ k <= 2 ^ (Zdigits2 m - 1))%Z by (apply Z.pow_le_mono_r; lia). lia.
Qed.

Lemma bpow_le a b : (a <= b)%Z -> bpow a <= bpow b.
Proof.
  intros H. replace b with (a + (b - a))%Z by lia. rewrite bpow_add.
  rewrite (bpow_IZR (b - a)) by lia.
  assert (1 <= 2 ^ (b - a))%Z by (apply (Z.pow_le_mono_r 2 0); lia).
  apply IZR_le in H0. pose proof (bpow_pos a). nra.
Qed.

Lemma bpow_lt a b : (a < b)%Z -> bpow a < bpow b.
Proof.
  intros H. replace b with (a + (b - a))%Z by lia. rewrite bpow_add.
  rewrite (bpow_IZR (b - a)) by lia.
  assert (2 ^ 1 <= 2 ^ (b - a))%Z by (apply Z.pow_le_mono_r; lia).
  apply IZR_le in H0. simpl in H0. pose proof (bpow_pos a). nra.
Qed.

Lemma F2R_lt_inv m1 m2 e : F2R m1 e < F2R m2 e -> (m1 < m2)%Z.
Proof.
  unfold F2R. intros H. pose proof (bpow_pos e). apply lt_IZR. nra.
Qed.

Lemma F2R_le_inv m1 m2 e : F2R m1 e <= F2R m2 e -> (m1 <= m2)%Z.
Proof.
  unfold F2R. intros H. pose proof (bpow_pos e). apply le_IZR. nra.
Qed.

Lemma F2R_shift m e k : (0 <= k)%Z -> F2R (m * 2 ^ k) e = F2R m (e + k).
Proof.
  intros Hk. unfold F2R. rewrite mult_IZR, bpow_add, (bpow_IZR k Hk). ring.
Qed.

Lemma F2R_bpow k e : (0 <= k)%Z -> F2R (2 ^ k) e = bpow (k + e).
Proof. intros Hk. unfold F2R. rewrite bpow_add, (bpow_IZR k Hk). ring. Qed.

Lemma binary_round_aux_spec s x mx ex lx :
  located x mx ex lx ->
  let e1 := fexp prec emax (Zdigits2 mx + ex) in
  (ex <= e1)%Z ->
  exists m1 m e,
    (0 <= m1 < 2 ^ 53)%Z /\
    F2R m1 e1 <= x < F2R (m1 + 1) e1 /\
    Rabs (F2R m e - x) <= bpow e1 / 2 /\
    ((e = e1 /\ (m = m1 \/ m = (m1 + 1)%Z) /\ (m < 2 ^ 53)%Z) \/
     (e = (e1 + 1)%Z /\ m = (2 ^ 52)%Z /\ m1 = (2 ^ 53 - 1)%Z)) /\
    binary_round_aux prec emax s mx ex lx = build s m e.
Proof.
  intros Hloc e1 He1.
  pose proof (located_bounds _ _ _ _ Hloc) as [Hmx Hx].
  unfold binary_round_aux, shr_fexp.
  fold e1.
  pose proof (shr_located x (shr_record_of_loc mx lx) ex (e1 - ex) Hloc)
    as [Hl1 He'].
  destruct (shr (shr_record_of_loc mx lx) ex (e1 - ex)) as [mrs' e'].
  simpl in Hl1, He'. replace (ex + Z.max (e1 - ex) 0)%Z with e1 in * by lia.
  subst e'.
  pose proof (round_nearest_even_located x mrs' e1 Hl1) as [Hm2 Hr].
  set (m1 := shr_m mrs') in *.
  set (m2 := round_nearest_even m1 (loc_of_shr_record mrs')) in *.
  destruct Hl1 as (Hm1 & Hx1 & _). fold m1 in Hm1, Hx1.
  assert (m1 < 2 ^ 53)%Z as Hm1u.
  { assert (IZR (mx + 1) <= bpow (Zdigits2 mx)) as Hd.
    { rewrite bpow_IZR by apply Zdigits2_nonneg. apply IZR_le.
      destruct (Z.eq_dec mx 0) as [->|]; [simpl; lia|].
      pose proof (Zdigits2_bounds mx). lia. }
    assert (bpow (Zdigits2 mx + ex) <= bpow (e1 + 53)) as Hb.
    { apply bpow_le. unfold e1, fexp, emin, prec, emax. lia. }
    rewrite bpow_add in Hb.
    assert (F2R m1 e1 < F2R (2 ^ 53) e1) as Hlt.
    { rewrite F2R_bpow by lia. rewrite Z.add_comm.
      unfold F2R in *. pose proof (bpow_pos ex). rewrite bpow_add in *. nra. }
    apply F2R_lt_inv in Hlt. exact Hlt. }
  assert (-1074 <= e1)%Z as He1min by (unfold e1, fexp, emin, prec, emax; lia).
  destruct (Z.eq_dec m2 (2 ^ 53)) as [E|NE].
  - (* the mantissa rounded up to the next binade *)
    exists m1, (2 ^ 52)%Z, (e1 + 1)%Z.
    assert (m1 = 2 ^ 53 - 1)%Z as Em1 by lia.
    split; [lia|]. split; [exact Hx1|].
    split.
    { replace (F2R (2 ^ 52) (e1 + 1)) with (F2R m2 e1); [exact Hr|].
      rewrite E. unfold F2R. rewrite bpow_succ.
      change (2 ^ 53)%Z with (2 * 2 ^ 52)%Z. rewrite mult_IZR. ring. }
    split; [right; auto|].
    rewrite E.
    replace (fexp prec emax (Zdigits2 (2 ^ 53) + e1) - e1)%Z with 1%Z
      by (unfold fexp, emin, prec, emax; simpl Zdigits2; lia).
    simpl. replace (e1 + 1 <=? emax - prec)%Z with (e1 + 1 <=? emax - prec)%Z by reflexivity.
    reflexivity.
  - exists m1, m2, e1.
    assert (m2 < 2 ^ 53)%Z as Hm2u by lia.
    split; [lia|]. split; [exact Hx1|]. split; [exact Hr|].
    split; [left; auto|].
    assert (fexp prec emax (Zdigits2 m2 + e1) - e1 <= 0)%Z as Hn2.
    { assert (Zdigits2 m2 <= 53)%Z.
      { destruct (Z.eq_dec m2 0) as [->|]; [simpl; lia|].
        pose proof (Zdigits2_bounds m2 ltac:(lia)) as Hd.
        destruct (Z_le_gt_dec (Zdigits2 m2) 53) as [L|G]; [exact L|].
        assert (2 ^ 53 <= 2 ^ (Zdigits2 m2 - 1))%Z by (apply Z.pow_le_mono_r; lia).
        lia. }
      unfold fexp, emin, prec, emax. lia. }
    destruct (fexp prec emax (Zdigits2 m2 + e1) - e1)%Z as [|p|p] eqn:En; try lia;
      simpl; unfold build; destruct m2; try reflexivity; lia.
Qed.

Lemma Rabs_le_elim x a : Rabs x <= a -> - a <= x <= a.
Proof. unfold Rabs. destruct (Rcase_abs x); lra. Qed.

Lemma bpow_lt_inv a b : bpow a < bpow b -> (a < b)%Z.
Proof.
  intros H. destruct (Z_lt_le_dec a b) as [L|G]; [exact L|].
  apply bpow_le in G. lra.
Qed.

Lemma bpow_pred e : bpow (e - 1) = bpow e / 2.
Proof.
  replace e with (e - 1 + 1)%Z at 2 by lia. rewrite bpow_succ. lra.
Qed.

(** Rounding in the normal range: the mantissa has 53 bits, the error is
    at most half a unit in the last place, and a value on the grid is
    returned unchanged. *)
Lemma binary_round_aux_normal s x mx ex lx :
  located x mx ex lx ->
  (0 < mx)%Z ->
  let E := (Zdigits2 mx + ex)%Z in
  (ex <= E - 53)%Z -> (-1021 <= E <= 1023)%Z ->
  exists (p : positive) (e : Z),
    binary_round_aux prec emax s mx ex lx = S754_finite s p e /\
    (2 ^ 52 <= Zpos p < 2 ^ 53)%Z /\
    (e = (E - 53)%Z \/ (e = (E - 52)%Z /\ p = (2 ^ 52)%positive)) /\
    Rabs (F2R (Zpos p) e - x) <= bpow (E - 54) /\
    bpow (E - 1) <= x < bpow E /\
    (forall k, x = F2R k (E - 53) -> F2R (Zpos p) e = x).
Proof.
  intros Hloc Hmx E Hex HE.
  pose proof (located_bounds _ _ _ _ Hloc) as [_ Hx].
  assert (fexp prec emax (Zdigits2 mx + ex) = (E - 53)%Z) as Hf
    by (unfold fexp, emin, prec, emax; lia).
  destruct (binary_round_aux_spec s x mx ex lx Hloc) as
    (m1 & m & e & Hm1 & Hx1 & Herr & Hcase & Hres).
  { rewrite Hf. exact Hex. }
  rewrite Hf in *.
  assert (bpow (E - 1) <= x < bpow E) as HxE.
  { pose proof (Zdigits2_bounds mx Hmx) as Hd.
    pose proof (Zdigits2_nonneg mx) as Hd0.
    assert (0 < Zdigits2 mx)%Z as Hd1 by (destruct mx; simpl; lia).
    split.
    - replace (E - 1)%Z with ((Zdigits2 mx - 1) + ex)%Z by (unfold E; lia).
      rewrite <- F2R_bpow by lia.
      apply Rle_trans with (2 := proj1 Hx). unfold F2R.
      pose proof (bpow_pos ex). apply Rmult_le_compat_r; [lra|].
      apply IZR_le. lia.
    - unfold E. rewrite <- F2R_bpow by lia.
      apply Rlt_le_trans with (1 := proj2 Hx). unfold F2R.
      pose proof (bpow_pos ex). apply Rmult_le_compat_r; [lra|].
      apply IZR_le. lia. }
  assert (2 ^ 52 <= m1)%Z as Hm1l.
  { assert (F2R (2 ^ 52) (E - 53) < F2R (m1 + 1) (E - 53)) as Hlt.
    { rewrite F2R_bpow by lia. replace (52 + (E - 53))%Z with (E - 1)%Z by lia.
      lra. }
    apply F2R_lt_inv in Hlt. lia. }
  assert (2 ^ 52 <= m < 2 ^ 53)%Z as Hm.
  { destruct Hcase as [(_ & Hc & Hu)|(_ & -> & _)]; lia. }
  assert (forall k, x = F2R k (E - 53) -> F2R m e = x) as Hexact.
  { intros k Hk.
    assert (k = m1) as ->.
    { rewrite Hk in Hx1. destruct Hx1 as [H1 H2].
      apply F2R_le_inv in H1. apply F2R_lt_inv in H2. lia. }
    pose proof (bpow_pos (E - 53)) as HB.
    destruct Hcase as [(He & [Hc|Hc] & _)|(He & Hc & Hc1)]; subst e m.
    - symmetry; exact Hk.
    - exfalso. rewrite Hk in Herr. unfold F2R in Herr. rewrite plus_IZR in Herr.
      apply Rabs_le_elim in Herr. lra.
    - exfalso. rewrite Hk in Herr. subst m1. unfold F2R in Herr.
      rewrite bpow_succ in Herr.
      rewrite minus_IZR in Herr.
      change (IZR (2 ^ 53)) with (2 * IZR (2 ^ 52)) in Herr.
      apply Rabs_le_elim in Herr. lra. }
  destruct m as [|p|p]; try lia.
  exists p, e.
  assert (e <= 971)%Z as He by (destruct Hcase as [(-> & _)|(-> & _)]; lia).
  split.
  { rewrite Hres. unfold build, emax, prec.
    destruct (Z.leb_spec e (1024 - 53)); [reflexivity|lia]. }
  split; [exact Hm|].
  split.
  { destruct Hcase as [(-> & _)|(-> & Hp & _)]; [left; reflexivity|].
    right. split; [lia|]. apply Pos2Z.inj. exact Hp. }
  split.
  { replace (E - 54)%Z with (E - 53 - 1)%Z by lia. rewrite bpow_pred. exact Herr. }
  split; [exact HxE|exact Hexact].
Qed.

Lemma Zdigits2_ge m k : (0 <= k)%Z -> (2 ^ k <= m)%Z -> (k + 1 <= Zdigits2 m)%Z.
Proof.
  intros Hk Hm.
  assert (0 < 2 ^ k)%Z by (apply Z.pow_pos_nonneg; lia).
  pose proof (Zdigits2_bounds m ltac:(lia)) as Hd.
  destruct (Z_lt_le_dec k (Zdigits2 m)) as [L|G]; [lia|].
  assert (2 ^ Zdigits2 m <= 2 ^ k)%Z
    by (apply Z.pow_le_mono_r; [lia|exact G]).
  lia.
Qed.

Lemma new_location_located m2 q r e :
  (0 < m2)%Z -> (0 <= q)%Z -> (0 <= r < m2)%Z ->
  located (IZR (m2 * q + r) / IZR m2 * bpow e) q e (new_location m2 r).
Proof.
  intros Hm2 Hq Hr.
  assert (0 < IZR m2) as HM by (apply IZR_lt; exact Hm2).
  pose proof (bpow_pos e) as HB.
  set (t := IZR r / IZR m2).
  assert (IZR (m2 * q + r) / IZR m2 * bpow e = F2R q e + t * bpow e) as ->.
  { unfold F2R, t. rewrite plus_IZR, mult_IZR. field. lra. }
  assert (t * IZR m2 = IZR r) as Ht by (unfold t; field; lra).
  assert (0 <= IZR r < IZR m2) as HR by (split; [apply IZR_le|apply IZR_lt]; lia).
  assert (0 <= t < 1) as Ht01 by (split; nra).
  destruct (Z.eq_dec r 0) as [->|Hr0].
  - assert (t = 0) as -> by (simpl in Ht; nra).
    replace (new_location m2 0) with loc_Exact
      by (unfold new_location, new_location_even, new_location_odd;
          destruct (Z.even m2); reflexivity).
    apply located_exact; [exact Hq | lra].
  - assert (0 < t) as Htpos.
    { assert (0 < IZR r) by (apply IZR_lt; lia). nra. }
    assert (F2R q e < F2R q e + t * bpow e < F2R (q + 1) e) as Hin.
    { unfold F2R. rewrite plus_IZR. nra. }
    pose proof (proj2 (Z.eqb_neq r 0) Hr0) as Hr0b.
    unfold new_location.
    destruct (Z.even m2) eqn:Hev;
      unfold new_location_even, new_location_odd; rewrite Hr0b.
    + apply located_inexact; [exact Hq | exact Hin |].
      destruct (Z.compare_spec (2 * r) m2) as [E|L|G].
      * assert (2 * IZR r = IZR m2) by (rewrite <- E, mult_IZR; reflexivity).
        assert (t = 1 / 2) by nra. nra.
      * apply IZR_lt in L. rewrite mult_IZR in L. 
        assert (t < 1 / 2) by nra. nra.
      * apply IZR_lt in G. rewrite mult_IZR in G.
        assert (1 / 2 < t) by nra. nra.
    + assert (2 * r <> m2)%Z as Hne.
      { intros E. rewrite <- E in Hev. rewrite Z.even_mul in Hev. discriminate. }
      apply located_inexact; [exact Hq | exact Hin |].
      destruct (Z.compare_spec (2 * r + 1) m2) as [E|L|G].
      * assert (2 * r < m2)%Z as L by lia.
        apply IZR_lt in L. rewrite mult_IZR in L.
        assert (t < 1 / 2) by nra. nra.
      * assert (2 * r < m2)%Z as L' by lia.
        apply IZR_lt in L'. rewrite mult_IZR in L'.
        assert (t < 1 / 2) by nra. nra.
      * assert (m2 < 2 * r)%Z as G' by lia.
        apply IZR_lt in G'. rewrite mult_IZR in G'.
        assert (1 / 2 < t) by nra. nra.
Qed.

Lemma div_core_located m1 e1 m2 e2 :
  (0 < m1)%Z -> (0 < m2)%Z ->
  exists q e' l,
    SFdiv_core_binary prec emax m1 e1 m2 e2 = (q, e', l) /\
    located (F2R m1 e1 / F2R m2 e2) q e' l /\
    (e' <= fexp prec emax (Zdigits2 q + e'))%Z.
Proof.
  intros Hm1 Hm2. unfold SFdiv_core_binary.
  set (D := (Zdigits2 m1 + e1 - (Zdigits2 m2 + e2))%Z).
  set (e' := Z.min (fexp prec emax D) (e1 - e2)).
  set (s := (e1 - e2 - e')%Z).
  assert (0 <= s)%Z as Hs by (unfold s, e'; lia).
  set (m' := match s with
             | Z0 => m1
             | Zpos _ => Z.shiftl m1 s
             | Zneg _ => 0%Z
             end).
  assert (m' = m1 * 2 ^ s)%Z as Hm'.
  { unfold m'. destruct s as [|p|p]; [simpl; lia | | lia].
    apply Z.shiftl_mul_pow2. lia. }
  pose proof (Z_div_mod m' m2 ltac:(lia)) as Hdiv.
  destruct (Z.div_eucl m' m2) as [q r]. destruct Hdiv as [Hqr Hr].
  assert (0 < 2 ^ s)%Z as Hpow by (apply Z.pow_pos_nonneg; lia).
  assert (0 <= q)%Z as Hq by nia.
  exists q, e', (new_location m2 r). split; [reflexivity|]. split.
  - replace (F2R m1 e1 / F2R m2 e2)
      with (IZR (m2 * q + r) / IZR m2 * bpow e').
    { apply new_location_located; assumption. }
    rewrite <- Hqr, Hm'. unfold F2R. rewrite mult_IZR.
    replace e1 with (s + e' + e2)%Z at 1 by (unfold s; lia).
    rewrite !bpow_add, (bpow_IZR s Hs).
    pose proof (bpow_pos e2). pose proof (bpow_pos e').
    assert (0 < IZR m2) by (apply IZR_lt; exact Hm2).
    field. split; lra.
  - unfold fexp at 1. unfold emin, prec, emax.
    destruct (Z_le_gt_dec e' (3 - 1024 - 53)) as [L|G]; [lia|].
    assert (53 - Zdigits2 m1 + Zdigits2 m2 <= s)%Z as Hs'.
    { unfold s, e', D, fexp, emin, prec, emax in *. lia. }
    pose proof (Zdigits2_bounds m1 Hm1) as Hd1.
    pose proof (Zdigits2_bounds m2 Hm2) as Hd2.
    assert (0 < Zdigits2 m1)%Z by (destruct m1; simpl; lia).
    assert (0 < Zdigits2 m2)%Z by (destruct m2; simpl; lia).
    assert (2 ^ (52 + Zdigits2 m2) <= 2 ^ (Zdigits2 m1 - 1 + s))%Z as Hp
      by (apply Z.pow_le_mono_r; lia).
    rewrite !Z.pow_add_r in Hp by lia.
    assert (2 ^ 52 <= q)%Z as Hq52 by nia.
    pose proof (Zdigits2_ge q 52 ltac:(lia) Hq52). lia.
Qed.

Lemma round_normal s x mx ex lx :
  located x mx ex lx ->
  (ex <= fexp prec emax (Zdigits2 mx + ex))%Z ->
  bpow (-1022) <= x < bpow 1023 ->
  exists p e,
    binary_round_aux prec emax s mx ex lx = S754_finite s p e /\
    rounded x p e.
Proof.
  intros Hloc Hex Hx.
  pose proof (located_bounds _ _ _ _ Hloc) as [Hmx Hxb].
  assert (0 < mx)%Z as Hpos.
  { destruct (Z.eq_dec mx 0) as [->|]; [exfalso|lia].
    simpl in Hex. unfold fexp, emin, prec, emax in Hex.
    assert (ex <= -1074)%Z as Hex' by lia.
    apply bpow_le in Hex'.
    assert (bpow (-1074) < bpow (-1022)) by (apply bpow_lt; lia).
    unfold F2R in Hxb. change (0 + 1)%Z with 1%Z in Hxb. lra. }
  assert (bpow (Zdigits2 mx + ex - 1) <= x < bpow (Zdigits2 mx + ex)) as HxE.
  { pose proof (Zdigits2_bounds mx Hpos) as Hd.
    assert (0 < Zdigits2 mx)%Z as Hd1 by (destruct mx; simpl; lia).
    pose proof (bpow_pos ex).
    split.
    - replace (Zdigits2 mx + ex - 1)%Z with ((Zdigits2 mx - 1) + ex)%Z by lia.
      rewrite <- F2R_bpow by lia.
      apply Rle_trans with (2 := proj1 Hxb). unfold F2R.
      apply Rmult_le_compat_r; [lra|]. apply IZR_le. lia.
    - rewrite <- F2R_bpow by lia.
      apply Rlt_le_trans with (1 := proj2 Hxb). unfold F2R.
      apply Rmult_le_compat_r; [lra|]. apply IZR_le. lia. }
  assert (-1021 <= Zdigits2 mx + ex <= 1023)%Z as HE.
  { split.
    - assert (bpow (-1022) < bpow (Zdigits2 mx + ex)) as L by lra.
      apply bpow_lt_inv in L. lia.
    - assert (bpow (Zdigits2 mx + ex - 1) < bpow 1023) as L by lra.
      apply bpow_lt_inv in L. lia. }
  destruct (binary_round_aux_normal s x mx ex lx Hloc Hpos) as
    (p & e & Hres & Hp & He & Herr & HxE' & Hexact).
  { unfold fexp, emin, prec, emax in Hex. lia. }
  { exact HE. }
  exists p, e. split; [exact Hres|].
  exists (Zdigits2 mx + ex)%Z. auto.
Qed.

Lemma rounded_rel x p e :
  rounded x p e -> Rabs (F2R (Zpos p) e - x) <= x * bpow (-53).
Proof.
  intros (E & _ & _ & Herr & [Hx _] & _).
  apply Rle_trans with (1 := Herr).
  replace (E - 54)%Z with ((E - 1) + -53)%Z by lia. rewrite bpow_add.
  pose proof (bpow_pos (-53)). nra.
Qed.

Lemma int_truediv_rounded a b :
  (0 < a)%Z -> (0 < b)%Z ->
  bpow (-1022) <= IZR a / IZR b < bpow 1023 ->
  exists p e,
    int_truediv a b = Ok (S754_finite false p e) /\
    rounded (IZR a / IZR b) p e.
Proof.
  intros Ha Hb Hx. unfold int_truediv.
  destruct (div_core_located a 0 b 0 Ha Hb) as (q & e' & l & Hcore & Hloc & He').
  replace (F2R a 0 / F2R b 0) with (IZR a / IZR b) in Hloc
    by (unfold F2R, bpow; simpl; field; apply eq_IZR_contrapositive; lia).
  destruct (round_normal false _ _ _ _ Hloc He' Hx) as (p & e & Hres & Hr).
  exists p, e. split; [|exact Hr].
  destruct b as [|pb|pb]; try lia. destruct a as [|pa|pa]; try lia.
  change (Z.abs (Z.pos pa)) with (Z.pos pa).
  change (Z.abs (Z.pos pb)) with (Z.pos pb).
  rewrite Hcore.
  change (xorb (Z.pos pa <? 0)%Z (Z.pos pb <? 0)%Z) with false.
  rewrite Hres. reflexivity.
Qed.

Lemma Pos_iter_xO p k : Zpos (Pos.iter xO p k) = (Zpos p * 2 ^ Zpos k)%Z.
Proof.
  rewrite (Pos.iter_swap_gen _ _ Zpos xO (Z.mul 2)) by reflexivity.
  change (Pos.iter (Z.mul 2) (Z.pos p) k) with (Z.shiftl (Z.pos p) (Z.pos k)).
  apply Z.shiftl_mul_pow2. lia.
Qed.

Lemma Zdigits2_shift m k :
  (0 < m)%Z -> (0 <= k)%Z -> Zdigits2 (m * 2 ^ k) = (Zdigits2 m + k)%Z.
Proof.
  intros Hm Hk. pose proof (Zdigits2_bounds m Hm) as Hd.
  assert (0 < Zdigits2 m)%Z by (destruct m; simpl; lia).
  assert (0 < 2 ^ k)%Z by (apply Z.pow_pos_nonneg; lia).
  apply Zdigits2_unique; [|lia].
  replace (Zdigits2 m + k - 1)%Z with ((Zdigits2 m - 1) + k)%Z by lia.
  rewrite !Z.pow_add_r by lia. nia.
Qed.

Lemma shl_align_spec mx ex ex' :
  exists k, (0 <= k)%Z /\
    shl_align mx ex ex' = (Z.to_pos (Zpos mx * 2 ^ k), (ex - k)%Z) /\
    (ex - k)%Z = Z.min ex ex'.
Proof.
  unfold shl_align. destruct (ex' - ex)%Z as [|d|d] eqn:Hd.
  - exists 0%Z. split; [lia|]. rewrite Z.mul_1_r, Z.sub_0_r. simpl. split; [reflexivity|lia].
  - exists 0%Z. split; [lia|]. rewrite Z.mul_1_r, Z.sub_0_r. simpl. split; [reflexivity|lia].
  - exists (Zpos d). split; [lia|]. rewrite <- Pos_iter_xO. simpl Z.to_pos.
    split; [f_equal; lia | lia].
Qed.

Lemma binary_round_rounded s m e :
  bpow (-1022) <= F2R (Zpos m) e < bpow 1023 ->
  exists p e',
    binary_round prec emax s m e = S754_finite s p e' /\
    rounded (F2R (Zpos m) e) p e'.
Proof.
  intros Hx. unfold binary_round.
  destruct (shl_align_spec m e (fexp prec emax (Zpos (digits2_pos m) + e)))
    as (k & Hk & Hal & Hmin).
  rewrite Hal.
  assert (0 < 2 ^ k)%Z as Hpow by (apply Z.pow_pos_nonneg; lia).
  assert (Zpos (Z.to_pos (Zpos m * 2 ^ k)) = (Zpos m * 2 ^ k)%Z) as Hmz
    by (apply Z2Pos.id; lia).
  rewrite Hmz.
  assert (F2R (Zpos m * 2 ^ k) (e - k) = F2R (Zpos m) e) as Hval.
  { rewrite F2R_shift by lia. f_equal. lia. }
  apply round_normal; [| |exact Hx].
  - apply located_exact; [lia | symmetry; exact Hval].
  - rewrite Zdigits2_shift by lia.
    change (Zdigits2 (Zpos m)) with (Zpos (digits2_pos m)).
    replace (Zpos (digits2_pos m) + k + (e - k))%Z
      with (Zpos (digits2_pos m) + e)%Z by lia.
    lia.
Qed.

Lemma F2R_0 m : F2R m 0 = IZR m.
Proof. unfold F2R, bpow. simpl. ring. Qed.

Lemma of_int_rounded z :
  (0 < z)%Z -> IZR z < bpow 1023 ->
  exists p e, of_int z = Ok (S754_finite false p e) /\ rounded (IZR z) p e.
Proof.
  intros Hz Hx. destruct z as [|m|m]; try lia.
  destruct (binary_round_rounded false m 0) as (p & e & Hres & Hr).
  { rewrite F2R_0. split; [|exact Hx].
    assert (bpow (-1022) <= bpow 0) as H by (apply bpow_le; lia).
    change (bpow 0) with 1 in H.
    assert (1 <= IZR (Zpos m)) by (apply IZR_le; lia). lra. }
  exists p, e. unfold of_int. simpl binary_normalize. rewrite Hres.
  split; [reflexivity|].
  rewrite <- (F2R_0 (Zpos m)). exact Hr.
Qed.

Lemma fmul_rounded sx px ex sy py ey :
  (2 ^ 52 <= Zpos px * Zpos py)%Z ->
  bpow (-1022) <= F2R (Zpos px) ex * F2R (Zpos py) ey < bpow 1023 ->
  exists p e,
    fmul (S754_finite sx px ex) (S754_finite sy py ey)
    = S754_finite (xorb sx sy) p e /\
    rounded (F2R (Zpos px) ex * F2R (Zpos py) ey) p e.
Proof.
  intros Hd Hx. unfold fmul, SFmul.
  apply round_normal; [| |exact Hx].
  - apply located_exact; [lia|].
    unfold F2R. rewrite Pos2Z.inj_mul, mult_IZR, bpow_add. ring.
  - pose proof (Zdigits2_ge (Zpos (px * py)) 52 ltac:(lia) ltac:(lia)).
    unfold fexp, emin, prec, emax. lia.
Qed.

Lemma float_div_rounded sx px ex sy py ey :
  bpow (-1022) <= F2R (Zpos px) ex / F2R (Zpos py) ey < bpow 1023 ->
  exists p e,
    float_div (S754_finite sx px ex) (S754_finite sy py ey)
    = Ok (S754_finite (xorb sx sy) p e) /\
    rounded (F2R (Zpos px) ex / F2R (Zpos py) ey) p e.
Proof.
  intros Hx. unfold float_div, is_zero, SFdiv.
  destruct (div_core_located (Zpos px) ex (Zpos py) ey) as
    (q & e' & l & Hcore & Hloc & He'); try lia.
  rewrite Hcore.
  destruct (round_normal (xorb sx sy) _ _ _ _ Hloc He' Hx) as (p & e & Hres & Hr).
  exists p, e. rewrite Hres. split; [reflexivity|exact Hr].
Qed.

Lemma fsub_pos_spec px ex py ey :
  let d := F2R (Zpos px) ex - F2R (Zpos py) ey in
  (d = 0 -> fsub (S754_finite false px ex) (S754_finite false py ey)
            = S754_zero false) /\
  (0 < d -> bpow (-1022) <= d < bpow 1023 ->
   exists p e,
     fsub (S754_finite false px ex) (S754_finite false py ey)
     = S754_finite false p e /\ rounded d p e) /\
  (d < 0 -> bpow (-1022) <= - d < bpow 1023 ->
   exists p e,
     fsub (S754_finite false px ex) (S754_finite false py ey)
     = S754_finite true p e /\ rounded (- d) p e).
Proof.
  intros d. unfold fsub, SFsub.
  set (ez := Z.min ex ey).
  destruct (shl_align_spec px ex ez) as (kx & Hkx & Hax & Hmx).
  destruct (shl_align_spec py ey ez) as (ky & Hky & Hay & Hmy).
  rewrite Hax, Hay. simpl fst. unfold cond_Zopp.
  assert (0 < 2 ^ kx)%Z by (apply Z.pow_pos_nonneg; lia).
  assert (0 < 2 ^ ky)%Z by (apply Z.pow_pos_nonneg; lia).
  rewrite !Z2Pos.id by lia.
  set (z := (Zpos px * 2 ^ kx - Zpos py * 2 ^ ky)%Z).
  assert (F2R z ez = d) as Hz.
  { unfold z, d, F2R. rewrite minus_IZR, Rmult_minus_distr_r.
    fold (F2R (Zpos px * 2 ^ kx) ez). fold (F2R (Zpos py * 2 ^ ky) ez).
    rewrite !F2R_shift by lia. unfold F2R.
    replace (ez + kx)%Z with ex by (unfold ez in *; lia).
    replace (ez + ky)%Z with ey by (unfold ez in *; lia).
    reflexivity. }
  clearbody z. pose proof (bpow_pos ez) as HB.
  destruct z as [|m|m]; unfold binary_normalize.
  - unfold F2R in Hz. rewrite Rmult_0_l in Hz.
    repeat split; intros; try lra.
  - assert (0 < d).
    { rewrite <- Hz. unfold F2R. apply Rmult_lt_0_compat; [|exact HB].
      apply IZR_lt. lia. }
    repeat split; intros; try lra.
    rewrite <- Hz. apply binary_round_rounded. rewrite Hz. assumption.
  - assert (d < 0).
    { rewrite <- Hz. unfold F2R.
      assert (IZR (Z.neg m) < 0) by (apply IZR_lt; lia). nra. }
    assert (- d = F2R (Zpos m) ez) as Hd.
    { rewrite <- Hz. unfold F2R. change (Z.neg m) with (- Zpos m)%Z.
      rewrite opp_IZR. ring. }
    repeat split; intros; try lra.
    rewrite Hd. apply binary_round_rounded. rewrite <- Hd. assumption.
Qed.

Lemma flt_spec p1 e1 p2 e2 :
  (2 ^ 52 <= Zpos p1 < 2 ^ 53)%Z -> (2 ^ 52 <= Zpos p2 < 2 ^ 53)%Z ->
  flt (S754_finite false p1 e1) (S754_finite false p2 e2) = true <->
  F2R (Zpos p1) e1 < F2R (Zpos p2) e2.
Proof.
  intros H1 H2. unfold flt, SFltb, SFcompare.
  assert (forall a b pa pb, (2 ^ 52 <= Zpos pa < 2 ^ 53)%Z ->
            (2 ^ 52 <= Zpos pb < 2 ^ 53)%Z -> (a < b)%Z ->
            F2R (Zpos pa) a < F2R (Zpos pb) b) as Hexp.
  { intros a b pa pb Ha Hb Hab.
    apply Rlt_le_trans with (F2R (2 ^ 53) a).
    - unfold F2R. apply Rmult_lt_compat_r; [apply bpow_pos|]. apply IZR_lt. lia.
    - apply Rle_trans with (F2R (2 ^ 52) b).
      + rewrite !F2R_bpow by lia. apply bpow_le. lia.
      + unfold F2R. apply Rmult_le_compat_r; [apply Rlt_le, bpow_pos|].
        apply IZR_le. lia. }
  destruct (Z.compare_spec e1 e2) as [E|L|G].
  - subst e2. rewrite Pos.compare_cont_spec. simpl.
    pose proof (bpow_pos e1) as HB.
    destruct (Pos.compare_spec p1 p2) as [E|L|G]; split; intros H;
      try discriminate; try reflexivity.
    + subst. lra.
    + unfold F2R. apply Rmult_lt_compat_r; [exact HB|]. apply IZR_lt. lia.
    + apply F2R_lt_inv in H. lia.
  - split; intros _; [|reflexivity]. apply Hexp; assumption.
  - split; intros H; [discriminate|].
    pose proof (Hexp e2 e1 p2 p1 H2 H1 G). lra.
Qed.

Lemma to_int_floor p e :
  exists k, to_int (S754_finite false p e) = Ok k /\
            IZR k <= F2R (Zpos p) e < IZR (k + 1).
Proof.
  unfold to_int, cond_Zopp. eexists. split; [reflexivity|].
  destruct (Z_le_gt_dec 0 e) as [He|He].
  - rewrite Z.shiftl_mul_pow2 by lia.
    rewrite plus_IZR, mult_IZR. unfold F2R. rewrite (bpow_IZR e He). lra.
  - rewrite Z.shiftl_div_pow2 by lia.
    assert (0 < 2 ^ (- e))%Z as Hpow by (apply Z.pow_pos_nonneg; lia).
    pose proof (Z.div_mod (Zpos p) (2 ^ (- e)) ltac:(lia)) as Hdm.
    pose proof (Z.mod_pos_bound (Zpos p) (2 ^ (- e)) Hpow) as Hmod.
    set (k := (Zpos p / 2 ^ (- e))%Z) in *.
    set (r := (Zpos p mod 2 ^ (- e))%Z) in *.
    assert (F2R (Zpos p) e * IZR (2 ^ (- e)) = IZR (Zpos p)) as Hv.
    { unfold F2R. rewrite <- bpow_IZR by lia. rewrite Rmult_assoc, <- bpow_add.
      replace (e + - e)%Z with 0%Z by lia. change (bpow 0) with 1. ring. }
    set (v := F2R (Zpos p) e) in *. clearbody v.
    rewrite Hdm, plus_IZR, mult_IZR in Hv.
    assert (0 < IZR (2 ^ (- e))) by (apply IZR_lt; exact Hpow).
    assert (0 <= IZR r < IZR (2 ^ (- e)))
      by (split; [apply IZR_le|apply IZR_lt]; lia).
    rewrite plus_IZR. split; nra.
Qed.

Lemma floor_unique k n y :
  IZR k <= y < IZR (k + 1) -> IZR n <= y < IZR (n + 1) -> k = n.
Proof.
  intros [H1 H2] [H3 H4].
  assert (IZR k < IZR (n + 1)) as A by lra.
  assert (IZR n < IZR (k + 1)) as B by lra.
  apply lt_IZR in A, B. lia.
Qed.

Lemma bpow_opp k : (0 <= k)%Z -> bpow (- k) = / IZR (2 ^ k).
Proof.
  intros Hk. assert (0 < IZR (2 ^ k)) as Hp.
  { apply IZR_lt. apply Z.pow_pos_nonneg; lia. }
  apply Rmult_eq_reg_r with (IZR (2 ^ k)); [|lra].
  rewrite <- (bpow_IZR k Hk) at 1. rewrite <- bpow_add.
  replace (- k + k)%Z with 0%Z by lia. change (bpow 0) with 1. field. lra.
Qed.

Lemma bpow_m53 : bpow (-53) = / IZR (2 ^ 53).
Proof. exact (bpow_opp 53 ltac:(lia)). Qed.

Lemma rounded_mantissa x p e : rounded x p e -> (2 ^ 52 <= Zpos p < 2 ^ 53)%Z.
Proof. intros (E & H & _). exact H. Qed.

Lemma rounded_pos x p e : rounded x p e -> 0 < x.
Proof.
  intros (E & _ & _ & _ & [H _] & _). pose proof (bpow_pos (E - 1)). lra.
Qed.

(** The binade of a positive real is unique. *)
Lemma binade_unique x E E' :
  bpow (E - 1) <= x < bpow E -> bpow (E' - 1) <= x < bpow E' -> E = E'.
Proof.
  intros [H1 H2] [H3 H4].
  assert (bpow (E - 1) < bpow E') as A by lra.
  assert (bpow (E' - 1) < bpow E) as B by lra.
  apply bpow_lt_inv in A, B. lia.
Qed.

(** A rounded value is an integer multiple of the unit in the last place. *)
Lemma rounded_grid x p e E :
  rounded x p e -> bpow (E - 1) <= x < bpow E ->
  exists P, F2R (Zpos p) e = F2R P (E - 53) /\
            Rabs (F2R P (E - 53) - x) <= bpow (E - 54) /\
            (2 ^ 52 <= P <= 2 ^ 53)%Z /\
            (forall k, x = F2R k (E - 53) -> F2R P (E - 53) = x).
Proof.
  intros (E0 & Hp & He & Herr & HxE & Hex) Hx.
  assert (E0 = E) as -> by (eapply binade_unique; eassumption).
  destruct He as [->|[-> ->]].
  - exists (Zpos p). repeat split; auto; lia.
  - exists (2 ^ 53)%Z.
    assert (F2R (Zpos (2 ^ 52)) (E - 52) = F2R (2 ^ 53) (E - 53)) as Heq.
    { replace (E - 52)%Z with (E - 53 + 1)%Z by lia. unfold F2R.
      rewrite bpow_succ. change (IZR (2 ^ 53)) with (2 * IZR (2 ^ 52)).
      change (Z.pos (2 ^ 52)) with (2 ^ 52)%Z. ring. }
    rewrite Heq in *. repeat split; auto; lia.
Qed.

Lemma rounded_determined x p e E0 m0 :
  rounded x p e ->
  bpow (E0 - 1) <= x < bpow E0 ->
  (2 ^ 52 <= m0 < 2 ^ 53)%Z ->
  Rabs (F2R m0 (E0 - 53) - x) < bpow (E0 - 54) ->
  Zpos p = m0 /\ e = (E0 - 53)%Z.
Proof.
  intros (E & Hp & He & Herr & HxE & _) Hx Hm0 Hd.
  assert (E = E0) as -> by (eapply binade_unique; eassumption).
  pose proof (bpow_pos (E0 - 53)) as HB.
  assert (bpow (E0 - 54) = bpow (E0 - 53) / 2) as Hh
    by (rewrite <- bpow_pred; f_equal; lia).
  rewrite Hh in *.
  apply Rabs_le_elim in Herr.
  assert (- (bpow (E0 - 53) / 2) < F2R m0 (E0 - 53) - x < bpow (E0 - 53) / 2)
    as Hd' by (apply Rabs_def2 in Hd; lra).
  destruct He as [->|[-> ->]].
  - split; [|reflexivity].
    assert (F2R (Zpos p - 1) (E0 - 53) < F2R m0 (E0 - 53)) as A.
    { unfold F2R in *. rewrite minus_IZR. lra. }
    assert (F2R m0 (E0 - 53) < F2R (Zpos p + 1) (E0 - 53)) as B.
    { unfold F2R in *. rewrite plus_IZR. lra. }
    apply F2R_lt_inv in A, B. lia.
  - exfalso.
    replace (E0 - 52)%Z with (E0 - 53 + 1)%Z in Herr by lia.
    unfold F2R in *. rewrite bpow_succ in Herr.
    change (Z.pos (2 ^ 52)) with (2 ^ 52)%Z in Herr.
    assert (IZR m0 <= IZR (2 ^ 53) - 1) as A.
    { rewrite <- minus_IZR. apply IZR_le. lia. }
    change (IZR (2 ^ 53)) with (2 * IZR (2 ^ 52)) in A. nra.
Qed.

(** A real that is itself a binary64 is returned unchanged. *)
Lemma rounded_exact m ex p e :
  rounded (F2R m ex) p e -> (m < 2 ^ 53)%Z -> F2R (Zpos p) e = F2R m ex.
Proof.
  intros Hr Hm. pose proof Hr as (E & Hp & He & Herr & HxE & Hex).
  destruct (Z_le_gt_dec (E - 53) ex) as [L|G].
  - apply (Hex (m * 2 ^ (ex - (E - 53)))%Z).
    rewrite F2R_shift by lia. f_equal. lia.
  - exfalso. destruct HxE as [Hlo _].
    assert (F2R m ex < bpow (E - 1)); [|lra].
    apply Rlt_le_trans with (F2R (2 ^ 53) ex).
    + unfold F2R. apply Rmult_lt_compat_r; [apply bpow_pos|]. apply IZR_lt. lia.
    + rewrite F2R_bpow by lia. apply bpow_le. lia.
Qed.

Lemma rounded_exact_int z p e :
  rounded (IZR z) p e -> (z < 2 ^ 53)%Z -> F2R (Zpos p) e = IZR z.
Proof.
  intros Hr Hz. rewrite <- (F2R_0 z) in *. apply rounded_exact; assumption.
Qed.

Lemma sub_grid m1 e1 m2 e2 :
  exists z, F2R m1 e1 - F2R m2 e2 = F2R z (Z.min e1 e2).
Proof.
  exists (m1 * 2 ^ (e1 - Z.min e1 e2) - m2 * 2 ^ (e2 - Z.min e1 e2))%Z.
  unfold F2R at 3. rewrite minus_IZR, Rmult_minus_distr_r.
  fold (F2R (m1 * 2 ^ (e1 - Z.min e1 e2)) (Z.min e1 e2)).
  fold (F2R (m2 * 2 ^ (e2 - Z.min e1 e2)) (Z.min e1 e2)).
  rewrite !F2R_shift by lia. f_equal; f_equal; lia.
Qed.

Lemma F2R_abs_ge z e : z <> 0%Z -> bpow e <= Rabs (F2R z e).
Proof.
  intros Hz. unfold F2R. rewrite Rabs_mult.
  rewrite (Rabs_pos_eq (bpow e)) by (apply Rlt_le, bpow_pos).
  rewrite <- abs_IZR. pose proof (bpow_pos e).
  assert (1 <= IZR (Z.abs z)) by (apply IZR_le; lia). nra.
Qed.

(** Truncating a correctly rounded quotient of integers with a numerator
    below 2^53 gives the integer quotient. *)
Lemma to_int_rounded_quotient a b p e :
  (0 < a < 2 ^ 53)%Z -> (0 < b)%Z ->
  rounded (IZR a / IZR b) p e ->
  to_int (S754_finite false p e) = Ok (a / b)%Z.
Proof.
  intros Ha Hb Hr.
  destruct (to_int_floor p e) as (k & Hk & Hfl). rewrite Hk. f_equal.
  pose proof (Z.div_mod a b ltac:(lia)) as Hdm.
  pose proof (Z.mod_pos_bound a b Hb) as Hmod.
  set (n := (a / b)%Z) in *. set (r := (a mod b)%Z) in *.
  assert (0 < IZR b) as HB by (apply IZR_lt; lia).
  assert (IZR a / IZR b = IZR n + IZR r / IZR b) as Hx.
  { rewrite Hdm, plus_IZR, mult_IZR. field. lra. }
  destruct (Z.eq_dec r 0) as [Hr0|Hr0].
  - assert (IZR a / IZR b = IZR n) as Hx'.
    { rewrite Hx, Hr0. unfold Rdiv. rewrite Rmult_0_l. ring. }
    rewrite Hx' in Hr.
    assert (n < 2 ^ 53)%Z as Hn by nia.
    pose proof (rounded_exact_int n p e Hr Hn) as Hv.
    rewrite Hv in Hfl. apply (floor_unique k n (IZR n)); [exact Hfl|].
    rewrite plus_IZR. lra.
  - pose proof (rounded_rel _ _ _ Hr) as Hrel.
    apply Rabs_le_elim in Hrel.
    rewrite bpow_m53 in Hrel.
    assert (IZR a < IZR (2 ^ 53)) as Ha' by (apply IZR_lt; lia).
    assert (1 <= IZR r <= IZR b - 1) as Hr'.
    { rewrite <- minus_IZR. split; apply IZR_le; lia. }
    set (t := IZR r / IZR b) in *.
    assert (t * IZR b = IZR r) as Ht by (unfold t; field; lra).
    set (q := IZR a / IZR b) in *.
    assert (q * IZR b = IZR a) as Hq by (unfold q; field; lra).
    set (U := / IZR (2 ^ 53)) in *.
    assert (0 < IZR (2 ^ 53)) as HP by (apply IZR_lt; reflexivity).
    assert (U * IZR (2 ^ 53) = 1) as HU by (unfold U; field; lra).
    assert (0 < U) as HU0 by (apply Rinv_0_lt_compat; exact HP).
    assert (q * U * IZR b < 1) as Hsmall.
    { replace (q * U * IZR b) with (IZR a * U) by (rewrite <- Hq; ring). nra. }
    apply (floor_unique k n (F2R (Zpos p) e)); [exact Hfl|].
    rewrite plus_IZR. split.
    + assert (0 < (F2R (Z.pos p) e - IZR n) * IZR b); [|nra].
      nra.
    + assert (0 < (IZR n + 1 - F2R (Z.pos p) e) * IZR b); [|nra].
      nra.
Qed.

End BinaryRounding.

(** ** The arithmetic of the planner *)

Section PlannerArithmetic.

Local Open Scope R_scope.

Lemma bpow_Zneg p : bpow (Zneg p) = / IZR (2 ^ Zpos p).
Proof. exact (bpow_opp (Zpos p) ltac:(lia)). Qed.

Lemma target_ratio_value : int_truediv 9 16 = Ok c916.
Proof. reflexivity. Qed.

Lemma c916_val : F2R 5066549580791808 (-53) = 9 / 16.
Proof.
  unfold F2R. rewrite bpow_Zneg.
  change (2 ^ 53)%Z with 9007199254740992%Z. lra.
Qed.

Lemma lit_0_01_val :
  F2R 5764607523034235 (-59) = 5764607523034235 / 576460752303423488.
Proof.
  unfold F2R. rewrite bpow_Zneg.
  change (2 ^ 59)%Z with 576460752303423488%Z. lra.
Qed.

Lemma ratio_range w h :
  pixel_dim w -> pixel_dim h ->
  / 2147483648 < IZR w / IZR h < 2147483648 /\
  bpow (-1022) <= IZR w / IZR h < bpow 1023.
Proof.
  unfold pixel_dim. change (2 ^ 31)%Z with 2147483648%Z. intros Hw Hh.
  assert (1 <= IZR w <= 2147483647) by (split; apply IZR_le; lia).
  assert (1 <= IZR h <= 2147483647) by (split; apply IZR_le; lia).
  set (q := IZR w / IZR h).
  assert (q * IZR h = IZR w) as Hq by (unfold q; field; lra).
  assert (/ 2147483648 < q < 2147483648) as Hb.
  { split.
    - assert (0 < (q - / 2147483648) * IZR h); [|nra]. nra.
    - assert (0 < (2147483648 - q) * IZR h); [|nra]. nra. }
  split; [exact Hb|].
  assert (bpow (-1022) <= bpow (-31)) by (apply bpow_le; lia).
  assert (bpow 31 <= bpow 1023) by (apply bpow_le; lia).
  rewrite (bpow_Zneg 31) in *. rewrite (bpow_IZR 31) in * by lia.
  change (2 ^ 31)%Z with 2147483648%Z in *. lra.
Qed.

Lemma rounded_exponent_lower x p e k :
  rounded x p e -> bpow k <= x -> (k - 53 < e)%Z.
Proof.
  intros (E & _ & He & _ & [_ Hx] & _) Hk.
  assert (bpow k < bpow E) as L by lra. apply bpow_lt_inv in L.
  destruct He as [->|[-> _]]; lia.
Qed.

Lemma flt_zero_lit : flt (S754_zero false) lit_0_01 = true.
Proof. reflexivity. Qed.

(** The tolerance check on a finite positive ratio [v]: the float the
    comparison sees is within one rounding of [|v - 9/16|]. *)
Lemma tolerance_test_value pv ev :
  (2 ^ 52 <= Zpos pv < 2 ^ 53)%Z -> (-1000 <= ev)%Z ->
  F2R (Zpos pv) ev < bpow 1000 ->
  exists F,
    Rabs (F - Rabs (F2R (Zpos pv) ev - 9 / 16))
      <= Rabs (F2R (Zpos pv) ev - 9 / 16) * bpow (-53) /\
    (within_tolerance (S754_finite false pv ev) c916 = true <->
     F < 5764607523034235 / 576460752303423488).
Proof.
  intros Hpv Hev Hv. rewrite <- c916_val, <- lit_0_01_val.
  set (d := F2R (Zpos pv) ev - F2R 5066549580791808 (-53)).
  pose proof (fsub_pos_spec pv ev 5066549580791808 (-53)) as (H0 & Hp & Hn).
  fold d in H0, Hp, Hn. unfold within_tolerance, c916.
  assert (0 < F2R (Zpos pv) ev) as Hvpos.
  { unfold F2R. apply Rmult_lt_0_compat; [apply IZR_lt; lia|apply bpow_pos]. }
  assert (d <> 0 -> bpow (-1022) <= Rabs d < bpow 1023) as Hrange.
  { intros Hd. split.
    - destruct (sub_grid (Zpos pv) ev 5066549580791808 (-53)) as (z & Hz).
      fold d in Hz. rewrite Hz.
      assert (z <> 0%Z) as Hz0.
      { intros ->. apply Hd. rewrite Hz. unfold F2R. ring. }
      apply Rle_trans with (2 := F2R_abs_ge z _ Hz0). apply bpow_le. lia.
    - assert (bpow 1000 < bpow 1023) by (apply bpow_lt; lia).
      assert (F2R 5066549580791808 (-53) < bpow 1000).
      { rewrite c916_val. assert (bpow 0 <= bpow 1000) by (apply bpow_le; lia).
        change (bpow 0) with 1 in *. lra. }
      pose proof c916_val.
      unfold d. apply Rabs_def1; lra. }
  pose proof (bpow_pos (-53)) as HU.
  destruct (Rtotal_order d 0) as [Hd|[Hd|Hd]].
  - destruct (Hn Hd) as (p & e & Hres & Hr).
    { rewrite <- (Rabs_left d Hd). apply Hrange. lra. }
    exists (F2R (Zpos p) e). rewrite Hres. simpl fabs.
    rewrite (Rabs_left d Hd). split; [apply rounded_rel; exact Hr|].
    apply flt_spec; [eapply rounded_mantissa; eassumption|lia].
  - exists 0. rewrite (H0 Hd), Hd. simpl fabs. rewrite Rabs_R0.
    split; [rewrite Rminus_diag, Rabs_R0; lra|].
    rewrite lit_0_01_val. split; [lra|reflexivity].
  - destruct (Hp Hd) as (p & e & Hres & Hr).
    { rewrite <- (Rabs_right d) by lra. apply Hrange. lra. }
    exists (F2R (Zpos p) e). rewrite Hres. simpl fabs.
    rewrite (Rabs_right d) by lra. split; [apply rounded_rel; exact Hr|].
    apply flt_spec; [eapply rounded_mantissa; eassumption|lia].
Qed.

Lemma ratio_le_of_cross (W H q c : R) :
  0 < H -> q * H = W -> W <= c * H -> q <= c.
Proof. intros HH Hq Hc. assert (0 <= (c - q) * H) by nra. nra. Qed.

Lemma ratio_ge_of_cross (W H q c : R) :
  0 < H -> q * H = W -> c * H <= W -> c <= q.
Proof. intros HH Hq Hc. assert (0 <= (q - c) * H) by nra. nra. Qed.

Lemma ratio_eq_of_cross (W H q c : R) :
  0 < H -> q * H = W -> W = c * H -> q = c.
Proof. intros HH Hq Hc. assert ((q - c) * H = 0) by nra. nra. Qed.

Lemma boundary_ratio_float a m0 pv ev :
  (2 ^ 52 <= m0 < 2 ^ 53)%Z ->
  / 2 <= a < 1 ->
  Rabs (IZR m0 * / 9007199254740992 - a) < / 18014398509481984 ->
  rounded a pv ev ->
  S754_finite false pv ev = S754_finite false (Z.to_pos m0) (-53).
Proof.
  intros Hm0 Ha Hclose Hr.
  destruct (rounded_determined a pv ev 0 m0 Hr) as [Hp He].
  - change (0 - 1)%Z with (-1)%Z. change (bpow 0) with 1.
    rewrite (bpow_Zneg 1). change (2 ^ 1)%Z with 2%Z. exact Ha.
  - exact Hm0.
  - change (0 - 53)%Z with (-53)%Z. change (0 - 54)%Z with (-54)%Z.
    unfold F2R. rewrite (bpow_Zneg 53), (bpow_Zneg 54).
    change (2 ^ 53)%Z with 9007199254740992%Z.
    change (2 ^ 54)%Z with 18014398509481984%Z. exact Hclose.
  - change (0 - 53)%Z with (-53)%Z in He. subst ev. f_equal.
    rewrite <- Hp. reflexivity.
Qed.

Lemma within_tolerance_ratio w h pv ev :
  pixel_dim w -> pixel_dim h ->
  rounded (IZR w / IZR h) pv ev ->
  within_tolerance (S754_finite false pv ev) c916
  = (100 * Z.abs (16 * w - 9 * h) <? 16 * h)%Z.
Proof.
  intros Hw Hh Hr.
  destruct (ratio_range w h Hw Hh) as [Hq _].
  unfold pixel_dim in Hw, Hh. change (2 ^ 31)%Z with 2147483648%Z in *.
  assert (1 <= IZR w <= 2147483647) as HW by (split; apply IZR_le; lia).
  assert (1 <= IZR h <= 2147483647) as HH by (split; apply IZR_le; lia).
  pose proof (rounded_rel _ _ _ Hr) as Hrel.
  pose proof (rounded_mantissa _ _ _ Hr) as Hpv.
  assert (-1000 <= ev)%Z as Hev.
  { assert (-31 - 53 < ev)%Z; [|lia].
    apply (rounded_exponent_lower _ _ _ _ Hr).
    rewrite (bpow_Zneg 31). change (2 ^ 31)%Z with 2147483648%Z. lra. }
  set (q := IZR w / IZR h) in *.
  assert (q * IZR h = IZR w) as Hqh by (unfold q; field; lra).
  set (v := F2R (Zpos pv) ev) in *.
  rewrite bpow_m53 in Hrel. change (2 ^ 53)%Z with 9007199254740992%Z in Hrel.
  apply Rabs_le_elim in Hrel.
  destruct (tolerance_test_value pv ev Hpv Hev) as (F & HF & Hiff).
  { fold v. assert (bpow 33 <= bpow 1000) as Hb by (apply bpow_le; lia).
    rewrite (bpow_IZR 33) in Hb by lia.
    change (2 ^ 33)%Z with 8589934592%Z in Hb. lra. }
  fold v in HF.
  rewrite bpow_m53 in HF. change (2 ^ 53)%Z with 9007199254740992%Z in HF.
  apply Rabs_le_elim in HF.
  destruct (Z.ltb_spec (100 * Z.abs (16 * w - 9 * h)) (16 * h)) as [Hnear|Hfar].
  - (* inside the tolerance band *)
    apply Hiff.
    assert (100 * (16 * w - 9 * h) + 1 <= 16 * h)%Z as H1 by lia.
    assert (100 * (9 * h - 16 * w) + 1 <= 16 * h)%Z as H2 by lia.
    apply IZR_le in H1, H2.
    rewrite plus_IZR, !mult_IZR, minus_IZR, !mult_IZR in H1, H2.
    assert (q <= 5725 / 10000 - / 3435973836800) as Hu
      by (apply (ratio_le_of_cross (IZR w) (IZR h)); lra).
    assert (5525 / 10000 + / 3435973836800 <= q) as Hl
      by (apply (ratio_ge_of_cross (IZR w) (IZR h)); lra).
    revert HF. unfold Rabs. destruct (Rcase_abs (v - 9 / 16)); intros HF; lra.
  - destruct (Z.eq_dec (100 * Z.abs (16 * w - 9 * h)) (16 * h)) as [Heq|Hne].
    + (* exactly on the edge of the band *)
      assert (400 * w = 229 * h \/ 400 * w = 221 * h)%Z as [Hc|Hc] by lia.
      * assert (q = 229 / 400) as Hq'.
        { apply (ratio_eq_of_cross (IZR w) (IZR h)); try lra.
          apply (f_equal IZR) in Hc. rewrite !mult_IZR in Hc. lra. }
        rewrite Hq' in Hr.
        rewrite (boundary_ratio_float (229 / 400) 5156621573339218 pv ev) by
          (try lia; try lra; try exact Hr; apply Rabs_def1; lra).
        reflexivity.
      * assert (q = 221 / 400) as Hq'.
        { apply (ratio_eq_of_cross (IZR w) (IZR h)); try lra.
          apply (f_equal IZR) in Hc. rewrite !mult_IZR in Hc. lra. }
        rewrite Hq' in Hr.
        rewrite (boundary_ratio_float (221 / 400) 4976477588244398 pv ev) by
          (try lia; try lra; try exact Hr; apply Rabs_def1; lra).
        reflexivity.
    + (* strictly outside the band *)
      destruct (within_tolerance _ _) eqn:Hwt; [exfalso|reflexivity].
      pose proof (proj1 Hiff eq_refl) as Hlt.
      assert (16 * h + 1 <= 100 * (16 * w - 9 * h) \/
              16 * h + 1 <= 100 * (9 * h - 16 * w))%Z as [H1|H1] by lia;
        apply IZR_le in H1;
        rewrite plus_IZR, !mult_IZR, minus_IZR, !mult_IZR in H1.
      * assert (5725 / 10000 + / 3435973836800 <= q) as Hl
          by (apply (ratio_ge_of_cross (IZR w) (IZR h)); lra).
        revert HF. unfold Rabs. destruct (Rcase_abs (v - 9 / 16)); intros HF; lra.
      * assert (q <= 5525 / 10000 - / 3435973836800) as Hu
          by (apply (ratio_le_of_cross (IZR w) (IZR h)); lra).
        revert HF. unfold Rabs. destruct (Rcase_abs (v - 9 / 16)); intros HF; lra.
Qed.

Lemma fgt_ratio w h pv ev :
  pixel_dim w -> pixel_dim h ->
  rounded (IZR w / IZR h) pv ev ->
  (16 * h <= 100 * Z.abs (16 * w - 9 * h))%Z ->
  fgt (S754_finite false pv ev) c916 = (9 * h <? 16 * w)%Z.
Proof.
  intros Hw Hh Hr Hfar.
  destruct (ratio_range w h Hw Hh) as [Hq _].
  unfold pixel_dim in Hw, Hh. change (2 ^ 31)%Z with 2147483648%Z in *.
  assert (1 <= IZR w <= 2147483647) as HW by (split; apply IZR_le; lia).
  assert (1 <= IZR h <= 2147483647) as HH by (split; apply IZR_le; lia).
  pose proof (rounded_rel _ _ _ Hr) as Hrel.
  pose proof (rounded_mantissa _ _ _ Hr) as Hpv.
  set (q := IZR w / IZR h) in *.
  assert (q * IZR h = IZR w) as Hqh by (unfold q; field; lra).
  rewrite bpow_m53 in Hrel. change (2 ^ 53)%Z with 9007199254740992%Z in Hrel.
  apply Rabs_le_elim in Hrel.
  assert (fgt (S754_finite false pv ev) c916 = true <->
          9 / 16 < F2R (Zpos pv) ev) as Hiff.
  { rewrite <- c916_val. unfold fgt, c916. apply flt_spec; [lia|exact Hpv]. }
  destruct (Z.ltb_spec (9 * h) (16 * w)) as [Hwide|Hnarrow].
  - apply Hiff.
    assert (16 * h <= 100 * (16 * w - 9 * h))%Z as H1 by lia.
    apply IZR_le in H1. rewrite !mult_IZR, minus_IZR, !mult_IZR in H1.
    assert (5725 / 10000 <= q) as Hl
      by (apply (ratio_ge_of_cross (IZR w) (IZR h)); lra).
    lra.
  - destruct (fgt _ _) eqn:Hg; [exfalso|reflexivity].
    pose proof (proj1 Hiff eq_refl) as Hlt.
    assert (16 * h <= 100 * (9 * h - 16 * w))%Z as H1 by lia.
    apply IZR_le in H1. rewrite !mult_IZR, minus_IZR, !mult_IZR in H1.
    assert (q <= 5525 / 10000) as Hu
      by (apply (ratio_le_of_cross (IZR w) (IZR h)); lra).
    lra.
Qed.

Lemma of_int_exact z :
  (0 < z < 2 ^ 53)%Z ->
  exists p e, of_int z = Ok (S754_finite false p e) /\
              F2R (Zpos p) e = IZR z /\ (2 ^ 52 <= Zpos p < 2 ^ 53)%Z.
Proof.
  intros Hz. destruct (of_int_rounded z) as (p & e & Hres & Hr); [lia| |].
  { apply Rlt_le_trans with (bpow 53); [|apply bpow_le; lia].
    rewrite (bpow_IZR 53) by lia. apply IZR_lt. lia. }
  exists p, e. split; [exact Hres|]. split.
  - apply rounded_exact_int; [exact Hr|lia].
  - eapply rounded_mantissa; eassumption.
Qed.

Lemma IZR_range_normal z :
  (0 < z < 2 ^ 53)%Z -> bpow (-1022) <= IZR z < bpow 1023.
Proof.
  intros Hz.
  assert (bpow (-1022) <= bpow 0) as A by (apply bpow_le; lia).
  assert (bpow 53 <= bpow 1023) as B by (apply bpow_le; lia).
  change (bpow 0) with 1 in A. rewrite (bpow_IZR 53) in B by lia.
  assert (1 <= IZR z) by (apply IZR_le; lia).
  assert (IZR z < IZR (2 ^ 53)) by (apply IZR_lt; lia). lra.
Qed.

(** [int(height * target_ratio)] *)
Lemma target_width_exact h :
  pixel_dim h ->
  (let* fheight := of_int h in to_int (fmul fheight c916)) = Ok (9 * h / 16)%Z.
Proof.
  unfold pixel_dim. intros Hh.
  destruct (of_int_exact h) as (p & e & Hres & Hv & Hp); [lia|].
  rewrite Hres. cbv beta iota delta [bind]. unfold c916.
  destruct (fmul_rounded false p e false 5066549580791808 (-53))
    as (p' & e' & Hmul & Hr).
  { nia. }
  { rewrite Hv, c916_val.
    replace (IZR h * (9 / 16)) with (IZR (9 * h) / IZR 16)
      by (rewrite mult_IZR; field).
    pose proof (IZR_range_normal (9 * h) ltac:(lia)) as [A B].
    assert (bpow (-1022) <= bpow (-4)) as C by (apply bpow_le; lia).
    rewrite (bpow_Zneg 4) in C. change (2 ^ 4)%Z with 16%Z in C.
    assert (1 <= IZR (9 * h)) by (apply IZR_le; lia).
    lra. }
  rewrite Hmul. simpl xorb.
  rewrite Hv, c916_val in Hr.
  replace (IZR h * (9 / 16)) with (IZR (9 * h) / IZR 16) in Hr
    by (rewrite mult_IZR; field).
  apply to_int_rounded_quotient; [lia|lia|exact Hr].
Qed.

(** [int(width / target_ratio)] *)
Lemma target_height_exact w :
  pixel_dim w ->
  (let* fwidth := of_int w in
   let* quotient := float_div fwidth c916 in
   to_int quotient) = Ok (16 * w / 9)%Z.
Proof.
  unfold pixel_dim. intros Hw.
  destruct (of_int_exact w) as (p & e & Hres & Hv & Hp); [lia|].
  rewrite Hres. cbv beta iota delta [bind]. unfold c916.
  assert (F2R (Z.pos p) e / F2R 5066549580791808 (-53)
          = IZR (16 * w) / IZR 9) as Hx.
  { rewrite Hv, c916_val, mult_IZR. field. }
  destruct (float_div_rounded false p e false 5066549580791808 (-53))
    as (p' & e' & Hdiv & Hr).
  { rewrite Hx.
    pose proof (IZR_range_normal (16 * w) ltac:(lia)) as [A B].
    assert (16 <= IZR (16 * w)) by (apply IZR_le; lia).
    assert (bpow (-1022) <= bpow 0) as D by (apply bpow_le; lia).
    change (bpow 0) with 1 in D. lra. }
  rewrite Hdiv. cbv beta iota delta [bind]. simpl xorb. rewrite Hx in Hr.
  apply to_int_rounded_quotient; [lia|lia|exact Hr].
Qed.



End PlannerArithmetic.

Lemma calculate_crop_parameters_integer info subject_center :
  pixel_dim (width info) -> pixel_dim (height info) ->
  calculate_crop_parameters info subject_center
  = Ok (integer_plan (width info) (height info) subject_center).
Proof.
  intros Hw Hh. unfold calculate_crop_parameters, integer_plan.
  rewrite target_ratio_value. cbv beta iota delta [bind].
  destruct (ratio_range _ _ Hw Hh) as [_ Hrange].
  destruct (int_truediv_rounded (width info) (height info)) as
    (pv & ev & Hdiv & Hr); [apply Hw|apply Hh|exact Hrange|].
  rewrite Hdiv. destruct subject_center as [subject_x subject_y].
  rewrite (within_tolerance_ratio _ _ _ _ Hw Hh Hr).
  destruct (Z.ltb_spec (100 * Z.abs (16 * width info - 9 * height info))
              (16 * height info)) as [Hnear|Hfar]; [reflexivity|].
  rewrite (fgt_ratio _ _ _ _ Hw Hh Hr Hfar).
  destruct (9 * height info <? 16 * width info).
  - pose proof (target_width_exact _ Hh) as Htw.
    cbv beta iota delta [bind] in Htw.
    destruct (of_int (height info)) as [fh|]; [|discriminate].
    rewrite Htw. reflexivity.
  - pose proof (target_height_exact _ Hw) as Hth.
    cbv beta iota delta [bind] in Hth.
    destruct (of_int (width info)) as [fw|]; [|discriminate].
    destruct (float_div fw c916) as [qf|]; [|discriminate].
    rewrite Hth. destruct (16 * width info / 9 <=? height info); reflexivity.
Qed.

(** ** Sampling indices, means and overflow *)

Section SamplingArithmetic.

Local Open Scope R_scope.

(** A rounding lands on a nearby integer of the same binade. *)
Lemma rounded_near_int x p e n :
  rounded x p e -> (0 < n < 2 ^ 53)%Z ->
  bpow (Zdigits2 n - 1) <= x < bpow (Zdigits2 n) ->
  Rabs (x - IZR n) < bpow (Zdigits2 n - 54) ->
  F2R (Zpos p) e = IZR n.
Proof.
  intros Hr Hn Hx Hclose.
  set (D := Zdigits2 n) in *.
  destruct (rounded_grid x p e D Hr Hx) as (P & HF &Herr & _ & _).
  rewrite HF.
  pose proof (Zdigits2_bounds n ltac:(lia)) as Hd. fold D in Hd.
  assert (D <= 53)%Z as HD.
  { destruct (Z_le_gt_dec D 53) as [L|G]; [exact L|].
    assert (2 ^ 53 <= 2 ^ (D - 1))%Z by (apply Z.pow_le_mono_r; lia). lia. }
  assert (IZR n = F2R (n * 2 ^ (53 - D)) (D - 53)) as Hn'.
  { rewrite F2R_shift by lia. replace (D - 53 + (53 - D))%Z with 0%Z by lia.
    symmetry. apply F2R_0. }
  rewrite Hn' in *. set (N := (n * 2 ^ (53 - D))%Z) in *.
  assert (bpow (D - 54) = bpow (D - 53) / 2) as Hh
    by (rewrite <- bpow_pred; f_equal; lia).
  rewrite Hh in *. pose proof (bpow_pos (D - 53)) as HB.
  apply Rabs_le_elim in Herr. apply Rabs_def2 in Hclose.
  clearbody N. clearbody D.
  assert (F2R (P - 1) (D - 53) < F2R N (D - 53)) as A.
  { unfold F2R in *. rewrite minus_IZR. lra. }
  assert (F2R N (D - 53) < F2R (P + 1) (D - 53)) as B.
  { clear A. unfold F2R in *. rewrite plus_IZR. lra. }
  apply F2R_lt_inv in A, B. f_equal. lia.
Qed.

Lemma pow2_not_mult3 k : (0 <= k)%Z -> (2 ^ k mod 3 <> 0)%Z.
Proof.
  intros Hk. revert k Hk.
  apply (natlike_ind (fun k => 2 ^ k mod 3 <> 0)%Z).
  - intros H. vm_compute in H. discriminate.
  - intros j Hj IH. rewrite Z.pow_succ_r by lia.
    intros H. apply IH. clear IH.
    pose proof (Z.div_mod (2 ^ j) 3 ltac:(lia)).
    pose proof (Z.mod_pos_bound (2 ^ j) 3 ltac:(lia)).
    pose proof (Z.div_mod (2 * 2 ^ j) 3 ltac:(lia)).
    lia.
Qed.

(** [int(c * t)] for a float [c] within one rounding of [i/5]. *)
Lemma scaled_index i pc ec t pt et :
  (1 <= i <= 4)%Z -> (5 <= t < 2 ^ 31)%Z ->
  (2 ^ 52 <= Zpos pc < 2 ^ 53)%Z ->
  Rabs (F2R (Zpos pc) ec - IZR i / 5) <= IZR i / 5 * / 18014398509481984 ->
  (F2R (Zpos pc) ec < IZR i / 5 -> i = 3%Z) ->
  F2R (Zpos pt) et = IZR t -> (2 ^ 52 <= Zpos pt < 2 ^ 53)%Z ->
  to_int (fmul (S754_finite false pc ec) (S754_finite false pt et))
  = Ok (i * t / 5)%Z.
Proof.
  intros Hi Ht Hpc Hc Hsign Hvt Hpt.
  change (2 ^ 31)%Z with 2147483648%Z in Ht.
  assert (5 <= IZR t <= 2147483647) as HT by (split; apply IZR_le; lia).
  set (c := F2R (Zpos pc) ec) in *. set (T := IZR t) in *.
  apply Rabs_le_elim in Hc.
  assert (1 <= IZR i <= 4) as HI by (split; apply IZR_le; lia).
  assert (- (IZR i / 5 * / 18014398509481984 * T) <= c * T - IZR i / 5 * T
          <= IZR i / 5 * / 18014398509481984 * T) as Hx by (split; nra).
  assert (bpow (-1022) <= bpow (-1)) as Hlo by (apply bpow_le; lia).
  rewrite (bpow_Zneg 1) in Hlo. change (2 ^ 1)%Z with 2%Z in Hlo.
  assert (bpow 33 <= bpow 1023) as Hhi by (apply bpow_le; lia).
  rewrite (bpow_IZR 33) in Hhi by lia.
  change (2 ^ 33)%Z with 8589934592%Z in Hhi.
  destruct (fmul_rounded false pc ec false pt et) as (p & e & Hmul & Hr).
  { nia. }
  { rewrite Hvt. fold c T.
    assert (19 / 100 <= c <= 81 / 100) as Hcb by lra.
    assert (9 / 10 <= c * T <= 2147483648) by (split; nra). lra. }
  rewrite Hmul. simpl xorb. rewrite Hvt in Hr. fold c T in Hr.
  destruct (to_int_floor p e) as (k & Hk & Hfl). rewrite Hk. f_equal.
  pose proof (rounded_rel _ _ _ Hr) as Hrel.
  rewrite bpow_m53 in Hrel. change (2 ^ 53)%Z with 9007199254740992%Z in Hrel.
  apply Rabs_le_elim in Hrel.
  pose proof (Z.div_mod (i * t) 5 ltac:(lia)) as Hdm.
  pose proof (Z.mod_pos_bound (i * t) 5 ltac:(lia)) as Hmod.
  set (n := (i * t / 5)%Z) in *. set (r := ((i * t) mod 5)%Z) in *.
  assert (IZR i * T = 5 * IZR n + IZR r) as HiT.
  { unfold T. rewrite <- mult_IZR, Hdm, plus_IZR, mult_IZR. reflexivity. }
  assert (1 <= n < 2147483648)%Z as Hn by nia.
  assert (1 <= IZR n <= 2147483647) as HN by (split; apply IZR_le; lia).
  destruct (Z.eq_dec r 0) as [Hr0|Hr0].
  - (* the exact quotient is an integer, and the product rounds to it *)
    rewrite Hr0 in HiT. rewrite Rplus_0_r in HiT.
    assert (F2R (Zpos p) e = IZR n) as HF.
    { pose proof (Zdigits2_bounds n ltac:(lia)) as Hd.
      assert (0 < Zdigits2 n)%Z as Hd0 by (destruct n; simpl; lia).
      assert (bpow (Zdigits2 n) = IZR (2 ^ Zdigits2 n)) as HBD
        by (apply bpow_IZR; lia).
      assert (bpow (Zdigits2 n - 1) = bpow (Zdigits2 n) / 2) as HB1
        by apply bpow_pred.
      assert (bpow (Zdigits2 n - 54)
              = bpow (Zdigits2 n) * / 18014398509481984) as HB54.
      { replace (Zdigits2 n - 54)%Z with (Zdigits2 n + -54)%Z by lia.
        rewrite bpow_add, (bpow_Zneg 54). reflexivity. }
      assert (IZR n + 1 <= bpow (Zdigits2 n)) as Hup.
      { rewrite HBD, <- plus_IZR. apply IZR_le. lia. }
      assert (bpow (Zdigits2 n) / 2 <= IZR n) as Hdn.
      { rewrite <- HB1, bpow_IZR by lia. apply IZR_le. lia. }
      assert (c < IZR i / 5 -> bpow (Zdigits2 n) / 2 + 1 <= IZR n) as Hstrict.
      { intros Hlt. specialize (Hsign Hlt).
        assert (n <> 2 ^ (Zdigits2 n - 1))%Z as Hne.
        { intros E. pose proof (pow2_not_mult3 (Zdigits2 n - 1) ltac:(lia)) as H3.
          rewrite <- E in H3. apply H3.
          pose proof (Z.div_mod n 3 ltac:(lia)).
          pose proof (Z.mod_pos_bound n 3 ltac:(lia)). lia. }
        rewrite <- HB1, bpow_IZR, <- plus_IZR by lia. apply IZR_le. lia. }
      apply (rounded_near_int (c * T) p e n Hr); [lia| |];
        rewrite ?HB1, ?HB54.
      all: set (BD := bpow (Zdigits2 n)) in *; clearbody BD.
      all: destruct (Rlt_dec c (IZR i / 5)) as [Hlt|Hge];
        [specialize (Hstrict Hlt); specialize (Hsign Hlt); subst i
        |clear Hstrict Hsign;
         assert (IZR i / 5 * T <= c * T) as Hge'
           by (apply Rmult_le_compat_r; lra);
         assert (i = 1 \/ i = 2 \/ i = 3 \/ i = 4)%Z as [->|[->|[->| ->]]]
           by lia].
      all: try (apply Rabs_def1); lra. }
    rewrite HF in Hfl. apply (floor_unique k n (IZR n)); [exact Hfl|].
    rewrite plus_IZR. lra.
  - assert (1 <= IZR r <= 4) as HR by (split; apply IZR_le; lia).
    apply (floor_unique k n (F2R (Zpos p) e)); [exact Hfl|].
    rewrite plus_IZR.
    assert (i = 1 \/ i = 2 \/ i = 3 \/ i = 4)%Z as [->|[->|[->| ->]]] by lia;
      lra.
Qed.

Ltac bpow_const :=
  unfold F2R; rewrite ?bpow_Zneg;
  repeat match goal with
  | |- context [IZR (2 ^ Zpos ?p)] =>
    let v := eval vm_compute in (2 ^ Zpos p)%Z in
    change (2 ^ Zpos p)%Z with v
  end.

Lemma frame_number_five i t :
  (0 <= i < 5)%Z -> (5 <= t < 2 ^ 31)%Z ->
  frame_number i 5 t = Ok (i * t / 5)%Z.
Proof.
  intros Hi Ht. unfold frame_number.
  destruct (of_int_exact t) as (pt & et & Hof & Hvt & Hpt); [lia|].
  rewrite Hof.
  assert (i = 0 \/ i = 1 \/ i = 2 \/ i = 3 \/ i = 4)%Z
    as [->|[->|[->|[->| ->]]]] by lia.
  - reflexivity.
  - change (int_truediv 1 5) with (Ok (S754_finite false 7205759403792794 (-55))).
    cbv beta iota delta [bind].
    apply scaled_index; try lia; try exact Hvt.
    + bpow_const. apply Rabs_le. lra.
    + intros H. exfalso. revert H. bpow_const. lra.
  - change (int_truediv 2 5) with (Ok (S754_finite false 7205759403792794 (-54))).
    cbv beta iota delta [bind].
    apply scaled_index; try lia; try exact Hvt.
    + bpow_const. apply Rabs_le. lra.
    + intros H. exfalso. revert H. bpow_const. lra.
  - change (int_truediv 3 5) with (Ok (S754_finite false 5404319552844595 (-53))).
    cbv beta iota delta [bind].
    apply scaled_index; try lia; try exact Hvt.
    bpow_const. apply Rabs_le. lra.
  - change (int_truediv 4 5) with (Ok (S754_finite false 7205759403792794 (-53))).
    cbv beta iota delta [bind].
    apply scaled_index; try lia; try exact Hvt.
    + bpow_const. apply Rabs_le. lra.
    + intros H. exfalso. revert H. bpow_const. lra.
Qed.

Lemma frame_number_exact i t :
  (1 <= t < 2 ^ 31)%Z -> (0 <= i < Z.min 5 t)%Z ->
  frame_number i (Z.min 5 t) t = Ok (i * t / Z.min 5 t)%Z.
Proof.
  intros Ht Hi. destruct (Z_lt_le_dec t 5) as [L|G].
  - rewrite Z.min_r in * by lia.
    assert (t = 1 \/ t = 2 \/ t = 3 \/ t = 4)%Z as [->|[->|[->| ->]]] by lia.
    + assert (i = 0)%Z as -> by lia. reflexivity.
    + assert (i = 0 \/ i = 1)%Z as [->| ->] by lia; reflexivity.
    + assert (i = 0 \/ i = 1 \/ i = 2)%Z as [->|[->| ->]] by lia; reflexivity.
    + assert (i = 0 \/ i = 1 \/ i = 2 \/ i = 3)%Z as [->|[->|[->| ->]]] by lia;
        reflexivity.
  - rewrite Z.min_l in * by lia. apply frame_number_five; lia.
Qed.

Lemma int_truediv_signed a b :
  a <> 0%Z -> b <> 0%Z ->
  bpow (-1022) <= IZR (Z.abs a) / IZR (Z.abs b) < bpow 1023 ->
  exists p e,
    int_truediv a b = Ok (S754_finite (xorb (a <? 0)%Z (b <? 0)%Z) p e) /\
    rounded (IZR (Z.abs a) / IZR (Z.abs b)) p e.
Proof.
  intros Ha Hb Hx. unfold int_truediv.
  destruct (div_core_located (Z.abs a) 0 (Z.abs b) 0) as
    (q & e' & l & Hcore & Hloc & He'); try lia.
  replace (F2R (Z.abs a) 0 / F2R (Z.abs b) 0)
    with (IZR (Z.abs a) / IZR (Z.abs b)) in Hloc
    by (rewrite !F2R_0; reflexivity).
  destruct (round_normal (xorb (a <? 0)%Z (b <? 0)%Z) _ _ _ _ Hloc He' Hx)
    as (p & e & Hres & Hr).
  exists p, e. split; [|exact Hr].
  rewrite Hcore, Hres.
  destruct b; try lia; destruct a; try lia; reflexivity.
Qed.

Lemma to_int_signed s p e k :
  to_int (S754_finite false p e) = Ok k ->
  to_int (S754_finite s p e) = Ok (cond_Zopp s k).
Proof.
  unfold to_int. intros H. injection H as <-. reflexivity.
Qed.

(** [int(a / n)]: the mean of integers, truncated toward zero. *)
Lemma int_truediv_to_int a n :
  (Z.abs a < 2 ^ 53)%Z -> (0 < n < 2 ^ 53)%Z ->
  (let* f := int_truediv a n in to_int f) = Ok (Z.quot a n).
Proof.
  intros Ha Hn.
  destruct (Z.eq_dec a 0) as [->|Ha0].
  - destruct n; try lia. reflexivity.
  - destruct (int_truediv_signed a n) as (p & e & Hdiv & Hr); try lia.
    { assert (1 <= IZR (Z.abs a)) as A by (apply IZR_le; lia).
      assert (IZR (Z.abs a) < IZR (2 ^ 53)) as A' by (apply IZR_lt; lia).
      assert (1 <= IZR (Z.abs n)) as B by (apply IZR_le; lia).
      assert (IZR (Z.abs n) < IZR (2 ^ 53)) as B' by (apply IZR_lt; lia).
      change (2 ^ 53)%Z with 9007199254740992%Z in *.
      set (q := IZR (Z.abs a) / IZR (Z.abs n)).
      assert (q * IZR (Z.abs n) = IZR (Z.abs a)) as Hq by (unfold q; field; lra).
      assert (/ 9007199254740992 < q < 9007199254740992) as Hb.
      { split.
        - assert (0 < (q - / 9007199254740992) * IZR (Z.abs n)); [|nra]. nra.
        - assert (0 < (9007199254740992 - q) * IZR (Z.abs n)); [|nra]. nra. }
      assert (bpow (-1022) <= bpow (-53)) as C by (apply bpow_le; lia).
      assert (bpow 53 <= bpow 1023) as D by (apply bpow_le; lia).
      rewrite (bpow_Zneg 53) in C. rewrite (bpow_IZR 53) in D by lia.
      change (2 ^ 53)%Z with 9007199254740992%Z in *. lra. }
    rewrite Hdiv. cbv beta iota delta [bind].
    pose proof (to_int_rounded_quotient (Z.abs a) (Z.abs n) p e
                  ltac:(lia) ltac:(lia) Hr) as Hk.
    rewrite (to_int_signed _ _ _ _ Hk). f_equal.
    replace (n <? 0)%Z with false by (symmetry; apply Z.ltb_ge; lia).
    rewrite xorb_false_r. rewrite (Z.abs_eq n) by lia.
    destruct (Z.ltb_spec a 0) as [L|G]; simpl.
    + rewrite Z.abs_neq by lia.
      rewrite <- Z.quot_div_nonneg by lia.
      rewrite Z.quot_opp_l by lia. lia.
    + rewrite Z.abs_eq by lia. symmetry. apply Z.quot_div_nonneg; lia.
Qed.

(** *** No overflow: every finite result is below 2^1024. *)

Lemma binary_round_aux_exact_bounded s m e :
  match binary_round_aux prec emax s (Zpos m) e loc_Exact with
  | S754_finite _ p e' => (Zpos p < 2 ^ 53 /\ e' <= 971)%Z
  | _ => True
  end.
Proof.
  destruct (Z_le_gt_dec e (fexp prec emax (Zdigits2 (Zpos m) + e))) as [L|G].
  - destruct (binary_round_aux_spec s (F2R (Zpos m) e) (Zpos m) e loc_Exact)
      as (m1 & m' & e' & Hm1 & _ & _ & Hcase & Hres).
    { apply located_exact; [lia|reflexivity]. }
    { exact L. }
    rewrite Hres. unfold build, emax, prec.
    destruct m' as [|p|p]; try exact I.
    destruct (Z.leb_spec e' (1024 - 53)); [|exact I].
    split; [|lia]. destruct Hcase as [(_ & _ & Hc)|(_ & Hc & _)]; lia.
  - unfold binary_round_aux, shr_fexp.
    change (Zdigits2 (Zpos m)) with (Zpos (digits2_pos m)) in *.
    destruct (fexp prec emax (Zpos (digits2_pos m) + e) - e)%Z
      as [|q|q] eqn:En; try lia.
    cbn [shr shr_record_of_loc shr_m loc_of_shr_record round_nearest_even
         Zdigits2].
    rewrite En.
    cbn [shr shr_record_of_loc shr_m].
    destruct (Z.leb_spec e (emax - prec)) as [Hle|Hgt]; [|exact I].
    unfold emax, prec in Hle. split; [|lia].
    pose proof (digits2_pos_bounds m) as Hd.
    assert (Zpos (digits2_pos m) < 53)%Z as Hd53
      by (unfold fexp, emin, prec, emax in G; lia).
    assert (2 ^ Zpos (digits2_pos m) <= 2 ^ 53)%Z
      by (apply Z.pow_le_mono_r; lia).
    lia.
Qed.

Lemma fmul_bounded a b :
  match fmul a b with
  | S754_finite _ p e => (Zpos p < 2 ^ 53 /\ e <= 971)%Z
  | _ => True
  end.
Proof.
  destruct a as [sa|sa| |sa ma ea], b as [sb|sb| |sb mb eb]; simpl; try exact I.
  apply binary_round_aux_exact_bounded.
Qed.

Lemma to_int_bounded s p e c :
  (Zpos p < 2 ^ 53)%Z -> (e <= 971)%Z ->
  to_int (S754_finite s p e) = Ok c -> (Z.abs c <= max_float_int)%Z.
Proof.
  intros Hp He H. unfold to_int in H. injection H as <-.
  assert (0 <= Z.shiftl (Zpos p) e <= max_float_int)%Z as Hb.
  { unfold max_float_int. destruct (Z_le_gt_dec 0 e) as [L|G].
    - rewrite Z.shiftl_mul_pow2 by lia.
      assert (0 < 2 ^ e <= 2 ^ 971)%Z
        by (split; [apply Z.pow_pos_nonneg|apply Z.pow_le_mono_r]; lia).
      nia.
    - rewrite Z.shiftl_div_pow2 by lia.
      assert (0 < 2 ^ (- e))%Z by (apply Z.pow_pos_nonneg; lia).
      assert (0 < 2 ^ 971)%Z by (apply Z.pow_pos_nonneg; lia).
      assert (0 <= Zpos p / 2 ^ (- e) <= Zpos p)%Z.
      { split; [apply Z.div_pos; lia|].
        apply Z.div_le_upper_bound; [lia|]. nia. }
      nia. }
  destruct s; simpl; lia.
Qed.

Lemma to_int_fmul_bounded a b c :
  to_int (fmul a b) = Ok c -> (Z.abs c <= max_float_int)%Z.
Proof.
  pose proof (fmul_bounded a b) as H.
  destruct (fmul a b) as [s|s| |s p e]; simpl; intros E; try discriminate.
  - injection E as <-. unfold max_float_int. simpl Z.abs.
    assert (0 < 2 ^ 971)%Z by (apply Z.pow_pos_nonneg; lia). nia.
  - destruct H. eapply to_int_bounded; eauto.
Qed.

Lemma max_float_int_val :
  IZR max_float_int = bpow 1024 - bpow 971.
Proof.
  unfold max_float_int. rewrite mult_IZR, minus_IZR, <- (bpow_IZR 971) by lia.
  replace 1024%Z with (53 + 971)%Z by lia.
  rewrite bpow_add, (bpow_IZR 53) by lia. ring.
Qed.

(** The quotient of integers of magnitude at most [b * max_float_int] is
    representable: [a / b] does not raise, and neither does [int] of it. *)
Lemma int_truediv_total a b :
  (0 < b)%Z -> (Z.abs a <= b * max_float_int)%Z ->
  exists f z, int_truediv a b = Ok f /\ to_int f = Ok z.
Proof.
  intros Hb Ha.
  destruct (Z.eq_dec a 0) as [->|Ha0].
  { exists (S754_zero (b <? 0)%Z), 0%Z. destruct b; try lia. split; reflexivity. }
  unfold int_truediv.
  destruct (div_core_located (Z.abs a) 0 (Z.abs b) 0) as
    (q & e' & l & Hcore & Hloc & He'); try lia.
  rewrite !F2R_0 in Hloc. rewrite (Z.abs_eq b) in * by lia.
  set (x := IZR (Z.abs a) / IZR b) in *.
  assert (0 < IZR b) as HB by (apply IZR_lt; lia).
  assert (x <= bpow 1024 - bpow 971) as Hx.
  { rewrite <- max_float_int_val.
    apply (ratio_le_of_cross (IZR (Z.abs a)) (IZR b)); [exact HB| |].
    - unfold x. field. lra.
    - rewrite <- mult_IZR. apply IZR_le. lia. }
  set (s := xorb (a <? 0)%Z (b <? 0)%Z).
  destruct (binary_round_aux_spec s x q e' l Hloc He') as
    (m1 & m & e & Hm1 & Hx1 & Herr & Hcase & Hres).
  set (e1 := fexp prec emax (Zdigits2 q + e')) in *.
  pose proof (located_bounds _ _ _ _ Hloc) as [Hq Hxq].
  assert (0 <= m)%Z as Hm by (destruct Hcase as [(_ & [->| ->] & _)|(_ & -> & _)]; lia).
  assert (m = 0%Z \/ (0 < m /\ e <= 971)%Z) as Hfin.
  { destruct (Z.eq_dec m 0) as [->|Hm0]; [left; reflexivity|right].
    split; [lia|].
    destruct (Z_le_gt_dec e 971) as [L|G]; [exact L|exfalso].
    assert (971 <= e1)%Z as He1 by (destruct Hcase as [(-> & _)|(-> & _)]; lia).
    assert (q <> 0%Z) as Hq0.
    { intros ->. unfold e1, fexp, emin, prec, emax in *. simpl Zdigits2 in *. lia. }
    pose proof (Zdigits2_bounds q ltac:(lia)) as Hd.
    assert (0 < Zdigits2 q)%Z as Hd0 by (destruct q; simpl; lia).
    assert (e1 = Zdigits2 q + e' - 53)%Z as He1'
      by (unfold e1, fexp, emin, prec, emax in *; lia).
    assert (bpow (e1 + 52) <= x) as Hlow.
    { replace (e1 + 52)%Z with ((Zdigits2 q - 1) + e')%Z by lia.
      rewrite <- F2R_bpow by lia.
      apply Rle_trans with (2 := proj1 Hxq). unfold F2R.
      apply Rmult_le_compat_r; [apply Rlt_le, bpow_pos|]. apply IZR_le. lia. }
    pose proof (bpow_pos 971) as HB971.
    assert (e1 = 971)%Z as E971.
    { assert (bpow (e1 + 52) < bpow 1024) as A by lra.
      apply bpow_lt_inv in A. lia. }
    destruct Hcase as [(-> & _)|(-> & -> & ->)]; [lia|].
    rewrite E971 in *.
    assert (F2R (2 ^ 53 - 1) 971 = bpow 1024 - bpow 971) as HM.
    { unfold F2R. rewrite minus_IZR, <- (bpow_IZR 53) by lia.
      replace 1024%Z with (53 + 971)%Z by lia. rewrite bpow_add. ring. }
    assert (F2R (2 ^ 52) (971 + 1) = bpow 1024) as HT.
    { rewrite F2R_bpow by lia. f_equal. }
    rewrite HT in Herr. apply Rabs_le_elim in Herr. lra. }
  rewrite Hcore, Hres.
  destruct Hfin as [->|[Hm0 He]].
  - exists (S754_zero s), 0%Z. destruct b; try lia; destruct a; try lia;
      split; reflexivity.
  - destruct m as [|p|p]; try lia.
    exists (S754_finite s p e). eexists.
    assert (build s (Zpos p) e = S754_finite s p e) as ->.
    { unfold build, emax, prec. destruct (Z.leb_spec e (1024 - 53)); [reflexivity|lia]. }
    destruct b; try lia; destruct a; try lia; split; reflexivity.
Qed.

End SamplingArithmetic.

(** ** Means, detections and the sampling loop *)

(** ** Sums and means *)

Lemma fold_left_add_acc l a : fold_left Z.add l a = a + fold_left Z.add l 0.
Proof.
  revert a. induction l as [|x l IH]; intros a; cbn [fold_left]; [lia|].
  rewrite (IH (a + x)), (IH (0 + x)). lia.
Qed.

Lemma sum_cons x l : sum (x :: l) = x + sum l.
Proof. unfold sum. simpl. apply fold_left_add_acc. Qed.

Lemma sum_app l1 l2 : sum (l1 ++ l2) = sum l1 + sum l2.
Proof.
  induction l1 as [|x l1 IH]; simpl; [reflexivity|].
  rewrite !sum_cons, IH. lia.
Qed.

Lemma sum_bound (l : list Z) (M : Z) :
  Forall (fun v => Z.abs v <= M) l ->
  Z.abs (sum l) <= Z.of_nat (length l) * M.
Proof.
  induction 1 as [|x l Hx Hl IH]; [unfold sum; simpl; lia|].
  rewrite sum_cons. simpl length. rewrite Nat2Z.inj_succ. lia.
Qed.

(** [int(sum(l) / len(l))] never raises on coordinates that came out of
    [int(...)] of a float. *)
Lemma mean_coordinate_total (l : list Z) :
  l <> [] -> Forall (fun v => Z.abs v <= max_float_int) l ->
  exists f z, mean_coordinate l = Ok f /\ to_int f = Ok z.
Proof.
  intros Hne Hb. unfold mean_coordinate.
  apply int_truediv_total.
  - destruct l; [contradiction|simpl length; lia].
  - apply sum_bound. exact Hb.
Qed.

(** When the sum is small enough to be a binary64, the result is the
    truncated mean. *)
Lemma mean_coordinate_exact (l : list Z) :
  l <> [] -> Z.abs (sum l) < 2 ^ 53 -> Z.of_nat (length l) < 2 ^ 53 ->
  (let* f := mean_coordinate l in to_int f) = Ok (truncated_mean l).
Proof.
  intros Hne Hs Hl. unfold mean_coordinate, truncated_mean.
  apply int_truediv_to_int; [exact Hs|].
  destruct l; [contradiction|simpl length in *; lia].
Qed.

(** ** The subjects found in a frame *)

Lemma box_center_bounded lo extent size c :
  box_center lo extent size = Ok c -> Z.abs c <= max_float_int.
Proof.
  unfold box_center. intros H.
  destruct (of_int 2) as [two|]; [|discriminate].
  cbv beta iota delta [bind] in H.
  destruct (float_div extent two) as [half|]; [|discriminate].
  destruct (of_int size) as [fsize|]; [|discriminate].
  eapply to_int_fmul_bounded. exact H.
Qed.

Lemma torso_coordinate_bounded a b c d size v :
  torso_coordinate a b c d size = Ok v -> Z.abs v <= max_float_int.
Proof.
  unfold torso_coordinate. intros H.
  destruct (of_int 4) as [four|]; [|discriminate].
  cbv beta iota delta [bind] in H.
  destruct (float_div _ four) as [mean|]; [|discriminate].
  destruct (of_int size) as [fsize|]; [|discriminate].
  eapply to_int_fmul_bounded. exact H.
Qed.

Lemma face_subject_bounded bbox w h s :
  face_subject bbox w h = Ok s -> bounded_subject s.
Proof.
  unfold face_subject. intros H.
  destruct (box_center (xmin bbox) _ w) as [x|] eqn:Hx; [|discriminate].
  cbv beta iota delta [bind] in H.
  destruct (box_center (ymin bbox) _ h) as [y|] eqn:Hy; [|discriminate].
  injection H as <-. split; simpl.
  - eapply box_center_bounded; eassumption.
  - eapply box_center_bounded; eassumption.
Qed.

Lemma torso_subject_bounded landmarks w h s :
  torso_subject landmarks w h = Ok s -> bounded_subject s.
Proof.
  unfold torso_subject. intros H.
  destruct (landmark_at landmarks LEFT_SHOULDER) as [ls|]; [|discriminate].
  cbv beta iota delta [bind] in H.
  destruct (landmark_at landmarks RIGHT_SHOULDER) as [rs|]; [|discriminate].
  destruct (landmark_at landmarks LEFT_HIP) as [lh|]; [|discriminate].
  destruct (landmark_at landmarks RIGHT_HIP) as [rh|]; [|discriminate].
  destruct (torso_coordinate (lm_x ls) _ _ _ w) as [x|] eqn:Hx; [|discriminate].
  destruct (torso_coordinate (lm_y ls) _ _ _ h) as [y|] eqn:Hy; [|discriminate].
  injection H as <-. split; simpl.
  - eapply torso_coordinate_bounded; eassumption.
  - eapply torso_coordinate_bounded; eassumption.
Qed.

Lemma face_loop_bounded detections w h : forall subjects,
  Forall bounded_subject subjects ->
  Forall bounded_subject (face_loop detections w h subjects).
Proof.
  induction detections as [|bbox rest IH]; intros subjects Hs; simpl; [exact Hs|].
  destruct (face_subject bbox w h) as [s|] eqn:Hf; [|exact Hs].
  apply IH. apply Forall_app. split; [exact Hs|].
  constructor; [|constructor]. eapply face_subject_bounded; eassumption.
Qed.

(** When every detection converts, the loop appends them all, in order. *)
Lemma face_loop_all detections w h points : forall subjects,
  Forall2 (fun bbox s => face_subject bbox w h = Ok s) detections points ->
  face_loop detections w h subjects = subjects ++ points.
Proof.
  intros subjects H. revert subjects.
  induction H as [|bbox s rest points Hs _ IH]; intros subjects; simpl.
  - rewrite app_nil_r. reflexivity.
  - rewrite Hs, IH, <- app_assoc. reflexivity.
Qed.

Section DetectorProperties.

Context {frame : Type}.
Variable shape : frame -> Z * Z.
Variable face_process : frame -> result (list bounding_box).
Variable pose_process : frame -> result (option (list landmark)).

Lemma detect_faces_bounded f w h subjects :
  Forall bounded_subject subjects ->
  Forall bounded_subject (detect_faces face_process f w h subjects).
Proof.
  intros Hs. unfold detect_faces.
  destruct (face_process f); [apply face_loop_bounded|]; exact Hs.
Qed.

Lemma detect_pose_bounded f w h subjects :
  Forall bounded_subject subjects ->
  Forall bounded_subject (detect_pose pose_process f w h subjects).
Proof.
  intros Hs. unfold detect_pose.
  destruct (pose_process f) as [[landmarks|]|]; try exact Hs.
  destruct (torso_subject landmarks w h) as [s|] eqn:Ht; [|exact Hs].
  apply Forall_app. split; [exact Hs|].
  constructor; [|constructor]. eapply torso_subject_bounded; eassumption.
Qed.

(** The reduction of a non-empty list of bounded subjects succeeds. *)
Lemma subjects_mean_total (subjects : list subject) :
  subjects <> [] -> Forall bounded_subject subjects ->
  exists x y,
    (let* avg_x := mean_coordinate (map subject_x subjects) in
     let* avg_y := mean_coordinate (map subject_y subjects) in
     let* x := to_int avg_x in
     let* y := to_int avg_y in
     Ok (x, y)) = Ok (x, y).
Proof.
  intros Hne Hb.
  destruct (mean_coordinate_total (map subject_x subjects)) as (fx & x & Hfx & Hx).
  { destruct subjects; [contradiction|discriminate]. }
  { apply List.Forall_forall. intros v Hv.
    apply List.in_map_iff in Hv as (s & <- & Hs).
    apply (proj1 (List.Forall_forall _ _) Hb s Hs). }
  destruct (mean_coordinate_total (map subject_y subjects)) as (fy & y & Hfy & Hy).
  { destruct subjects; [contradiction|discriminate]. }
  { apply List.Forall_forall. intros v Hv.
    apply List.in_map_iff in Hv as (s & <- & Hs).
    apply (proj1 (List.Forall_forall _ _) Hb s Hs). }
  exists x, y. rewrite Hfx, Hfy. cbv beta iota delta [bind]. rewrite Hx, Hy.
  reflexivity.
Qed.

Lemma detect_subjects_total f :
  exists c, detect_subjects shape face_process pose_process f = Ok c.
Proof.
  unfold detect_subjects. destruct (shape f) as [h w].
  pose proof (detect_pose_bounded f w h _
                (detect_faces_bounded f w h [] (Forall_nil _))) as Hb.
  destruct (detect_pose pose_process f w h (detect_faces face_process f w h []))
    as [|s rest] eqn:Hs.
  - eexists. reflexivity.
  - destruct (subjects_mean_total (s :: rest)) as (x & y & Hxy);
      [discriminate|exact Hb|].
    exists (x, y). exact Hxy.
Qed.

Lemma detect_subjects_center_of f :
  detect_subjects shape face_process pose_process f
  = Ok (center_of shape face_process pose_process f).
Proof.
  unfold center_of. destruct (detect_subjects_total f) as (c & ->). reflexivity.
Qed.

Lemma detect_subjects_centers (frames : list frame) :
  Forall2 (fun f c => detect_subjects shape face_process pose_process f = Ok c)
    frames (map (center_of shape face_process pose_process) frames).
Proof.
  induction frames as [|f l IH]; simpl; constructor;
    [apply detect_subjects_center_of|exact IH].
Qed.

(** With small sums the reduction is the truncated mean of each
    coordinate. *)
Lemma subjects_mean_exact (subjects : list subject) :
  subjects <> [] ->
  Z.abs (sum (map subject_x subjects)) < 2 ^ 53 ->
  Z.abs (sum (map subject_y subjects)) < 2 ^ 53 ->
  Z.of_nat (length subjects) < 2 ^ 53 ->
  (let* avg_x := mean_coordinate (map subject_x subjects) in
   let* avg_y := mean_coordinate (map subject_y subjects) in
   let* x := to_int avg_x in
   let* y := to_int avg_y in
   Ok (x, y))
  = Ok (truncated_mean (map subject_x subjects),
        truncated_mean (map subject_y subjects)).
Proof.
  intros Hne Hx Hy Hl.
  pose proof (mean_coordinate_exact (map subject_x subjects)) as Ex.
  pose proof (mean_coordinate_exact (map subject_y subjects)) as Ey.
  rewrite length_map in Ex, Ey.
  specialize (Ex ltac:(destruct subjects; [contradiction|discriminate]) Hx Hl).
  specialize (Ey ltac:(destruct subjects; [contradiction|discriminate]) Hy Hl).
  cbv beta iota delta [bind] in *.
  destruct (mean_coordinate (map subject_x subjects)) as [fx|]; [|discriminate].
  destruct (mean_coordinate (map subject_y subjects)) as [fy|]; [|discriminate].
  rewrite Ex, Ey. reflexivity.
Qed.

(** ** The sampling loop *)

Lemma sample_loop_spec (cap : capture frame) (s t : Z) (g : Z -> Z) :
  forall (indices seeks : list Z) (centers : list (Z * Z)),
  (forall i, In i indices -> frame_number i s t = Ok (g i)) ->
  sample_loop shape face_process pose_process cap indices s t seeks centers
  = Ok (seeks ++ map g indices,
        centers ++ map (center_of shape face_process pose_process)
                     (decoded_frames cap (map g indices))).
Proof.
  induction indices as [|i rest IH]; intros seeks centers Hg; simpl.
  - rewrite !app_nil_r. reflexivity.
  - rewrite (Hg i (or_introl eq_refl)). cbv beta iota delta [bind].
    destruct (read_at cap (g i)) as [f|] eqn:Hread.
    + rewrite detect_subjects_center_of. cbv beta iota delta [bind].
      rewrite IH by (intros j Hj; apply Hg; right; exact Hj).
      rewrite <- !app_assoc. reflexivity.
    + rewrite IH by (intros j Hj; apply Hg; right; exact Hj).
      rewrite <- !app_assoc. reflexivity.
Qed.

End DetectorProperties.

Lemma In_range i n : In i (range n) -> 0 <= i < n.
Proof.
  unfold range. rewrite in_map_iff. intros (k & <- & Hk).
  apply in_seq in Hk. lia.
Qed.

Lemma length_range n : length (range n) = Z.to_nat n.
Proof. unfold range. rewrite length_map, length_seq. reflexivity. Qed.

(** * The claims *)

(** [near_target] is the tolerance test of the design over the reals. *)
Lemma near_target_real w h :
  0 < h ->
  near_target w h <-> (Rabs (IZR w / IZR h - 9 / 16) < 1 / 100)%R.
Proof.
  intros Hh. unfold near_target.
  assert (0 < IZR h)%R as HH by (apply IZR_lt; lia).
  assert (IZR w / IZR h - 9 / 16 = IZR (16 * w - 9 * h) / (16 * IZR h))%R as ->.
  { rewrite minus_IZR, !mult_IZR. field. lra. }
  unfold Rdiv at 1. rewrite Rabs_mult, <- abs_IZR.
  rewrite (Rabs_pos_eq (/ (16 * IZR h))) by
    (apply Rlt_le, Rinv_0_lt_compat; lra).
  split; intros H.
  - apply IZR_lt in H. rewrite !mult_IZR in H.
    apply Rmult_lt_reg_r with (16 * IZR h)%R; [lra|].
    rewrite Rmult_assoc, Rinv_l by lra. lra.
  - apply lt_IZR. rewrite !mult_IZR.
    apply (Rmult_lt_compat_r (16 * IZR h)%R) in H; [|lra].
    rewrite Rmult_assoc, Rinv_l in H by lra. lra.
Qed.

Lemma pixel_dim_bounds n : pixel_dim n -> 0 < n < 2147483648.
Proof. unfold pixel_dim. change (2 ^ 31) with 2147483648. tauto. Qed.

(** C5: for all metadata with |w/h - 9/16| < 0.01 the planner returns the
    no-processing plan (needs_crop false, the full frame, no operation),
    whatever the subject centre is. *)
Theorem C5_within_tolerance_no_operation
    (info : video_info) (subject_center : Z * Z) :
  pixel_dim (width info) -> pixel_dim (height info) ->
  near_target (width info) (height info) ->
  calculate_crop_parameters info subject_center
  = Ok (plan_none (width info) (height info)).
Proof.
  intros Hw Hh Hnear.
  rewrite (calculate_crop_parameters_integer info subject_center Hw Hh).
  unfold integer_plan, near_target in *. destruct subject_center as [sx sy].
  destruct (Z.ltb_spec (100 * Z.abs (16 * width info - 9 * height info))
              (16 * height info)); [reflexivity|lia].
Qed.

Lemma C5_witness :
  pixel_dim 1080 /\ pixel_dim 1920 /\ near_target 1080 1920 /\
  calculate_crop_parameters (probe_result 1080 1920) (17, 1900)
  = Ok (plan_none 1080 1920).
Proof.
  assert (pixel_dim 1080) as Hw by (unfold pixel_dim; lia).
  assert (pixel_dim 1920) as Hh by (unfold pixel_dim; lia).
  assert (near_target 1080 1920) as Hn by (unfold near_target; lia).
  split; [exact Hw|]. split; [exact Hh|]. split; [exact Hn|].
  exact (C5_within_tolerance_no_operation (probe_result 1080 1920) (17, 1900)
           Hw Hh Hn).
Defined.

Lemma Ok_inj {A : Type} (a b : A) : Ok a = Ok b -> a = b.
Proof. intros H. congruence. Qed.

Lemma plan_none_not_crop w h x y cw ch op :
  plan_none w h <> plan_crop x y cw ch op.
Proof.
  intros H. apply (f_equal (fun d : dict => d !! "operation")) in H.
  vm_compute in H. discriminate.
Qed.

Lemma plan_crop_inj x y w h op x' y' w' h' op' :
  plan_crop x y w h op = plan_crop x' y' w' h' op' ->
  x = x' /\ y = y' /\ w = w' /\ h = h' /\ op = op'.
Proof.
  intros H.
  pose proof (f_equal (fun d : dict => d !! "crop_x") H) as Hx.
  pose proof (f_equal (fun d : dict => d !! "crop_y") H) as Hy.
  pose proof (f_equal (fun d : dict => d !! "crop_width") H) as Hw.
  pose proof (f_equal (fun d : dict => d !! "crop_height") H) as Hh.
  pose proof (f_equal (fun d : dict => d !! "operation") H) as Ho.
  vm_compute in Hx, Hy, Hw, Hh, Ho.
  repeat split; congruence.
Qed.

(** C2, as stated, fails inside the tolerance band: 1090x1920 is wider
    than 9:16 and gets the no-operation plan, not a crop. *)
Lemma C2_counterexample :
  pixel_dim 1090 /\ pixel_dim 1920 /\ 9 * 1920 < 16 * 1090 /\
  ~ crop_width_plan_at (probe_result 1090 1920) (0, 0).
Proof.
  assert (pixel_dim 1090) as Hw by (unfold pixel_dim; lia).
  assert (pixel_dim 1920) as Hh by (unfold pixel_dim; lia).
  split; [exact Hw|]. split; [exact Hh|]. split; [lia|].
  intros (crop_x & Hplan & _).
  rewrite (calculate_crop_parameters_integer (probe_result 1090 1920) _ Hw Hh)
    in Hplan.
  apply Ok_inj in Hplan. revert Hplan. apply plan_none_not_crop.
Qed.

(** C2 (amended): for all metadata with w/h > 9/16 outside the tolerance
    band and every subject centre, the plan is crop_width with
    crop_x = clamp(subject_x - target_width // 2, 0, w - target_width),
    0 <= crop_x, crop_x + target_width <= w, crop_y = 0, crop_height = h
    and target_width = floor(h * 9 / 16). *)
Theorem C2_crop_width_outside_tolerance
    (info : video_info) (subject_center : Z * Z) :
  pixel_dim (width info) -> pixel_dim (height info) ->
  9 * height info < 16 * width info ->
  ~ near_target (width info) (height info) ->
  crop_width_plan_at info subject_center.
Proof.
  intros Hw Hh Hwide Hfar. unfold crop_width_plan_at.
  rewrite (calculate_crop_parameters_integer info subject_center Hw Hh).
  unfold integer_plan, near_target, clamp in *.
  destruct subject_center as [sx sy]. simpl fst.
  destruct (Z.ltb_spec (100 * Z.abs (16 * width info - 9 * height info))
              (16 * height info)); [lia|].
  destruct (Z.ltb_spec (9 * height info) (16 * width info)); [|lia].
  eexists. split; [reflexivity|]. split; [reflexivity|].
  pose proof (pixel_dim_bounds _ Hh).
  assert (0 <= 9 * height info / 16 < width info) as Htw
    by (split; [apply Z.div_pos; lia|apply Z.div_lt_upper_bound; lia]).
  set (tw := 9 * height info / 16) in *. clearbody tw. split; lia.
Qed.

Lemma C2_witness :
  pixel_dim 1920 /\ pixel_dim 1080 /\ 9 * 1080 < 16 * 1920 /\
  ~ near_target 1920 1080 /\
  crop_width_plan_at (probe_result 1920 1080) (960, 540).
Proof.
  assert (pixel_dim 1920) as Hw by (unfold pixel_dim; lia).
  assert (pixel_dim 1080) as Hh by (unfold pixel_dim; lia).
  assert (9 * 1080 < 16 * 1920) as Hwide by lia.
  assert (~ near_target 1920 1080) as Hfar by (unfold near_target; lia).
  split; [exact Hw|]. split; [exact Hh|]. split; [exact Hwide|].
  split; [exact Hfar|].
  exact (C2_crop_width_outside_tolerance (probe_result 1920 1080) (960, 540)
           Hw Hh Hwide Hfar).
Defined.

(** C3, as stated, fails inside the tolerance band: 1070x1920 is narrower
    than 9:16 with floor(16 w / 9) = 1902 <= h and gets the no-operation
    plan. *)
Lemma C3_counterexample :
  pixel_dim 1070 /\ pixel_dim 1920 /\ 16 * 1070 < 9 * 1920 /\
  16 * 1070 / 9 <= 1920 /\
  ~ crop_height_plan_at (probe_result 1070 1920) (0, 0).
Proof.
  assert (pixel_dim 1070) as Hw by (unfold pixel_dim; lia).
  assert (pixel_dim 1920) as Hh by (unfold pixel_dim; lia).
  split; [exact Hw|]. split; [exact Hh|]. split; [lia|].
  split; [vm_compute; discriminate|].
  intros (crop_y & Hplan & _).
  rewrite (calculate_crop_parameters_integer (probe_result 1070 1920) _ Hw Hh)
    in Hplan.
  apply Ok_inj in Hplan. revert Hplan. apply plan_none_not_crop.
Qed.

(** C3 (amended): for all metadata with w/h < 9/16 outside the tolerance
    band and floor(16 w / 9) <= h, and every subject centre, the plan is
    crop_height with crop_x = 0, crop_width = w,
    crop_height = floor(16 w / 9), and
    crop_y = clamp(subject_y - target_height // 2, 0, h - target_height),
    so 0 <= crop_y and crop_y + crop_height <= h. *)
Theorem C3_crop_height_outside_tolerance
    (info : video_info) (subject_center : Z * Z) :
  pixel_dim (width info) -> pixel_dim (height info) ->
  16 * width info < 9 * height info ->
  16 * width info / 9 <= height info ->
  ~ near_target (width info) (height info) ->
  crop_height_plan_at info subject_center.
Proof.
  intros Hw Hh Hnarrow Hfits Hfar. unfold crop_height_plan_at.
  rewrite (calculate_crop_parameters_integer info subject_center Hw Hh).
  unfold integer_plan, near_target, clamp in *.
  destruct subject_center as [sx sy]. simpl snd.
  destruct (Z.ltb_spec (100 * Z.abs (16 * width info - 9 * height info))
              (16 * height info)); [lia|].
  destruct (Z.ltb_spec (9 * height info) (16 * width info)); [lia|].
  destruct (Z.leb_spec (16 * width info / 9) (height info)); [|lia].
  eexists. split; [reflexivity|]. split; [reflexivity|].
  set (th := 16 * width info / 9) in *. clearbody th. split; lia.
Qed.

Lemma C3_witness :
  pixel_dim 1000 /\ pixel_dim 1920 /\ 16 * 1000 < 9 * 1920 /\
  16 * 1000 / 9 <= 1920 /\ ~ near_target 1000 1920 /\
  crop_height_plan_at (probe_result 1000 1920) (500, 960).
Proof.
  assert (pixel_dim 1000) as Hw by (unfold pixel_dim; lia).
  assert (pixel_dim 1920) as Hh by (unfold pixel_dim; lia).
  assert (16 * 1000 < 9 * 1920) as Hnarrow by lia.
  assert (16 * 1000 / 9 <= 1920) as Hfits by (vm_compute; discriminate).
  assert (~ near_target 1000 1920) as Hfar by (unfold near_target; lia).
  split; [exact Hw|]. split; [exact Hh|]. split; [exact Hnarrow|].
  split; [exact Hfits|]. split; [exact Hfar|].
  exact (C3_crop_height_outside_tolerance (probe_result 1000 1920) (500, 960)
           Hw Hh Hnarrow Hfits Hfar).
Defined.

(** The narrow branch can always crop: below 9:16 the target height fits. *)
Lemma narrow_target_height_fits w h :
  0 < w -> 16 * w <= 9 * h -> 16 * w / 9 <= h.
Proof. intros Hw Hn. apply Z.div_le_upper_bound; lia. Qed.

(** The planner is its two tests followed by one of the two branches;
    the second branch is [too_narrow_branch]. *)
Lemma calculate_crop_parameters_else_branch
    (info : video_info) (subject_center : Z * Z) :
  calculate_crop_parameters info subject_center
  = (let* target_ratio := int_truediv 9 16 in
     let* current_ratio := int_truediv (width info) (height info) in
     if within_tolerance current_ratio target_ratio then
       Ok (plan_none (width info) (height info))
     else if fgt current_ratio target_ratio then
       let* fheight := of_int (height info) in
       let* target_width := to_int (fmul fheight target_ratio) in
       Ok (plan_crop
             (Z.max 0 (Z.min (fst subject_center - target_width / 2)
                         (width info - target_width)))
             0 target_width (height info) "crop_width")
     else
       too_narrow_branch (width info) (height info) target_ratio
         (snd subject_center)).
Proof. destruct subject_center as [subject_x subject_y]. reflexivity. Qed.

(** Outside the tolerance, a frame that is not wider than 9:16 is
    planned by [too_narrow_branch]. *)
Lemma narrow_frame_runs_else_branch
    (info : video_info) (subject_center : Z * Z) :
  pixel_dim (width info) -> pixel_dim (height info) ->
  ~ near_target (width info) (height info) ->
  16 * width info <= 9 * height info ->
  calculate_crop_parameters info subject_center
  = too_narrow_branch (width info) (height info) c916 (snd subject_center).
Proof.
  intros Hw Hh Hfar Hnarrow.
  rewrite calculate_crop_parameters_else_branch, target_ratio_value.
  cbv beta iota delta [bind].
  destruct (ratio_range _ _ Hw Hh) as [_ Hrange].
  destruct (int_truediv_rounded (width info) (height info)) as
    (pv & ev & Hdiv & Hr); [apply Hw|apply Hh|exact Hrange|].
  rewrite Hdiv. rewrite (within_tolerance_ratio _ _ _ _ Hw Hh Hr).
  unfold near_target in Hfar.
  destruct (Z.ltb_spec (100 * Z.abs (16 * width info - 9 * height info))
              (16 * height info)) as [Hnear|Hfar']; [lia|].
  rewrite (fgt_ratio _ _ _ _ Hw Hh Hr Hfar').
  destruct (Z.ltb_spec (9 * height info) (16 * width info)); [lia|].
  reflexivity.
Qed.

(** The two premises of the padding case, [w/h < 9/16] and
    [floor(16 w / 9) > h], hold together for no frame; the square
    1080x1080 frame has [floor(16 w / 9) = 1920 > 1080] but is wider
    than 9:16, and the planner crops it to 607x1080. *)
Lemma padding_premises_exclude_each_other :
  (~ exists w h : Z, 0 < w /\ 0 < h /\ 16 * w < 9 * h /\ h < 16 * w / 9) /\
  16 * 1080 / 9 > 1080 /\
  calculate_crop_parameters (probe_result 1080 1080) (540, 540)
  = Ok (plan_crop 237 0 607 1080 "crop_width") /\
  ~ add_padding_plan_at (probe_result 1080 1080) (540, 540).
Proof.
  assert (pixel_dim 1080) as Hd by (unfold pixel_dim; lia).
  assert (calculate_crop_parameters (probe_result 1080 1080) (540, 540)
          = Ok (plan_crop 237 0 607 1080 "crop_width")) as Hplan.
  { rewrite (calculate_crop_parameters_integer (probe_result 1080 1080) _ Hd Hd).
    reflexivity. }
  split; [|split; [|split]].
  - intros (w & h & Hw & Hh & Hnarrow & Hpad).
    pose proof (narrow_target_height_fits w h Hw ltac:(lia)). lia.
  - vm_compute. reflexivity.
  - exact Hplan.
  - unfold add_padding_plan_at. rewrite Hplan. intros H. apply Ok_inj in H.
    apply (f_equal (fun d : dict => d !! "operation")) in H.
    vm_compute in H. discriminate.
Qed.

(** C4: the padding case of [calculate_crop_parameters] (lines 149-178,
    the [else] branch).  For a frame with [floor(16 w / 9) > h] and
    every subject centre the branch returns the [add_padding] plan: the
    crop rectangle is the full source frame ([crop_x = 0], [crop_y = 0],
    [crop_width = w], [crop_height = h]) and [pad_height] is the exact
    integer [floor(16 w / 9) - h].  The target height
    [int(width / 0.5625)] is exactly [floor(16 w / 9)], the binary64
    division notwithstanding, so that [h + pad_height] is the largest
    height with [w / (h + pad_height) >= 9/16].  The last part is the
    statement for the planner as a whole, for metadata with
    [w/h < 9/16]; by [padding_premises_exclude_each_other] no frame
    meets both premises, so the content of the theorem is in the
    parts on the branch. *)
Theorem C4_padding_branch (info : video_info) (subject_center : Z * Z) :
  pixel_dim (width info) -> pixel_dim (height info) ->
  height info < 16 * width info / 9 ->
  let w := width info in
  let h := height info in
  let pad_total := 16 * w / 9 - h in
  (let* fwidth := of_int w in
   let* quotient := float_div fwidth c916 in
   to_int quotient) = Ok (16 * w / 9) /\
  too_narrow_branch w h c916 (snd subject_center)
  = Ok (plan_pad w h pad_total) /\
  0 < pad_total /\
  9 * (h + pad_total) <= 16 * w < 9 * (h + pad_total + 1) /\
  (16 * w < 9 * h -> add_padding_plan_at info subject_center).
Proof.
  intros Hw Hh Hpad w h pad_total. subst w h pad_total.
  pose proof (pixel_dim_bounds _ Hw) as Hwb.
  pose proof (target_height_exact _ Hw) as Hth.
  split; [exact Hth|]. split; [|split; [lia|split]].
  - unfold too_narrow_branch. cbv beta iota delta [bind] in Hth |- *.
    destruct (of_int (width info)) as [fw|]; [|discriminate].
    destruct (float_div fw c916) as [qf|]; [|discriminate].
    rewrite Hth.
    destruct (Z.leb_spec (16 * width info / 9) (height info)); [lia|].
    reflexivity.
  - replace (height info + (16 * width info / 9 - height info))
      with (16 * width info / 9) by lia.
    pose proof (Z.div_mod (16 * width info) 9 ltac:(lia)).
    pose proof (Z.mod_pos_bound (16 * width info) 9 ltac:(lia)). lia.
  - intros Hnarrow.
    pose proof (narrow_target_height_fits (width info) (height info)
                  ltac:(lia) ltac:(lia)). lia.
Qed.

Lemma C4_witness :
  pixel_dim 1080 /\ 1080 < 16 * 1080 / 9 /\
  (let* fwidth := of_int 1080 in
   let* quotient := float_div fwidth c916 in
   to_int quotient) = Ok 1920 /\
  too_narrow_branch 1080 1080 c916 540 = Ok (plan_pad 1080 1080 840).
Proof.
  assert (pixel_dim 1080) as Hd by (unfold pixel_dim; lia).
  assert (1080 < 16 * 1080 / 9) as Hpad by (vm_compute; reflexivity).
  pose proof (C4_padding_branch (probe_result 1080 1080) (540, 540)
                Hd Hd Hpad) as (Hth & Hplan & _).
  split; [exact Hd|]. split; [exact Hpad|]. split; [exact Hth|exact Hplan].
Defined.



Lemma output_dims_none w h : output_dims (plan_none w h) = None.
Proof. reflexivity. Qed.

Lemma output_dims_crop_width x y w h :
  output_dims (plan_crop x y w h "crop_width") = Some (w, h).
Proof. reflexivity. Qed.

Lemma output_dims_crop_height x y w h :
  output_dims (plan_crop x y w h "crop_height") = Some (w, h).
Proof. reflexivity. Qed.

Lemma output_dims_pad w h pad :
  output_dims (plan_pad w h pad) = Some (w, h + pad).
Proof. reflexivity. Qed.

(** C1, as stated, fails on small frames: 40x20 is cropped to 11x20,
    whose ratio 0.55 is 0.0125 away from 9/16, and planning again on
    11x20 gives another crop, not the no-operation plan. *)
Lemma C1_counterexample :
  pixel_dim 40 /\ pixel_dim 20 /\
  calculate_crop_parameters (probe_result 40 20) (20, 10)
  = Ok (plan_crop 15 0 11 20 "crop_width") /\
  output_dims (plan_crop 15 0 11 20 "crop_width") = Some (11, 20) /\
  ~ near_target 11 20 /\
  calculate_crop_parameters (probe_result 11 20) (5, 10)
  = Ok (plan_crop 0 1 11 19 "crop_height").
Proof.
  assert (pixel_dim 40) as H40 by (unfold pixel_dim; lia).
  assert (pixel_dim 20) as H20 by (unfold pixel_dim; lia).
  assert (pixel_dim 11) as H11 by (unfold pixel_dim; lia).
  split; [exact H40|]. split; [exact H20|]. split; [|split; [|split]].
  - rewrite (calculate_crop_parameters_integer (probe_result 40 20) _ H40 H20).
    reflexivity.
  - reflexivity.
  - unfold near_target. lia.
  - rewrite (calculate_crop_parameters_integer (probe_result 11 20) _ H11 H20).
    reflexivity.
Qed.

(** C1 (amended): for every metadata of width at least 24 and height at
    least 88 and every subject centre, a plan with an operation has
    output dimensions (the crop rectangle, or width x (height +
    pad_height) for padding) whose ratio is within 0.01 of 9/16, and
    planning again on those dimensions gives the no-operation plan. *)
Theorem C1_output_ratio_and_idempotence
    (info : video_info) (subject_center : Z * Z)
    (plan : dict) (out_width out_height : Z) :
  pixel_dim (width info) -> pixel_dim (height info) ->
  24 <= width info -> 88 <= height info ->
  calculate_crop_parameters info subject_center = Ok plan ->
  output_dims plan = Some (out_width, out_height) ->
  near_target out_width out_height /\
  forall (info' : video_info) (subject_center' : Z * Z),
    width info' = out_width -> height info' = out_height ->
    calculate_crop_parameters info' subject_center'
    = Ok (plan_none out_width out_height).
Proof.
  intros Hw Hh Hw24 Hh88 Hplan Hout.
  pose proof (pixel_dim_bounds _ Hw) as Hwb.
  pose proof (pixel_dim_bounds _ Hh) as Hhb.
  rewrite (calculate_crop_parameters_integer info subject_center Hw Hh) in Hplan.
  apply Ok_inj in Hplan. subst plan.
  assert (pixel_dim out_width /\ pixel_dim out_height /\
          near_target out_width out_height) as (Hpw & Hph & Hnear).
  { unfold integer_plan in Hout. destruct subject_center as [sx sy].
    destruct (_ <? _) in Hout; [rewrite output_dims_none in Hout; discriminate|].
    unfold pixel_dim, near_target. change (2 ^ 31) with 2147483648.
    destruct (Z.ltb_spec (9 * height info) (16 * width info)) as [Hwide|Hnarrow].
    - rewrite output_dims_crop_width in Hout. injection Hout as <- <-.
      pose proof (Z.div_mod (9 * height info) 16 ltac:(lia)) as Hdm.
      pose proof (Z.mod_pos_bound (9 * height info) 16 ltac:(lia)) as Hmod.
      set (tw := 9 * height info / 16) in *. clearbody tw.
      set (r := (9 * height info) mod 16) in *. clearbody r.
      repeat split; lia.
    - pose proof (Z.div_mod (16 * width info) 9 ltac:(lia)) as Hdm.
      pose proof (Z.mod_pos_bound (16 * width info) 9 ltac:(lia)) as Hmod.
      set (th := 16 * width info / 9) in *.
      set (r := (16 * width info) mod 9) in *.
      destruct (Z.leb_spec th (height info)) as [Hfit|Hpad].
      + rewrite output_dims_crop_height in Hout. injection Hout as <- <-.
        clearbody th r. repeat split; lia.
      + rewrite output_dims_pad in Hout. injection Hout as <- <-.
        clearbody th r. repeat split; lia. }
  split; [exact Hnear|].
  intros info' sc' Ew Eh. subst out_width out_height.
  rewrite (calculate_crop_parameters_integer info' sc' Hpw Hph).
  unfold integer_plan, near_target in *. destruct sc' as [sx' sy'].
  destruct (Z.ltb_spec (100 * Z.abs (16 * width info' - 9 * height info'))
              (16 * height info')); [reflexivity|lia].
Qed.

Lemma C1_witness :
  pixel_dim 1920 /\ pixel_dim 1080 /\ 24 <= 1920 /\ 88 <= 1080 /\
  calculate_crop_parameters (probe_result 1920 1080) (960, 540)
  = Ok (plan_crop 657 0 607 1080 "crop_width") /\
  near_target 607 1080 /\
  calculate_crop_parameters (probe_result 607 1080) (0, 0)
  = Ok (plan_none 607 1080).
Proof.
  assert (pixel_dim 1920) as Hw by (unfold pixel_dim; lia).
  assert (pixel_dim 1080) as Hh by (unfold pixel_dim; lia).
  assert (24 <= 1920) as Hw24 by lia.
  assert (88 <= 1080) as Hh88 by lia.
  assert (calculate_crop_parameters (probe_result 1920 1080) (960, 540)
          = Ok (plan_crop 657 0 607 1080 "crop_width")) as Hplan.
  { rewrite (calculate_crop_parameters_integer (probe_result 1920 1080) _ Hw Hh).
    reflexivity. }
  pose proof (C1_output_ratio_and_idempotence (probe_result 1920 1080)
                (960, 540) (plan_crop 657 0 607 1080 "crop_width") 607 1080
                Hw Hh Hw24 Hh88 Hplan eq_refl) as (Hnear & Hagain).
  split; [exact Hw|]. split; [exact Hh|]. split; [exact Hw24|].
  split; [exact Hh88|]. split; [exact Hplan|]. split; [exact Hnear|].
  exact (Hagain (probe_result 607 1080) (0, 0) eq_refl eq_refl).
Defined.

Lemma select_filter_plan_none w h :
  select_filter (plan_none w h) = Raise (KeyError "operation").
Proof. reflexivity. Qed.

(** C10: inside the tolerance band the returned plan has no 'operation'
    key at all, only needs_crop = False and the full-frame rectangle;
    outside it every plan has needs_crop = True and an operation among
    crop_width, crop_height and add_padding.  process_video reads
    crop_params['operation'] unconditionally, so on a no-operation plan
    the lookup raises KeyError before FFmpeg runs and process_video
    returns False. *)
Theorem C10_noop_plan_has_no_operation
    (info : video_info) (subject_center : Z * Z) :
  pixel_dim (width info) -> pixel_dim (height info) ->
  (near_target (width info) (height info) ->
   calculate_crop_parameters info subject_center
   = Ok (plan_none (width info) (height info)) /\
   plan_none (width info) (height info) !! "operation" = None /\
   dom (plan_none (width info) (height info))
   = {[ "needs_crop"; "crop_x"; "crop_y"; "crop_width"; "crop_height" ]} /\
   select_filter (plan_none (width info) (height info))
   = Raise (KeyError "operation") /\
   forall probe run_ffmpeg,
     process_video probe (plan_none (width info) (height info)) run_ffmpeg
     = false) /\
  (~ near_target (width info) (height info) ->
   exists plan operation,
     calculate_crop_parameters info subject_center = Ok plan /\
     plan !! "needs_crop" = Some (VBool true) /\
     plan !! "operation" = Some (VStr operation) /\
     (operation = "crop_width" \/ operation = "crop_height" \/
      operation = "add_padding")).
Proof.
  intros Hw Hh.
  rewrite (calculate_crop_parameters_integer info subject_center Hw Hh).
  unfold integer_plan, near_target. destruct subject_center as [sx sy].
  split.
  - intros Hnear.
    destruct (Z.ltb_spec (100 * Z.abs (16 * width info - 9 * height info))
                (16 * height info)); [|lia].
    split; [reflexivity|]. split; [reflexivity|].
    split; [vm_compute; reflexivity|].
    split; [reflexivity|].
    intros probe run_ffmpeg. unfold process_video, process_video_body.
    destruct probe; [rewrite select_filter_plan_none|]; reflexivity.
  - intros Hfar.
    destruct (Z.ltb_spec (100 * Z.abs (16 * width info - 9 * height info))
                (16 * height info)); [lia|].
    destruct (_ <? _).
    + eexists _, "crop_width"%string. repeat split; auto.
    + destruct (_ <=? _).
      * eexists _, "crop_height"%string. repeat split; auto.
      * eexists _, "add_padding"%string. repeat split; auto.
Qed.

Lemma C10_witness :
  pixel_dim 1080 /\ pixel_dim 1920 /\ near_target 1080 1920 /\
  calculate_crop_parameters (probe_result 1080 1920) (540, 960)
  = Ok (plan_none 1080 1920) /\
  process_video (Some (probe_result 1080 1920)) (plan_none 1080 1920)
    (fun _ _ => Ok tt) = false.
Proof.
  assert (pixel_dim 1080) as Hw by (unfold pixel_dim; lia).
  assert (pixel_dim 1920) as Hh by (unfold pixel_dim; lia).
  assert (near_target 1080 1920) as Hn by (unfold near_target; lia).
  pose proof (C10_noop_plan_has_no_operation (probe_result 1080 1920)
                (540, 960) Hw Hh) as [Hnoop _].
  destruct (Hnoop Hn) as (Hplan & _ & _ & _ & Hproc).
  split; [exact Hw|]. split; [exact Hh|]. split; [exact Hn|].
  split; [exact Hplan|]. apply Hproc.
Defined.

(** C6: for a video of total_frames frames the sampling loop seeks to
    exactly sample_frames = min(5, total_frames) frame numbers, the i-th
    being floor(i * total_frames / sample_frames); with fewer than 5
    frames these are 0 .. total_frames - 1, each once. *)
Theorem C6_sampled_frame_numbers {frame : Type}
    (shape : frame -> Z * Z)
    (face_process : frame -> result (list bounding_box))
    (pose_process : frame -> result (option (list landmark)))
    (cap : capture frame) :
  let total_frames := frame_count cap in
  let sample_frames := Z.min 5 total_frames in
  0 <= total_frames < 2 ^ 31 ->
  exists subject_centers,
    sample_loop shape face_process pose_process cap
      (range sample_frames) sample_frames total_frames [] []
    = Ok (map (fun i => i * total_frames / sample_frames) (range sample_frames),
          subject_centers) /\
    length (range sample_frames) = Z.to_nat (Z.min 5 total_frames) /\
    (total_frames < 5 ->
     map (fun i => i * total_frames / sample_frames) (range sample_frames)
     = range total_frames).
Proof.
  intros t s Ht. eexists. split; [|split].
  - rewrite (sample_loop_spec shape face_process pose_process cap s t
               (fun i => i * t / s)).
    + reflexivity.
    + intros i Hi. apply In_range in Hi. apply frame_number_exact; unfold s in *; lia.
  - apply length_range.
  - intros Hlt. unfold s. rewrite Z.min_r by lia.
    rewrite <- (map_id (range t)) at 2. apply map_ext_in.
    intros i Hi. apply In_range in Hi. apply Z.div_mul. lia.
Qed.

Lemma C6_witness :
  0 <= frame_count undecodable_clip < 2 ^ 31 /\
  exists subject_centers,
    sample_loop (fun _ => (0, 0)) (fun _ => Ok []) (fun _ => Ok None)
      undecodable_clip (range 5) 5 12 [] []
    = Ok ([0; 2; 4; 7; 9], subject_centers).
Proof.
  assert (0 <= frame_count undecodable_clip < 2 ^ 31) as Ht by (simpl; lia).
  split; [exact Ht|].
  destruct (C6_sampled_frame_numbers (fun _ => (0, 0)) (fun _ => Ok [])
              (fun _ => Ok None) undecodable_clip Ht)
    as (centers & Hloop & _ & _).
  exists centers. exact Hloop.
Defined.

Lemma length_decoded_frames {frame : Type} (cap : capture frame) l :
  (length (decoded_frames cap l) <= length l)%nat.
Proof.
  induction l as [|n l IH]; simpl; [lia|].
  destruct (read_at cap n); simpl; lia.
Qed.

Lemma decoded_frames_all_none {frame : Type} (cap : capture frame) l :
  Forall (fun n => read_at cap n = None) l -> decoded_frames cap l = [].
Proof.
  induction 1 as [|n l Hn _ IH]; simpl; [reflexivity|].
  rewrite Hn. exact IH.
Qed.

(** C7: the aggregator seeks to every sampled frame number, skips those
    whose decode fails, and averages (truncating) the centres of the
    frames that decoded; when none decodes, in particular when nothing
    was sampled, it returns (width // 2, height // 2) and no error. *)
Theorem C7_skip_failed_frames_and_fall_back {frame : Type}
    (shape : frame -> Z * Z)
    (face_process : frame -> result (list bounding_box))
    (pose_process : frame -> result (option (list landmark)))
    (info : video_info) (cap : capture frame) :
  let total_frames := frame_count cap in
  let sample_frames := Z.min 5 total_frames in
  let sampled :=
    map (fun i => i * total_frames / sample_frames) (range sample_frames) in
  let decoded := decoded_frames cap sampled in
  let centers := map (center_of shape face_process pose_process) decoded in
  0 <= total_frames < 2 ^ 31 ->
  Forall2 (fun f c => detect_subjects shape face_process pose_process f = Ok c)
    decoded centers /\
  (Forall (fun n => read_at cap n = None) sampled -> decoded = []) /\
  (decoded = [] ->
   sample_subject_center shape face_process pose_process info cap
   = Ok (sampled, (width info / 2, height info / 2))) /\
  (decoded <> [] ->
   Z.abs (sum (map fst centers)) < 2 ^ 53 ->
   Z.abs (sum (map snd centers)) < 2 ^ 53 ->
   sample_subject_center shape face_process pose_process info cap
   = Ok (sampled,
         (truncated_mean (map fst centers), truncated_mean (map snd centers)))).
Proof.
  intros t s sampled decoded centers Ht.
  assert (sample_loop shape face_process pose_process cap (range s) s t [] []
          = Ok (sampled, centers)) as Hloop.
  { rewrite (sample_loop_spec shape face_process pose_process cap s t
               (fun i => i * t / s)); [reflexivity|].
    intros i Hi. apply In_range in Hi.
    apply frame_number_exact; unfold s in *; lia. }
  split; [|split; [|split]].
  - apply detect_subjects_centers.
  - apply decoded_frames_all_none.
  - intros Hnone. unfold sample_subject_center. fold t s. rewrite Hloop.
    cbv beta iota delta [bind]. unfold centers. rewrite Hnone. reflexivity.
  - intros Hsome Hx Hy. unfold sample_subject_center. fold t s. rewrite Hloop.
    cbv beta iota delta [bind].
    assert (centers <> []) as Hc.
    { unfold centers. destruct decoded; [contradiction|discriminate]. }
    assert (Z.of_nat (length centers) < 2 ^ 53) as Hlen.
    { unfold centers, decoded, sampled.
      rewrite length_map.
      pose proof (length_decoded_frames cap
                    (map (fun i => i * t / s) (range s))) as Hle.
      rewrite length_map, length_range in Hle.
      assert (Z.to_nat s <= 5)%nat by (unfold s; lia).
      assert (2 ^ 53 = 9007199254740992) by reflexivity. lia. }
    pose proof (mean_coordinate_exact (map fst centers)) as Ex.
    pose proof (mean_coordinate_exact (map snd centers)) as Ey.
    rewrite length_map in Ex, Ey.
    specialize (Ex ltac:(destruct centers; [contradiction|discriminate]) Hx Hlen).
    specialize (Ey ltac:(destruct centers; [contradiction|discriminate]) Hy Hlen).
    cbv beta iota delta [bind] in Ex, Ey.
    destruct centers as [|c rest] eqn:Ec; [contradiction|].
    destruct (mean_coordinate (map fst (c :: rest))) as [fx|]; [|discriminate].
    destruct (mean_coordinate (map snd (c :: rest))) as [fy|]; [|discriminate].
    rewrite Ex, Ey. reflexivity.
Qed.

Lemma C7_witness :
  0 <= frame_count undecodable_clip < 2 ^ 31 /\
  sample_subject_center (fun _ => (0, 0)) (fun _ => Ok []) (fun _ => Ok None)
    (probe_result 1920 1080) undecodable_clip
  = Ok ([0; 2; 4; 7; 9], (960, 540)).
Proof.
  assert (0 <= frame_count undecodable_clip < 2 ^ 31) as Ht by (simpl; lia).
  split; [exact Ht|].
  destruct (C7_skip_failed_frames_and_fall_back (fun _ => (0, 0))
              (fun _ => Ok []) (fun _ => Ok None) (probe_result 1920 1080)
              undecodable_clip Ht) as (_ & _ & Hfallback & _).
  exact (Hfallback eq_refl).
Defined.

(** C8: the subject locator is total.  An exception raised by the face
    detector, or by the pose detector, leaves the result what it is when
    that detector reports no detection; it never propagates.  When both
    detectors raise or find nothing the result is the geometric centre of
    the frame. *)
Theorem C8_detector_failures_absorbed {frame : Type}
    (shape : frame -> Z * Z)
    (face_process : frame -> result (list bounding_box))
    (pose_process : frame -> result (option (list landmark)))
    (f : frame) :
  (exists center,
     detect_subjects shape face_process pose_process f = Ok center) /\
  (forall e, face_process f = Raise e ->
     detect_subjects shape face_process pose_process f
     = detect_subjects shape (fun _ => Ok []) pose_process f) /\
  (forall e, pose_process f = Raise e ->
     detect_subjects shape face_process pose_process f
     = detect_subjects shape face_process (fun _ => Ok None) f) /\
  ((face_process f = Ok [] \/ exists e, face_process f = Raise e) ->
   (pose_process f = Ok None \/ exists e, pose_process f = Raise e) ->
   detect_subjects shape face_process pose_process f
   = Ok (snd (shape f) / 2, fst (shape f) / 2)).
Proof.
  split; [apply detect_subjects_total|]. split; [|split].
  - intros e He. unfold detect_subjects, detect_faces. rewrite He. reflexivity.
  - intros e He. unfold detect_subjects, detect_pose. rewrite He. reflexivity.
  - intros Hface Hpose. unfold detect_subjects, detect_faces, detect_pose.
    destruct (shape f) as [h w]. simpl.
    destruct Hface as [-> | [e ->]]; destruct Hpose as [-> | [e' ->]];
      reflexivity.
Qed.

(** A frame on which both detectors raise. *)
Lemma C8_witness :
  detect_subjects (fun _ : unit => (1080, 1920))
    (fun _ => Raise (ExternalError "face model"))
    (fun _ => Raise (ExternalError "pose model")) tt
  = Ok (960, 540).
Proof.
  destruct (C8_detector_failures_absorbed (fun _ : unit => (1080, 1920))
              (fun _ => Raise (ExternalError "face model"))
              (fun _ => Raise (ExternalError "pose model")) tt)
    as (_ & _ & _ & Hcenter).
  apply Hcenter; right; eexists; reflexivity.
Defined.

(** C9: in a frame of width x height, every face detection is converted
    to the pixel centre of its box ([face_subject]) and the body
    detection to its torso point ([torso_subject], the mean of the two
    shoulders and the two hips); the result is the unweighted mean of
    all these points, truncated to integers, and (width // 2,
    height // 2) when there is none. *)
Theorem C9_mean_of_detections {frame : Type}
    (shape : frame -> Z * Z)
    (face_process : frame -> result (list bounding_box))
    (pose_process : frame -> result (option (list landmark)))
    (f : frame) (width height : Z)
    (detections : list bounding_box) (pose : option (list landmark))
    (faces torso : list subject) :
  shape f = (height, width) ->
  face_process f = Ok detections ->
  pose_process f = Ok pose ->
  Forall2 (fun bbox s => face_subject bbox width height = Ok s)
    detections faces ->
  torso_conversion pose width height torso ->
  let subjects := faces ++ torso in
  Z.abs (sum (map subject_x subjects)) < 2 ^ 53 ->
  Z.abs (sum (map subject_y subjects)) < 2 ^ 53 ->
  Z.of_nat (length subjects) < 2 ^ 53 ->
  detect_subjects shape face_process pose_process f
  = Ok (match subjects with
        | [] => (width / 2, height / 2)
        | _ :: _ => (truncated_mean (map subject_x subjects),
                     truncated_mean (map subject_y subjects))
        end).
Proof.
  intros Hshape Hface Hpose Hfaces Htorso subjects Hx Hy Hlen.
  unfold detect_subjects. rewrite Hshape.
  assert (detect_pose pose_process f width height
            (detect_faces face_process f width height []) = subjects) as ->.
  { unfold subjects, detect_faces, detect_pose. rewrite Hface, Hpose.
    rewrite (face_loop_all detections width height faces [] Hfaces).
    simpl app. unfold torso_conversion in Htorso.
    destruct pose as [landmarks|].
    - destruct Htorso as (t & -> & ->). reflexivity.
    - rewrite Htorso, app_nil_r. reflexivity. }
  destruct subjects as [|s rest] eqn:Es; [reflexivity|].
  apply subjects_mean_exact; [discriminate|assumption..].
Qed.

Lemma C9_witness :
  detect_subjects (fun _ : unit => (1080, 1920))
    (fun _ => Ok two_faces) (fun _ => Ok (Some centred_body)) tt
  = Ok (1040, 585).
Proof.
  refine (C9_mean_of_detections (fun _ : unit => (1080, 1920))
            (fun _ => Ok two_faces) (fun _ => Ok (Some centred_body)) tt
            1920 1080 two_faces (Some centred_body)
            [(960, 540, "face"%string); (1200, 675, "face"%string)]
            [(960, 540, "person"%string)]
            eq_refl eq_refl eq_refl _ _ _ _ _).
  - repeat constructor.
  - exists (960, 540, "person"%string). split; reflexivity.
  - vm_compute. reflexivity.
  - vm_compute. reflexivity.
  - vm_compute. reflexivity.
Defined.

(** * Further properties of the code *)

(** ** [get_video_info] *)

Lemma make_video_info_probed w h dur rate br audio info :
  make_video_info w h dur rate br audio = Some info ->
  probed info /\ width info = w /\ height info = h /\ has_audio info = audio.
Proof.
  unfold make_video_info, probed. rewrite target_ratio_value.
  destruct (int_truediv w h) as [ar|] eqn:Har; [|discriminate].
  intros H. injection H as <-. simpl.
  repeat split; try assumption.
  intros ->. unfold int_truediv in Har. discriminate.
Qed.

(** [next] returns the first stream of the wanted type. *)
Lemma next_stream_first codec streams s :
  next_stream codec streams = Ok (Some s) ->
  exists before after,
    streams = before ++ s :: after /\
    s !! "codec_type" = Some (JStr codec) /\
    Forall (fun t => exists v, t !! "codec_type" = Some v /\ v <> JStr codec)
      before.
Proof.
  induction streams as [|t rest IH]; simpl; [discriminate|].
  unfold stream_item. destruct (t !! "codec_type") as [v|] eqn:Hv; [|discriminate].
  cbv beta iota delta [bind].
  destruct (json_eqb_str v codec) eqn:E.
  - intros H. injection H as <-. exists [], rest. split; [reflexivity|].
    split; [|constructor].
    destruct v; try discriminate. simpl in E. apply String.eqb_eq in E.
    rewrite Hv, E. reflexivity.
  - intros H. destruct (IH H) as (before & after & -> & Hs & Hb).
    exists (t :: before), after. split; [reflexivity|]. split; [exact Hs|].
    constructor; [|exact Hb]. exists v. split; [exact Hv|].
    intros ->. simpl in E. rewrite String.eqb_refl in E. discriminate.
Qed.

Lemma next_stream_none codec streams :
  Forall (fun t => exists v, t !! "codec_type" = Some v /\ v <> JStr codec)
    streams ->
  next_stream codec streams = Ok None.
Proof.
  induction 1 as [|t rest (v & Hv & Hne) _ IH]; simpl; [reflexivity|].
  unfold stream_item. rewrite Hv. cbv beta iota delta [bind].
  destruct (json_eqb_str v codec) eqn:E; [|exact IH].
  destruct v; try discriminate. simpl in E. apply String.eqb_eq in E.
  congruence.
Qed.

Lemma next_stream_untyped codec before s after :
  s !! "codec_type" = None ->
  Forall (fun t => exists v, t !! "codec_type" = Some v /\ v <> JStr codec)
    before ->
  next_stream codec (before ++ s :: after) = Raise (KeyError "codec_type").
Proof.
  intros Hs. induction 1 as [|t rest (v & Hv & Hne) _ IH]; simpl.
  - unfold stream_item. rewrite Hs. reflexivity.
  - unfold stream_item. rewrite Hv. cbv beta iota delta [bind].
    destruct (json_eqb_str v codec) eqn:E; [|exact IH].
    destruct v; try discriminate. simpl in E. apply String.eqb_eq in E.
    congruence.
Qed.

Lemma get_video_info_inv p probe info :
  get_video_info p probe = Some info ->
  probed info /\
  exists streams video_stream w h,
    probe = Ok streams /\
    next_stream "video" streams = Ok (Some video_stream) /\
    video_stream !! "width" = Some w /\ py_int p w = Ok (width info) /\
    video_stream !! "height" = Some h /\ py_int p h = Ok (height info).
Proof.
  unfold get_video_info, get_video_info_body. intros H.
  destruct probe as [streams|]; [|discriminate].
  cbv beta iota delta [bind] in H.
  destruct (next_stream "video" streams) as [[vs|]|] eqn:Hvideo;
    [| |discriminate];
    (destruct (next_stream "audio" streams) as [audio|]; [|discriminate]);
    [|discriminate].
  unfold stream_item in H.
  destruct (vs !! "width") as [w|] eqn:Hw; [|discriminate].
  destruct (py_int p w) as [width|] eqn:Hwidth; [|discriminate].
  destruct (vs !! "height") as [h|] eqn:Hh; [|discriminate].
  destruct (py_int p h) as [height|] eqn:Hheight; [|discriminate].
  destruct (py_float p _) as [dur|]; [|discriminate].
  destruct (py_eval p _) as [rate|]; [|discriminate].
  destruct (py_int p (stream_get vs "bit_rate" _)) as [br|]; [|discriminate].
  apply make_video_info_probed in H as (Hp & <- & <- & _).
  split; [exact Hp|].
  exists streams, vs, w, h. repeat split; assumption.
Qed.

(** X1 ([get_video_info]): a record returned by [get_video_info]
    describes the first stream of the probe whose ['codec_type'] is
    ['video']: its width and height are the [int(...)] of that stream's
    entries, its height is not zero, its ['aspect_ratio'] is the quotient
    [width / height] rounded to binary64, and its ['target_ratio'] is
    9/16. *)
Theorem X1_probe_first_video_stream
    (p : parsers) (probe : result (list stream)) (info : video_info) :
  get_video_info p probe = Some info ->
  probed info /\
  exists before video_stream after w h,
    probe = Ok (before ++ video_stream :: after) /\
    video_stream !! "codec_type" = Some (JStr "video") /\
    Forall (fun t => exists v, t !! "codec_type" = Some v /\ v <> JStr "video")
      before /\
    video_stream !! "width" = Some w /\ py_int p w = Ok (width info) /\
    video_stream !! "height" = Some h /\ py_int p h = Ok (height info).
Proof.
  intros H.
  destruct (get_video_info_inv p probe info H)
    as (Hp & streams & vs & w & h & -> & Hvideo & Hw & Hwidth & Hh & Hheight).
  split; [exact Hp|].
  destruct (next_stream_first _ _ _ Hvideo) as (before & after & -> & Hs & Hb).
  exists before, vs, after, w, h. repeat split; assumption.
Qed.

Lemma X1_witness :
  get_video_info sample_parsers (Ok [subtitle_stream; clip_stream 1920 1080])
  = Some (probe_result 1920 1080) /\
  probed (probe_result 1920 1080) /\
  exists before video_stream after w h,
    Ok [subtitle_stream; clip_stream 1920 1080]
    = Ok (before ++ video_stream :: after) /\
    video_stream !! "codec_type" = Some (JStr "video") /\
    Forall (fun t => exists v, t !! "codec_type" = Some v /\ v <> JStr "video")
      before /\
    video_stream !! "width" = Some w /\
    py_int sample_parsers w = Ok (width (probe_result 1920 1080)) /\
    video_stream !! "height" = Some h /\
    py_int sample_parsers h = Ok (height (probe_result 1920 1080)).
Proof.
  assert (get_video_info sample_parsers
            (Ok [subtitle_stream; clip_stream 1920 1080])
          = Some (probe_result 1920 1080)) as H by (vm_compute; reflexivity).
  split; [exact H|].
  exact (X1_probe_first_video_stream sample_parsers _ _ H).
Defined.

(** X2 ([get_video_info]): a probe with no video stream, the empty
    probe included, gives [None]. *)
Theorem X2_probe_without_video_stream
    (p : parsers) (streams : list stream) :
  Forall (fun t => exists v, t !! "codec_type" = Some v /\ v <> JStr "video")
    streams ->
  get_video_info p (Ok streams) = None.
Proof.
  intros H. unfold get_video_info, get_video_info_body.
  cbv beta iota delta [bind]. rewrite (next_stream_none _ _ H).
  destruct (next_stream "audio" streams); reflexivity.
Qed.

Lemma X2_witness :
  get_video_info sample_parsers (Ok [subtitle_stream]) = None.
Proof.
  apply (X2_probe_without_video_stream sample_parsers [subtitle_stream]).
  constructor; [|constructor].
  exists (JStr "subtitle"). split; [reflexivity|discriminate].
Defined.

(** X3 ([get_video_info]): a stream without ['codec_type'] that no
    audio stream precedes makes [get_video_info] return [None], even
    when a video stream is present: the search for the audio stream
    raises [KeyError] on it. *)
Theorem X3_probe_untyped_stream
    (p : parsers) (before after : list stream) (s : stream) :
  s !! "codec_type" = None ->
  Forall (fun t => exists v, t !! "codec_type" = Some v /\ v <> JStr "audio")
    before ->
  get_video_info p (Ok (before ++ s :: after)) = None.
Proof.
  intros Hs Hb. unfold get_video_info, get_video_info_body.
  cbv beta iota delta [bind].
  rewrite (next_stream_untyped "audio" before s after Hs Hb).
  destruct (next_stream "video" _); reflexivity.
Qed.

Lemma X3_witness :
  get_video_info sample_parsers
    (Ok ([clip_stream 1920 1080] ++ untyped_stream :: [])) = None.
Proof.
  apply (X3_probe_untyped_stream sample_parsers
           [clip_stream 1920 1080] [] untyped_stream).
  - reflexivity.
  - constructor; [|constructor].
    exists (JStr "video"). split; [reflexivity|discriminate].
Defined.

(** X4 ([get_video_info]): a video stream of height 0 gives [None]; the
    [ZeroDivisionError] of [width / height] is caught. *)
Theorem X4_probe_zero_height
    (p : parsers) (streams : list stream) (video_stream : stream) (h : json) :
  next_stream "video" streams = Ok (Some video_stream) ->
  video_stream !! "height" = Some h -> py_int p h = Ok 0 ->
  get_video_info p (Ok streams) = None.
Proof.
  intros Hv Hh H0. unfold get_video_info, get_video_info_body.
  cbv beta iota delta [bind]. rewrite Hv.
  destruct (next_stream "audio" streams) as [audio|]; [|reflexivity].
  unfold stream_item. rewrite Hh.
  destruct (video_stream !! "width") as [w|]; [|reflexivity].
  destruct (py_int p w) as [width|]; [|reflexivity].
  rewrite H0.
  destruct (py_float p _) as [dur|]; [|reflexivity].
  destruct (py_eval p _) as [rate|]; [|reflexivity].
  destruct (py_int p (stream_get video_stream "bit_rate" _)) as [br|];
    [|reflexivity].
  unfold make_video_info, int_truediv. reflexivity.
Qed.

Lemma X4_witness :
  get_video_info sample_parsers (Ok [clip_stream 1920 0]) = None.
Proof.
  apply (X4_probe_zero_height sample_parsers [clip_stream 1920 0]
           (clip_stream 1920 0) (JInt 0)); reflexivity.
Defined.

(** ** Rounding below a binary64 number *)

Section RoundingBelow.

Local Open Scope R_scope.

(** A canonical binary64 mantissa and exponent. *)
Lemma bounded_canonical m e :
  bounded prec emax m e = true ->
  fexp prec emax (Zdigits2 (Zpos m) + e) = e /\ (e <= 971)%Z /\
  (Zpos m < 2 ^ 53)%Z.
Proof.
  unfold bounded, canonical_mantissa. intros H.
  apply andb_true_iff in H as [Hc He].
  apply Z.eqb_eq in Hc. apply Z.leb_le in He.
  change (Zdigits2 (Zpos m)) with (Zpos (digits2_pos m)).
  split; [exact Hc|]. split; [unfold emax, prec in He; lia|].
  pose proof (digits2_pos_bounds m) as Hd.
  assert (Zpos (digits2_pos m) <= 53)%Z
    by (unfold fexp, emin, prec, emax in Hc; lia).
  assert (2 ^ Zpos (digits2_pos m) <= 2 ^ 53)%Z
    by (apply Z.pow_le_mono_r; lia).
  lia.
Qed.

(** Rounding does not cross a binary64 number: what is at most [B] rounds
    to at most [B]. *)
Lemma round_below s x mx ex lx mB eB :
  located x mx ex lx ->
  (ex <= fexp prec emax (Zdigits2 mx + ex))%Z ->
  bounded prec emax mB eB = true ->
  x <= F2R (Zpos mB) eB ->
  binary_round_aux prec emax s mx ex lx = S754_zero s \/
  exists p e,
    binary_round_aux prec emax s mx ex lx = S754_finite s p e /\
    F2R (Zpos p) e <= F2R (Zpos mB) eB.
Proof.
  intros Hloc He1 HB Hx.
  destruct (bounded_canonical _ _ HB) as (Hcan & HeB & HmB).
  destruct (binary_round_aux_spec s x mx ex lx Hloc He1)
    as (m1 & m & e & Hm1 & Hx1 & Herr & Hcase & Hres).
  set (e1 := fexp prec emax (Zdigits2 mx + ex)) in *.
  pose proof (located_bounds _ _ _ _ Hloc) as [Hmx Hxb].
  assert (e1 <= eB)%Z as Hle.
  { destruct (Z.eq_dec mx 0) as [->|Hmx0].
    - unfold e1, fexp, emin, prec, emax in *. simpl Zdigits2 in *.
      rewrite <- Hcan. lia.
    - pose proof (Zdigits2_bounds mx ltac:(lia)) as Hd.
      pose proof (Zdigits2_bounds (Zpos mB) ltac:(lia)) as HdB.
      assert (0 < Zdigits2 mx)%Z as Hd0 by (destruct mx; simpl; lia).
      assert (bpow (Zdigits2 mx - 1 + ex) < bpow (Zdigits2 (Zpos mB) + eB)) as Hb.
      { apply Rle_lt_trans with x.
        - rewrite <- F2R_bpow by lia. apply Rle_trans with (2 := proj1 Hxb).
          unfold F2R. apply Rmult_le_compat_r; [apply Rlt_le, bpow_pos|].
          apply IZR_le. lia.
        - apply Rle_lt_trans with (1 := Hx).
          rewrite <- F2R_bpow by (simpl; lia). unfold F2R.
          apply Rmult_lt_compat_r; [apply bpow_pos|]. apply IZR_lt. lia. }
      apply bpow_lt_inv in Hb.
      unfold e1. rewrite <- Hcan. unfold fexp, emin, prec, emax. lia. }
  set (K := (Zpos mB * 2 ^ (eB - e1))%Z).
  assert (F2R (Zpos mB) eB = F2R K e1) as HK.
  { unfold K. rewrite F2R_shift by lia. f_equal. lia. }
  rewrite HK in *.
  assert (m1 <= K)%Z as Hm1K.
  { apply F2R_le_inv with e1. lra. }
  assert (F2R m e <= F2R K e1) as Hval.
  { pose proof (bpow_pos e1) as Hpos.
    assert (F2R (m1 + 1) e1 = F2R m1 e1 + bpow e1) as Hsucc
      by (unfold F2R; rewrite plus_IZR; ring).
    assert (m = m1 \/ F2R m e = F2R (m1 + 1) e1) as [->|Hup].
    { destruct Hcase as [(-> & [->| ->] & _)|(-> & -> & ->)]; auto.
      right. unfold F2R. rewrite bpow_succ.
      replace (2 ^ 53 - 1 + 1)%Z with (2 * 2 ^ 52)%Z by reflexivity.
      rewrite mult_IZR. ring. }
    - assert (e = e1) as ->; [|lra].
      destruct Hcase as [(-> & _)|(_ & H1 & H2)]; [reflexivity|].
      exfalso. assert (2 ^ 52 < 2 ^ 53 - 1)%Z by reflexivity. lia.
    - rewrite Hup. destruct (Z.eq_dec m1 K) as [E|NE].
      + exfalso. subst m1. assert (x = F2R K e1) as Ex by lra.
        rewrite Hup, Hsucc, Ex in Herr.
        replace (F2R K e1 + bpow e1 - F2R K e1) with (bpow e1) in Herr by ring.
        rewrite Rabs_pos_eq in Herr by lra. lra.
      + unfold F2R. apply Rmult_le_compat_r; [lra|]. apply IZR_le. lia. }
  assert (0 <= m)%Z as Hm0.
  { assert (0 < 2 ^ 52)%Z by reflexivity.
    destruct Hcase as [(_ & [->| ->] & _)|(_ & -> & _)]; lia. }
  rewrite Hres. unfold build.
  destruct m as [|p|p]; [left; reflexivity| |lia].
  right. exists p, e.
  assert (e <= eB)%Z as HeeB.
  { destruct Hcase as [(-> & _)|(-> & Hm & _)]; [exact Hle|].
    destruct (Z_le_gt_dec (e1 + 1) eB) as [L|G]; [exact L|exfalso].
    assert (e1 = eB) by lia. subst eB.
    assert (K = Zpos mB) as EK by (unfold K; rewrite Z.sub_diag; lia).
    rewrite Hm, EK in Hval. unfold F2R in Hval. rewrite bpow_succ in Hval.
    pose proof (bpow_pos e1).
    assert (IZR (2 ^ 52) * 2 <= IZR (Zpos mB)) as Hc by nra.
    rewrite <- (mult_IZR _ 2) in Hc. apply le_IZR in Hc.
    change (2 ^ 52 * 2)%Z with (2 ^ 53)%Z in Hc. lia. }
  unfold emax, prec.
  destruct (Z.leb_spec e (1024 - 53)); [|lia].
  split; [reflexivity|exact Hval].
Qed.

Lemma at_most_zero s b : 0 <= b -> at_most (S754_zero s) b.
Proof. intros Hb. split; [exact I|exact Hb]. Qed.

Lemma at_most_finite p e b :
  F2R (Zpos p) e <= b -> at_most (S754_finite false p e) b.
Proof. intros H. split; [reflexivity|exact H]. Qed.

Lemma F2R_pos p e : 0 < F2R (Zpos p) e.
Proof.
  unfold F2R. apply Rmult_lt_0_compat; [apply IZR_lt; lia|apply bpow_pos].
Qed.

Lemma round_at_most x mx ex lx mB eB :
  located x mx ex lx ->
  (ex <= fexp prec emax (Zdigits2 mx + ex))%Z ->
  bounded prec emax mB eB = true ->
  x <= F2R (Zpos mB) eB ->
  at_most (binary_round_aux prec emax false mx ex lx) (F2R (Zpos mB) eB).
Proof.
  intros Hloc He HB Hx.
  destruct (round_below false x mx ex lx mB eB Hloc He HB Hx)
    as [->|(p & e & -> & Hv)].
  - apply at_most_zero. apply Rlt_le, F2R_pos.
  - apply at_most_finite. exact Hv.
Qed.

Lemma binary_round_at_most m e mB eB :
  bounded prec emax mB eB = true ->
  F2R (Zpos m) e <= F2R (Zpos mB) eB ->
  at_most (binary_round prec emax false m e) (F2R (Zpos mB) eB).
Proof.
  intros HB Hx. unfold binary_round.
  destruct (shl_align_spec m e (fexp prec emax (Zpos (digits2_pos m) + e)))
    as (k & Hk & Hal & Hmin).
  rewrite Hal.
  assert (0 < 2 ^ k)%Z as Hpow by (apply Z.pow_pos_nonneg; lia).
  assert (Zpos (Z.to_pos (Zpos m * 2 ^ k)) = (Zpos m * 2 ^ k)%Z) as Hmz
    by (apply Z2Pos.id; lia).
  rewrite Hmz.
  assert (F2R (Zpos m * 2 ^ k) (e - k) = F2R (Zpos m) e) as Hval.
  { rewrite F2R_shift by lia. f_equal. lia. }
  apply round_at_most with (x := F2R (Zpos m) e); [| |exact HB|exact Hx].
  - apply located_exact; [lia | symmetry; exact Hval].
  - rewrite Zdigits2_shift by lia.
    change (Zdigits2 (Zpos m)) with (Zpos (digits2_pos m)).
    replace (Zpos (digits2_pos m) + k + (e - k))%Z
      with (Zpos (digits2_pos m) + e)%Z by lia.
    lia.
Qed.

(** [a + b] of two non-negative floats. *)
Lemma fadd_at_most a b mB eB :
  nonneg_finite a -> nonneg_finite b ->
  bounded prec emax mB eB = true ->
  float_value a + float_value b <= F2R (Zpos mB) eB ->
  at_most (fadd a b) (F2R (Zpos mB) eB).
Proof.
  intros Ha Hb HB Hsum. pose proof (F2R_pos mB eB) as HposB.
  destruct a as [sa|sa| |sa ma ea]; try contradiction;
    destruct b as [sb|sb| |sb mb eb]; try contradiction.
  - destruct sa, sb; apply at_most_zero; lra.
  - simpl in Hb. subst sb. simpl in Hsum. apply at_most_finite. simpl. lra.
  - simpl in Ha. subst sa. simpl in Hsum. apply at_most_finite. simpl. lra.
  - simpl in Ha, Hb. subst sa sb. simpl in Hsum.
    unfold fadd, SFadd. set (ez := Z.min ea eb).
    destruct (shl_align_spec ma ea ez) as (ka & Hka & Haa & Hma).
    destruct (shl_align_spec mb eb ez) as (kb & Hkb & Hab & Hmb).
    rewrite Haa, Hab. simpl fst. unfold cond_Zopp.
    assert (0 < 2 ^ ka)%Z by (apply Z.pow_pos_nonneg; lia).
    assert (0 < 2 ^ kb)%Z by (apply Z.pow_pos_nonneg; lia).
    rewrite !Z2Pos.id by lia.
    set (z := (Zpos ma * 2 ^ ka + Zpos mb * 2 ^ kb)%Z).
    assert (F2R z ez = F2R (Zpos ma) ea + F2R (Zpos mb) eb) as Hz.
    { unfold z, F2R. rewrite plus_IZR, Rmult_plus_distr_r.
      fold (F2R (Zpos ma * 2 ^ ka) ez). fold (F2R (Zpos mb * 2 ^ kb) ez).
      rewrite !F2R_shift by lia. unfold F2R.
      replace (ez + ka)%Z with ea by (unfold ez in *; lia).
      replace (ez + kb)%Z with eb by (unfold ez in *; lia).
      reflexivity. }
    assert (0 < z)%Z as Hzpos by (unfold z; lia).
    clearbody z. destruct z as [|m|m]; try lia.
    unfold binary_normalize. apply binary_round_at_most; [exact HB|].
    rewrite Hz. exact Hsum.
Qed.

(** [x / d] of a non-negative float by a positive one. *)
Lemma float_div_at_most x md ed mB eB :
  nonneg_finite x ->
  bounded prec emax mB eB = true ->
  float_value x / F2R (Zpos md) ed <= F2R (Zpos mB) eB ->
  exists q, float_div x (S754_finite false md ed) = Ok q /\
    at_most q (F2R (Zpos mB) eB).
Proof.
  intros Hx HB Hq. pose proof (F2R_pos mB eB) as HposB.
  unfold float_div, is_zero.
  destruct x as [sx|sx| |sx mx ex]; try contradiction.
  - eexists. split; [reflexivity|]. simpl. apply at_most_zero. lra.
  - simpl in Hx. subst sx. eexists. split; [reflexivity|].
    unfold SFdiv.
    destruct (div_core_located (Zpos mx) ex (Zpos md) ed) as
      (q & e' & l & Hcore & Hloc & He'); try lia.
    rewrite Hcore. simpl xorb.
    apply round_at_most with (x := F2R (Zpos mx) ex / F2R (Zpos md) ed);
      assumption.
Qed.

(** A product known to be small is rounded below the same bound. *)
Lemma fmul_at_most c p e mB eB :
  at_most c 1 ->
  bounded prec emax mB eB = true ->
  F2R (Zpos p) e = F2R (Zpos mB) eB ->
  F2R (Zpos mB) eB < bpow 53 ->
  at_most (fmul c (S754_finite false p e)) (F2R (Zpos mB) eB).
Proof.
  intros [Hc Hc1] HB Hval Hsmall. pose proof (F2R_pos mB eB) as HposB.
  destruct c as [sc|sc| |sc mc ec]; try contradiction.
  - simpl. apply at_most_zero. lra.
  - simpl in Hc. subst sc. simpl in Hc1.
    unfold fmul, SFmul. simpl xorb.
    set (x := F2R (Zpos mc) ec * F2R (Zpos p) e).
    assert (F2R (Zpos (mc * p)) (ec + e) = x) as Hx.
    { unfold x, F2R. rewrite Pos2Z.inj_mul, mult_IZR, bpow_add. ring. }
    assert (x <= F2R (Zpos mB) eB) as Hle.
    { unfold x. rewrite Hval. pose proof (F2R_pos mc ec). nra. }
    destruct (Z_le_gt_dec (ec + e)
                (fexp prec emax (Zdigits2 (Zpos (mc * p)) + (ec + e))))
      as [L|G].
    + apply round_at_most with (x := x); try assumption.
      apply located_exact; [lia|]. symmetry. exact Hx.
    + assert (ec + e < 53)%Z as Hexp.
      { apply bpow_lt_inv. apply Rle_lt_trans with (2 := Hsmall).
        apply Rle_trans with (2 := Hle). rewrite <- Hx. unfold F2R.
        rewrite <- (Rmult_1_l (bpow (ec + e))) at 1.
        apply Rmult_le_compat_r; [apply Rlt_le, bpow_pos|].
        apply IZR_le. lia. }
      unfold binary_round_aux, shr_fexp.
      change (Zdigits2 (Zpos (mc * p))) with (Zpos (digits2_pos (mc * p))) in *.
      destruct (fexp prec emax (Zpos (digits2_pos (mc * p)) + (ec + e))
                - (ec + e))%Z as [|q|q] eqn:En; try lia.
      cbn [shr shr_record_of_loc shr_m loc_of_shr_record round_nearest_even
           Zdigits2].
      rewrite En.
      cbn [shr shr_record_of_loc shr_m].
      unfold emax, prec.
      destruct (Z.leb_spec (ec + e) (1024 - 53)); [|lia].
      apply at_most_finite. rewrite Hx. exact Hle.
Qed.

(** [int(x)] of a non-negative float at most an integer. *)
Lemma to_int_at_most x n :
  at_most x (IZR n) -> exists k, to_int x = Ok k /\ (0 <= k <= n)%Z.
Proof.
  intros [Hx Hn]. destruct x as [s|s| |s p e]; try contradiction.
  - exists 0%Z. split; [reflexivity|]. simpl in Hn. apply le_IZR in Hn. lia.
  - simpl in Hx. subst s. simpl in Hn.
    destruct (to_int_floor p e) as (k & Hk & Hlo & Hhi).
    exists k. split; [exact Hk|]. pose proof (F2R_pos p e).
    split.
    + assert (0 < IZR (k + 1)) as H1 by lra. apply lt_IZR in H1. lia.
    + apply le_IZR. lra.
Qed.

(** An integer below 2^53 is a binary64 number. *)
Lemma of_int_bounded n :
  (0 < n < 2 ^ 53)%Z ->
  exists p e, of_int n = Ok (S754_finite false p e) /\
    F2R (Zpos p) e = IZR n /\ bounded prec emax p e = true.
Proof.
  intros Hn. destruct (of_int_exact n Hn) as (p & e & Hof & Hv & Hp).
  exists p, e. split; [exact Hof|]. split; [exact Hv|].
  assert (-53 < e < 1)%Z as He.
  { assert (1 <= IZR n) as H1 by (apply IZR_le; lia).
    assert (IZR n < bpow 53) as H2
      by (rewrite (bpow_IZR 53) by lia; apply IZR_lt; lia).
    rewrite <- Hv in H1, H2. split.
    - assert (bpow 0 < bpow (53 + e)) as Hb.
      { change (bpow 0) with 1. apply Rle_lt_trans with (1 := H1).
        rewrite bpow_add, (bpow_IZR 53) by lia. unfold F2R.
        apply Rmult_lt_compat_r; [apply bpow_pos|]. apply IZR_lt. lia. }
      apply bpow_lt_inv in Hb. lia.
    - assert (bpow (52 + e) < bpow 53) as Hb.
      { apply Rle_lt_trans with (2 := H2).
        rewrite bpow_add, (bpow_IZR 52) by lia. unfold F2R.
        apply Rmult_le_compat_r; [apply Rlt_le, bpow_pos|]. apply IZR_le. lia. }
      apply bpow_lt_inv in Hb. lia. }
  unfold bounded, canonical_mantissa.
  assert (Zpos (digits2_pos p) = 53%Z) as ->.
  { change (Zpos (digits2_pos p)) with (Zdigits2 (Zpos p)).
    apply Zdigits2_unique; [exact Hp|lia]. }
  apply andb_true_iff. split.
  - apply Z.eqb_eq. unfold fexp, emin, prec, emax. lia.
  - apply Z.leb_le. unfold emax, prec. lia.
Qed.

End RoundingBelow.

Section PointsInsideFrame.

Local Open Scope R_scope.

Lemma value_one : F2R (Zpos 4503599627370496) (-52) = 1.
Proof.
  change (Zpos 4503599627370496) with (2 ^ 52)%Z.
  rewrite F2R_bpow by lia. reflexivity.
Qed.

Lemma value_two : F2R (Zpos 4503599627370496) (-51) = 2.
Proof.
  change (Zpos 4503599627370496) with (2 ^ 52)%Z.
  rewrite F2R_bpow by lia. simpl. unfold bpow. simpl. lra.
Qed.

Lemma value_three : F2R (Zpos 6755399441055744) (-51) = 3.
Proof.
  change (Zpos 6755399441055744) with (3 * 2 ^ 51)%Z.
  rewrite F2R_shift by lia. unfold F2R, bpow. simpl. lra.
Qed.

Lemma value_four : F2R (Zpos 4503599627370496) (-50) = 4.
Proof.
  change (Zpos 4503599627370496) with (2 ^ 52)%Z.
  rewrite F2R_bpow by lia. unfold bpow. simpl. lra.
Qed.

Lemma valid_value x :
  valid_binary prec emax x = true -> nonneg_finite x ->
  (exists s, x = S754_zero s) \/
  exists m e, x = S754_finite false m e /\ bounded prec emax m e = true.
Proof.
  intros Hv Hn. destruct x as [s|s| |s m e]; try contradiction.
  - left. eexists. reflexivity.
  - right. simpl in Hn. subst s. exists m, e. split; [reflexivity|exact Hv].
Qed.

(** [extent / 2] is at most [extent]. *)
Lemma half_at_most extent :
  valid_binary prec emax extent = true -> nonneg_finite extent ->
  exists h,
    float_div extent (S754_finite false 4503599627370496 (-51)) = Ok h /\
    at_most h (float_value extent).
Proof.
  intros Hv Hn. destruct (valid_value _ Hv Hn) as [[s ->]|(m & e & -> & Hb)].
  - eexists. split; [reflexivity|]. simpl. apply at_most_zero. lra.
  - simpl float_value. apply float_div_at_most; [reflexivity|exact Hb|].
    simpl float_value. rewrite value_two. pose proof (F2R_pos m e). lra.
Qed.

Lemma pixel_dim_real n : pixel_dim n -> IZR n < bpow 53.
Proof.
  intros Hn. apply pixel_dim_bounds in Hn.
  rewrite (bpow_IZR 53) by lia. apply IZR_lt.
  assert (2147483648 < 2 ^ 53)%Z by reflexivity. lia.
Qed.

(** [int(c * size)] for a coordinate [c] between 0 and 1. *)
Lemma scale_at_most c size :
  at_most c 1 -> pixel_dim size ->
  exists k,
    (let* fsize := of_int size in to_int (fmul c fsize)) = Ok k /\
    (0 <= k <= size)%Z.
Proof.
  intros Hc Hsize. pose proof (pixel_dim_bounds _ Hsize) as Hb.
  assert (2147483648 < 2 ^ 53)%Z by reflexivity.
  destruct (of_int_bounded size ltac:(lia)) as (p & e & Hof & Hval & Hbd).
  rewrite Hof. cbv beta iota delta [bind].
  apply to_int_at_most. rewrite <- Hval.
  apply fmul_at_most; [exact Hc|exact Hbd|reflexivity|].
  rewrite Hval. apply pixel_dim_real. exact Hsize.
Qed.

Lemma box_center_in_frame lo extent size :
  side_inside lo extent -> pixel_dim size ->
  exists c, box_center lo extent size = Ok c /\ (0 <= c <= size)%Z.
Proof.
  intros (Hlo & Hv & Hext & Hsum) Hsize. unfold box_center.
  change (of_int 2) with (Ok (S754_finite false 4503599627370496 (-51))).
  cbv beta iota delta [bind].
  destruct (half_at_most extent Hv Hext) as (h & Hh & Hhn & Hhv).
  rewrite Hh.
  apply scale_at_most; [|exact Hsize].
  rewrite <- value_one. apply fadd_at_most; [exact Hlo|exact Hhn|reflexivity|].
  rewrite value_one. lra.
Qed.

Lemma torso_coordinate_in_frame a b c d size :
  unit_coordinate a -> unit_coordinate b -> unit_coordinate c ->
  unit_coordinate d -> pixel_dim size ->
  exists v, torso_coordinate a b c d size = Ok v /\ (0 <= v <= size)%Z.
Proof.
  intros (_ & Ha & Ha1) (_ & Hb & Hb1) (_ & Hc & Hc1) (_ & Hd & Hd1) Hsize.
  unfold torso_coordinate.
  change (of_int 4) with (Ok (S754_finite false 4503599627370496 (-50))).
  cbv beta iota delta [bind].
  assert (at_most (fadd a b) 2) as [Hab Hab2].
  { rewrite <- value_two. apply fadd_at_most; [exact Ha|exact Hb|reflexivity|].
    rewrite value_two. lra. }
  assert (at_most (fadd (fadd a b) c) 3) as [Habc Habc3].
  { rewrite <- value_three.
    apply fadd_at_most; [exact Hab|exact Hc|reflexivity|].
    rewrite value_three. lra. }
  assert (at_most (fadd (fadd (fadd a b) c) d) 4) as [Hs Hs4].
  { rewrite <- value_four.
    apply fadd_at_most; [exact Habc|exact Hd|reflexivity|].
    rewrite value_four. lra. }
  destruct (float_div_at_most (fadd (fadd (fadd a b) c) d)
              4503599627370496 (-50) 4503599627370496 (-52) Hs eq_refl)
    as (mean & Hmean & Hm1).
  { rewrite value_four, value_one. lra. }
  rewrite Hmean. rewrite value_one in Hm1.
  apply scale_at_most; assumption.
Qed.

End PointsInsideFrame.

(** [int(a / n)] for a sum [a] of [n] values between 0 and [w]. *)
Lemma int_truediv_at_most a n w :
  0 < n -> 0 < w < 2 ^ 53 -> 0 <= a <= n * w ->
  exists f k, int_truediv a n = Ok f /\ to_int f = Ok k /\ 0 <= k <= w.
Proof.
  intros Hn Hw Ha.
  destruct (Z.eq_dec a 0) as [->|Ha0].
  { exists (S754_zero (n <? 0)), 0. destruct n; try lia.
    repeat split; try reflexivity; lia. }
  destruct (of_int_bounded w Hw) as (pB & eB & _ & Hval & HB).
  destruct (div_core_located (Z.abs a) 0 (Z.abs n) 0) as
    (q & e' & l & Hcore & Hloc & He'); try lia.
  rewrite !F2R_0 in Hloc. rewrite !Z.abs_eq in * by lia.
  assert (IZR a / IZR n <= F2R (Zpos pB) eB)%R as Hle.
  { rewrite Hval.
    assert (0 < IZR n)%R by (apply IZR_lt; lia).
    apply Rmult_le_reg_r with (IZR n); [assumption|].
    unfold Rdiv. rewrite Rmult_assoc, Rinv_l by lra. rewrite Rmult_1_r.
    rewrite <- mult_IZR. apply IZR_le. lia. }
  pose proof (round_at_most _ q e' l pB eB Hloc He' HB Hle) as Hat.
  rewrite Hval in Hat.
  destruct (to_int_at_most _ _ Hat) as (k & Hk & Hkw).
  exists (binary_round_aux prec emax false q e' l), k.
  split; [|split; [exact Hk|exact Hkw]].
  unfold int_truediv. destruct n as [|pn|pn]; try lia.
  destruct a as [|pa|pa]; try lia.
  change (Z.abs (Z.pos pa)) with (Z.pos pa).
  change (Z.abs (Z.pos pn)) with (Z.pos pn).
  rewrite Hcore.
  change (xorb (Z.pos pa <? 0) (Z.pos pn <? 0)) with false.
  destruct Hat as [Hfin _].
  destruct (binary_round_aux prec emax false q e' l);
    try reflexivity; contradiction.
Qed.

Lemma sum_between (l : list Z) (w : Z) :
  Forall (fun v => 0 <= v <= w) l ->
  0 <= sum l <= Z.of_nat (length l) * w.
Proof.
  induction 1 as [|x l Hx Hl IH]; [unfold sum; simpl; lia|].
  rewrite sum_cons. simpl length. rewrite Nat2Z.inj_succ. lia.
Qed.

Lemma mean_coordinate_between (l : list Z) (w : Z) :
  l <> [] -> 0 < w < 2 ^ 53 -> Forall (fun v => 0 <= v <= w) l ->
  exists f k, mean_coordinate l = Ok f /\ to_int f = Ok k /\ 0 <= k <= w.
Proof.
  intros Hne Hw Hl. unfold mean_coordinate.
  apply int_truediv_at_most; [|exact Hw|apply sum_between; exact Hl].
  destruct l; [contradiction|simpl length; lia].
Qed.

Lemma pixel_dim_53 n : pixel_dim n -> 0 < n < 2 ^ 53.
Proof.
  intros H. apply pixel_dim_bounds in H.
  assert (2147483648 < 2 ^ 53) by reflexivity. lia.
Qed.

(** The mean of points of a frame is a point of the frame. *)
Lemma mean_point_in_frame (points : list (Z * Z)) (w h : Z) :
  points <> [] -> pixel_dim w -> pixel_dim h ->
  Forall (in_frame w h) points ->
  exists x y,
    (let* avg_x := mean_coordinate (map fst points) in
     let* avg_y := mean_coordinate (map snd points) in
     let* x := to_int avg_x in
     let* y := to_int avg_y in
     Ok (x, y)) = Ok (x, y) /\
    in_frame w h (x, y).
Proof.
  intros Hne Hw Hh Hin.
  destruct (mean_coordinate_between (map fst points) w)
    as (fx & x & Hfx & Hx & Hxw).
  { destruct points; [contradiction|discriminate]. }
  { apply pixel_dim_53. exact Hw. }
  { apply List.Forall_forall. intros v Hv.
    apply List.in_map_iff in Hv as (p & <- & Hp).
    apply (proj1 (List.Forall_forall _ _) Hin p Hp). }
  destruct (mean_coordinate_between (map snd points) h)
    as (fy & y & Hfy & Hy & Hyh).
  { destruct points; [contradiction|discriminate]. }
  { apply pixel_dim_53. exact Hh. }
  { apply List.Forall_forall. intros v Hv.
    apply List.in_map_iff in Hv as (p & <- & Hp).
    apply (proj1 (List.Forall_forall _ _) Hin p Hp). }
  exists x, y. rewrite Hfx, Hfy. cbv beta iota delta [bind]. rewrite Hx, Hy.
  split; [reflexivity|]. split; assumption.
Qed.

Lemma face_subject_in_frame bbox w h :
  box_inside bbox -> pixel_dim w -> pixel_dim h ->
  exists s, face_subject bbox w h = Ok s /\ in_frame w h (fst s).
Proof.
  intros [Hx Hy] Hw Hh. unfold face_subject.
  destruct (box_center_in_frame _ _ _ Hx Hw) as (cx & -> & Hcx).
  destruct (box_center_in_frame _ _ _ Hy Hh) as (cy & -> & Hcy).
  eexists. split; [reflexivity|]. split; assumption.
Qed.

Lemma face_loop_in_frame detections w h : forall subjects,
  Forall box_inside detections -> pixel_dim w -> pixel_dim h ->
  Forall (fun s => in_frame w h (fst s)) subjects ->
  Forall (fun s => in_frame w h (fst s)) (face_loop detections w h subjects).
Proof.
  induction detections as [|bbox rest IH]; intros subjects Hd Hw Hh Hs; simpl;
    [exact Hs|].
  inversion Hd as [|? ? Hb Hrest]; subst.
  destruct (face_subject_in_frame bbox w h Hb Hw Hh) as (s & -> & Hin).
  apply IH; try assumption.
  apply Forall_app. split; [exact Hs|]. constructor; [exact Hin|constructor].
Qed.

Lemma torso_subject_in_frame landmarks w h s :
  torso_inside landmarks -> pixel_dim w -> pixel_dim h ->
  torso_subject landmarks w h = Ok s -> in_frame w h (fst s).
Proof.
  intros Hin Hw Hh. unfold torso_subject, landmark_at.
  destruct (nth_error landmarks LEFT_SHOULDER) as [ls|] eqn:Els; [|discriminate].
  destruct (nth_error landmarks RIGHT_SHOULDER) as [rs|] eqn:Ers; [|discriminate].
  destruct (nth_error landmarks LEFT_HIP) as [lh|] eqn:Elh; [|discriminate].
  destruct (nth_error landmarks RIGHT_HIP) as [rh|] eqn:Erh; [|discriminate].
  cbv beta iota delta [bind].
  destruct (Hin LEFT_SHOULDER ls ltac:(simpl; tauto) Els) as [Hlsx Hlsy].
  destruct (Hin RIGHT_SHOULDER rs ltac:(simpl; tauto) Ers) as [Hrsx Hrsy].
  destruct (Hin LEFT_HIP lh ltac:(simpl; tauto) Elh) as [Hlhx Hlhy].
  destruct (Hin RIGHT_HIP rh ltac:(simpl; tauto) Erh) as [Hrhx Hrhy].
  destruct (torso_coordinate_in_frame _ _ _ _ w Hlsx Hrsx Hlhx Hrhx Hw)
    as (cx & -> & Hcx).
  destruct (torso_coordinate_in_frame _ _ _ _ h Hlsy Hrsy Hlhy Hrhy Hh)
    as (cy & -> & Hcy).
  intros H. injection H as <-. split; assumption.
Qed.

(** ** [detect_subjects] *)

(** detect_subjects: a face whose box does not convert ends the loop *)
Lemma face_loop_app pre w h : forall rest subjects points,
  Forall2 (fun bbox s => face_subject bbox w h = Ok s) pre points ->
  face_loop (pre ++ rest) w h subjects
  = face_loop rest w h (subjects ++ points).
Proof.
  intros rest subjects points H. revert subjects.
  induction H as [|bbox s pre points Hs _ IH]; intros subjects; simpl.
  - rewrite app_nil_r. reflexivity.
  - rewrite Hs, IH, <- app_assoc. reflexivity.
Qed.

(** X5 ([detect_subjects]): a face whose box does not convert to pixels
    ([int(...)] raises, as on a NaN coordinate) ends the loop over the
    detections.  The faces before it are kept, the faces after it are
    dropped, and the result is that of the faces before it alone. *)
Theorem X5_failed_face_ends_the_loop {frame : Type}
    (shape : frame -> Z * Z)
    (face_process : frame -> result (list bounding_box))
    (pose_process : frame -> result (option (list landmark)))
    (f : frame) (before after : list bounding_box) (bad : bounding_box)
    (points : list subject) (e : exn) :
  face_process f = Ok (before ++ bad :: after) ->
  Forall2 (fun bbox s =>
             face_subject bbox (snd (shape f)) (fst (shape f)) = Ok s)
    before points ->
  face_subject bad (snd (shape f)) (fst (shape f)) = Raise e ->
  detect_faces face_process f (snd (shape f)) (fst (shape f)) [] = points /\
  detect_subjects shape face_process pose_process f
  = detect_subjects shape (fun _ => Ok before) pose_process f.
Proof.
  intros Hface Hbefore Hbad.
  assert (forall after',
            face_loop (before ++ after') (snd (shape f)) (fst (shape f)) []
            = face_loop after' (snd (shape f)) (fst (shape f)) points) as Hloop.
  { intros after'. apply (face_loop_app before _ _ after' [] points Hbefore). }
  split.
  - unfold detect_faces. rewrite Hface, Hloop. simpl. rewrite Hbad. reflexivity.
  - unfold detect_subjects. destruct (shape f) as [h w]. simpl in *.
    unfold detect_faces. rewrite Hface, Hloop.
    rewrite (face_loop_all before w h points [] Hbefore).
    simpl. rewrite Hbad. reflexivity.
Qed.

Lemma X5_witness :
  detect_faces (fun _ : unit => Ok ([centre_face] ++ nan_box :: [corner_face]))
    tt 1920 1080 []
  = [(960, 540, "face"%string)] /\
  detect_subjects (fun _ : unit => (1080, 1920))
    (fun _ => Ok ([centre_face] ++ nan_box :: [corner_face]))
    (fun _ => Ok None) tt
  = detect_subjects (fun _ : unit => (1080, 1920))
      (fun _ => Ok [centre_face]) (fun _ => Ok None) tt.
Proof.
  apply (X5_failed_face_ends_the_loop (fun _ : unit => (1080, 1920))
           (fun _ => Ok ([centre_face] ++ nan_box :: [corner_face]))
           (fun _ => Ok None) tt [centre_face] [corner_face] nan_box
           [(960, 540, "face"%string)] ValueError).
  - reflexivity.
  - constructor; [vm_compute; reflexivity|constructor].
  - vm_compute. reflexivity.
Defined.

Lemma frame_center_in_frame w h :
  pixel_dim w -> pixel_dim h -> in_frame w h (w / 2, h / 2).
Proof.
  intros Hw Hh. apply pixel_dim_bounds in Hw, Hh. unfold in_frame. simpl.
  repeat split; try (apply Z.div_pos; lia);
    apply Z.div_le_upper_bound; lia.
Qed.

Section DetectionsInsideFrame.

Context {frame : Type}.
Variable shape : frame -> Z * Z.
Variable face_process : frame -> result (list bounding_box).
Variable pose_process : frame -> result (option (list landmark)).

Lemma detect_subjects_in_frame f :
  pixel_dim (fst (shape f)) -> pixel_dim (snd (shape f)) ->
  detections_inside face_process pose_process f ->
  in_frame (snd (shape f)) (fst (shape f))
    (center_of shape face_process pose_process f).
Proof.
  intros Hh Hw [Hface Hpose].
  pose proof (detect_subjects_center_of shape face_process pose_process f) as Hc.
  set (c := center_of shape face_process pose_process f) in *. clearbody c.
  unfold detect_subjects in Hc. destruct (shape f) as [h w]. simpl in *.
  assert (Forall (fun s : subject => in_frame w h (fst s))
            (detect_pose pose_process f w h
               (detect_faces face_process f w h []))) as Hall.
  { assert (Forall (fun s : subject => in_frame w h (fst s))
              (detect_faces face_process f w h [])) as Hfaces.
    { unfold detect_faces. destruct (face_process f) as [detections|];
        [|constructor].
      apply face_loop_in_frame; try assumption; [|constructor].
      apply Hface. reflexivity. }
    unfold detect_pose.
    destruct (pose_process f) as [[landmarks|]|]; try exact Hfaces.
    destruct (torso_subject landmarks w h) as [s|] eqn:Ht; [|exact Hfaces].
    apply Forall_app. split; [exact Hfaces|]. constructor; [|constructor].
    eapply torso_subject_in_frame; try eassumption. apply Hpose. reflexivity. }
  destruct (detect_pose _ _ _ _ _) as [|s rest] eqn:Hs.
  - injection Hc as <-. apply frame_center_in_frame; assumption.
  - destruct (mean_coordinate_between (map subject_x (s :: rest)) w)
      as (fx & x & Hfx & Hx & Hxw);
      [discriminate|apply pixel_dim_53; exact Hw| |].
    { apply List.Forall_forall. intros v Hv.
      apply List.in_map_iff in Hv as (t & <- & Ht).
      apply (proj1 (List.Forall_forall _ _) Hall t Ht). }
    destruct (mean_coordinate_between (map subject_y (s :: rest)) h)
      as (fy & y & Hfy & Hy & Hyh);
      [discriminate|apply pixel_dim_53; exact Hh| |].
    { apply List.Forall_forall. intros v Hv.
      apply List.in_map_iff in Hv as (t & <- & Ht).
      apply (proj1 (List.Forall_forall _ _) Hall t Ht). }
    rewrite Hfx, Hfy in Hc. cbv beta iota delta [bind] in Hc.
    rewrite Hx, Hy in Hc. injection Hc as <-. split; assumption.
Qed.

End DetectionsInsideFrame.

(** The sample coordinates 1/4 and 1/2. *)
Lemma value_quarter : float_value quarter = (1 / 4)%R.
Proof.
  unfold float_value, quarter. simpl cond_Zopp.
  change (Zpos 4503599627370496) with (2 ^ 52).
  rewrite F2R_bpow by lia. unfold bpow. simpl. lra.
Qed.

Lemma value_half : float_value half = (1 / 2)%R.
Proof.
  unfold float_value, half. simpl cond_Zopp.
  change (Zpos 4503599627370496) with (2 ^ 52).
  rewrite F2R_bpow by lia. unfold bpow. simpl. lra.
Qed.

Lemma sample_detections_inside :
  detections_inside (fun _ : unit => Ok two_faces)
    (fun _ => Ok (Some centred_body)) tt.
Proof.
  assert (side_inside quarter half) as Hqh.
  { repeat split. rewrite value_quarter, value_half. lra. }
  assert (side_inside half quarter) as Hhq.
  { repeat split. rewrite value_quarter, value_half. lra. }
  assert (unit_coordinate half) as Hhalf.
  { repeat split. rewrite value_half. lra. }
  split.
  - intros detections H. injection H as <-.
    constructor; [split; exact Hqh|].
    constructor; [split; exact Hhq|constructor].
  - intros landmarks H. injection H as <-.
    intros i l Hi Hl. simpl in Hi.
    destruct Hi as [<-|[<-|[<-|[<-|[]]]]]; vm_compute in Hl;
      injection Hl as <-; split; exact Hhalf.
Qed.

(** X6 ([detect_subjects]): when the boxes and the torso landmarks that
    MediaPipe reports lie inside the image, the centre returned for a
    frame of [width] x [height] pixels is a point of the frame:
    [0 <= x <= width] and [0 <= y <= height]. *)
Theorem X6_subject_center_inside_frame {frame : Type}
    (shape : frame -> Z * Z)
    (face_process : frame -> result (list bounding_box))
    (pose_process : frame -> result (option (list landmark)))
    (f : frame) :
  pixel_dim (fst (shape f)) -> pixel_dim (snd (shape f)) ->
  detections_inside face_process pose_process f ->
  exists center,
    detect_subjects shape face_process pose_process f = Ok center /\
    in_frame (snd (shape f)) (fst (shape f)) center.
Proof.
  intros Hh Hw Hin.
  exists (center_of shape face_process pose_process f). split.
  - apply detect_subjects_center_of.
  - apply detect_subjects_in_frame; assumption.
Qed.

Lemma X6_witness :
  exists center,
    detect_subjects (fun _ : unit => (1080, 1920)) (fun _ => Ok two_faces)
      (fun _ => Ok (Some centred_body)) tt = Ok center /\
    in_frame 1920 1080 center.
Proof.
  apply (X6_subject_center_inside_frame (fun _ : unit => (1080, 1920))
           (fun _ => Ok two_faces) (fun _ => Ok (Some centred_body)) tt).
  - unfold pixel_dim. simpl. lia.
  - unfold pixel_dim. simpl. lia.
  - exact sample_detections_inside.
Defined.

(** ** [calculate_crop_parameters] *)

Lemma integer_plan_far w h sx sy :
  ~ near_target w h -> 0 < w -> 0 < h ->
  integer_plan w h (sx, sy)
  = if 9 * h <? 16 * w then
      plan_crop (clamp (sx - 9 * h / 16 / 2) 0 (w - 9 * h / 16)) 0
        (9 * h / 16) h "crop_width"
    else
      plan_crop 0 (clamp (sy - 16 * w / 9 / 2) 0 (h - 16 * w / 9))
        w (16 * w / 9) "crop_height".
Proof.
  intros Hfar Hw Hh. unfold integer_plan, near_target, clamp in *.
  destruct (Z.ltb_spec (100 * Z.abs (16 * w - 9 * h)) (16 * h)); [lia|].
  destruct (Z.ltb_spec (9 * h) (16 * w)); [reflexivity|].
  pose proof (narrow_target_height_fits w h Hw ltac:(lia)) as Hfit.
  destruct (Z.leb_spec (16 * w / 9) h); [reflexivity|lia].
Qed.

(** X7 ([calculate_crop_parameters]): for dimensions in [[0, 2^31)] the
    planner raises exactly when the height is 0, and then it raises
    [ZeroDivisionError]; for every other height it returns a plan. *)
Theorem X7_planner_raises_only_on_zero_height
    (info : video_info) (subject_center : Z * Z) :
  0 <= width info < 2 ^ 31 -> 0 <= height info < 2 ^ 31 ->
  (height info = 0 ->
   calculate_crop_parameters info subject_center = Raise ZeroDivisionError) /\
  (0 < height info ->
   exists plan, calculate_crop_parameters info subject_center = Ok plan).
Proof.
  intros Hw Hh. split.
  - intros H0. unfold calculate_crop_parameters. rewrite H0, target_ratio_value.
    reflexivity.
  - intros Hpos. destruct (Z.eq_dec (width info) 0) as [W0|Wpos].
    + unfold calculate_crop_parameters. rewrite W0, target_ratio_value.
      destruct (height info) as [|p|p] eqn:Eh; try lia.
      destruct subject_center as [sx sy].
      eexists. vm_compute bind. reflexivity.
    + eexists. apply calculate_crop_parameters_integer; unfold pixel_dim; lia.
Qed.

Lemma X7_witness :
  (0 <= 1080 < 2 ^ 31) /\ (0 <= 0 < 2 ^ 31) /\
  calculate_crop_parameters (probe_result 1080 0) (540, 0)
  = Raise ZeroDivisionError.
Proof.
  assert (0 <= 1080 < 2 ^ 31) as Hw by lia.
  assert (0 <= 0 < 2 ^ 31) as Hh by lia.
  split; [exact Hw|]. split; [exact Hh|].
  exact (proj1 (X7_planner_raises_only_on_zero_height (probe_result 1080 0)
                  (540, 0) Hw Hh) eq_refl).
Defined.

(** X8 ([calculate_crop_parameters]): outside the tolerance, in a frame
    at least two pixels high, a subject centre inside the frame lies
    inside the crop window of the plan:
    [crop_x <= subject_x < crop_x + crop_width] and
    [crop_y <= subject_y < crop_y + crop_height]. *)
Theorem X8_subject_stays_in_crop_window
    (info : video_info) (subject_x subject_y : Z) :
  pixel_dim (width info) -> pixel_dim (height info) ->
  ~ near_target (width info) (height info) ->
  2 <= height info ->
  0 <= subject_x < width info -> 0 <= subject_y < height info ->
  exists crop_x crop_y crop_width crop_height operation,
    calculate_crop_parameters info (subject_x, subject_y)
    = Ok (plan_crop crop_x crop_y crop_width crop_height operation) /\
    crop_x <= subject_x < crop_x + crop_width /\
    crop_y <= subject_y < crop_y + crop_height.
Proof.
  intros Hw Hh Hfar H2 Hx Hy.
  rewrite (calculate_crop_parameters_integer info _ Hw Hh).
  pose proof (pixel_dim_bounds _ Hw). pose proof (pixel_dim_bounds _ Hh).
  rewrite integer_plan_far by (assumption || lia).
  unfold clamp.
  destruct (Z.ltb_spec (9 * height info) (16 * width info)) as [Hwide|Hnarrow].
  - do 5 eexists. split; [reflexivity|].
    assert (1 <= 9 * height info / 16 < width info) as Htw
      by (split; [apply Z.div_le_lower_bound; lia
                 |apply Z.div_lt_upper_bound; lia]).
    set (tw := 9 * height info / 16) in *. clearbody tw.
    assert (0 <= tw / 2 < tw) by (split; [apply Z.div_pos; lia
                                      |apply Z.div_lt_upper_bound; lia]).
    lia.
  - do 5 eexists. split; [reflexivity|].
    pose proof (narrow_target_height_fits (width info) (height info) ltac:(lia) Hnarrow) as Hfit.
    assert (1 <= 16 * width info / 9) as Hth
      by (apply Z.div_le_lower_bound; lia).
    set (th := 16 * width info / 9) in *. clearbody th.
    assert (0 <= th / 2 < th) by (split; [apply Z.div_pos; lia
                                      |apply Z.div_lt_upper_bound; lia]).
    lia.
Qed.

Lemma X8_witness :
  exists crop_x crop_y crop_width crop_height operation,
    calculate_crop_parameters (probe_result 1920 1080) (1900, 20)
    = Ok (plan_crop crop_x crop_y crop_width crop_height operation) /\
    crop_x <= 1900 < crop_x + crop_width /\
    crop_y <= 20 < crop_y + crop_height.
Proof.
  apply (X8_subject_stays_in_crop_window (probe_result 1920 1080) 1900 20);
    unfold pixel_dim, near_target; simpl; lia.
Defined.

(** X9 ([calculate_crop_parameters]): outside the tolerance the window
    follows the subject.  Two subject centres get the same operation and
    window size; when the subject moves right and down the window moves
    right and down, by no more than the subject; a [crop_width] plan
    does not depend on [subject_y] nor a [crop_height] plan on
    [subject_x]. *)
Theorem X9_crop_window_follows_subject
    (info : video_info) (x1 y1 x2 y2 : Z) :
  pixel_dim (width info) -> pixel_dim (height info) ->
  ~ near_target (width info) (height info) ->
  x1 <= x2 -> y1 <= y2 ->
  exists cx1 cy1 cx2 cy2 crop_width crop_height operation,
    calculate_crop_parameters info (x1, y1)
    = Ok (plan_crop cx1 cy1 crop_width crop_height operation) /\
    calculate_crop_parameters info (x2, y2)
    = Ok (plan_crop cx2 cy2 crop_width crop_height operation) /\
    0 <= cx2 - cx1 <= x2 - x1 /\ 0 <= cy2 - cy1 <= y2 - y1 /\
    (operation = "crop_width"%string -> cy1 = 0 /\ cy2 = 0) /\
    (operation = "crop_height"%string -> cx1 = 0 /\ cx2 = 0).
Proof.
  intros Hw Hh Hfar Hx Hy.
  rewrite !(calculate_crop_parameters_integer info _ Hw Hh).
  pose proof (pixel_dim_bounds _ Hw). pose proof (pixel_dim_bounds _ Hh).
  rewrite !integer_plan_far by (assumption || lia).
  unfold clamp.
  destruct (Z.ltb_spec (9 * height info) (16 * width info)) as [Hwide|Hnarrow].
  - do 7 eexists. split; [reflexivity|]. split; [reflexivity|].
    assert (0 <= 9 * height info / 16 < width info) as Htw
      by (split; [apply Z.div_pos; lia|apply Z.div_lt_upper_bound; lia]).
    set (tw := 9 * height info / 16) in *. clearbody tw.
    set (half := tw / 2). clearbody half.
    repeat split; try lia; discriminate.
  - do 7 eexists. split; [reflexivity|]. split; [reflexivity|].
    pose proof (narrow_target_height_fits (width info) (height info) ltac:(lia) Hnarrow) as Hfit.
    set (th := 16 * width info / 9) in *. clearbody th.
    set (half := th / 2). clearbody half.
    repeat split; try lia; discriminate.
Qed.

Lemma X9_witness :
  exists cx1 cy1 cx2 cy2 crop_width crop_height operation,
    calculate_crop_parameters (probe_result 1920 1080) (500, 10)
    = Ok (plan_crop cx1 cy1 crop_width crop_height operation) /\
    calculate_crop_parameters (probe_result 1920 1080) (700, 900)
    = Ok (plan_crop cx2 cy2 crop_width crop_height operation) /\
    0 <= cx2 - cx1 <= 700 - 500 /\ 0 <= cy2 - cy1 <= 900 - 10 /\
    (operation = "crop_width"%string -> cy1 = 0 /\ cy2 = 0) /\
    (operation = "crop_height"%string -> cx1 = 0 /\ cx2 = 0).
Proof.
  apply (X9_crop_window_follows_subject (probe_result 1920 1080) 500 10 700 900);
    unfold pixel_dim, near_target; simpl; lia.
Defined.

(** ** [analyze_video_for_cropping] *)

(** The tolerance test on a probed record is the test of the planner. *)
Lemma probed_within_tolerance info :
  probed info -> pixel_dim (width info) -> pixel_dim (height info) ->
  within_tolerance (aspect_ratio info) (target_ratio info)
  = (100 * Z.abs (16 * width info - 9 * height info) <? 16 * height info).
Proof.
  intros (_ & Har & Htr) Hw Hh. rewrite Htr.
  destruct (ratio_range _ _ Hw Hh) as [_ Hrange].
  destruct (int_truediv_rounded (width info) (height info)) as
    (pv & ev & Hdiv & Hr); [apply Hw|apply Hh|exact Hrange|].
  rewrite Hdiv in Har. injection Har as <-.
  apply within_tolerance_ratio; assumption.
Qed.

Lemma build_to_int_bounded s m e z :
  0 <= m < 2 ^ 53 -> to_int (build s m e) = Ok z -> Z.abs z <= max_float_int.
Proof.
  intros Hm. unfold build.
  destruct m as [|p|p]; try lia.
  - simpl. intros H. injection H as <-. unfold max_float_int. simpl Z.abs.
    assert (0 < 2 ^ 971) by (apply Z.pow_pos_nonneg; lia). nia.
  - unfold emax, prec. destruct (Z.leb_spec e (1024 - 53)); [|discriminate].
    apply to_int_bounded; lia.
Qed.

Lemma int_truediv_bounded a b f z :
  int_truediv a b = Ok f -> to_int f = Ok z -> Z.abs z <= max_float_int.
Proof.
  unfold int_truediv.
  destruct (Z.eq_dec b 0) as [->|Hb]; [discriminate|].
  destruct (Z.eq_dec a 0) as [->|Ha].
  { destruct b; try contradiction; intros H; injection H as <-;
      intros H; injection H as <-; unfold max_float_int; simpl Z.abs;
      assert (0 < 2 ^ 971) by (apply Z.pow_pos_nonneg; lia); nia. }
  destruct (div_core_located (Z.abs a) 0 (Z.abs b) 0) as
    (q & e' & l & Hcore & Hloc & He'); try lia.
  destruct (binary_round_aux_spec (xorb (a <? 0) (b <? 0)) _ q e' l Hloc He')
    as (m1 & m & e & Hm1 & _ & _ & Hcase & Hres).
  assert (0 <= m < 2 ^ 53) as Hm.
  { assert (2 ^ 52 < 2 ^ 53) by reflexivity.
    assert (0 < 2 ^ 52) by reflexivity.
    destruct Hcase as [(_ & [->| ->] & Hlt)|(_ & -> & _)]; lia. }
  intros Hf Hz.
  assert (binary_round_aux prec emax (xorb (a <? 0) (b <? 0)) q e' l = f) as Hbr.
  { destruct b; try contradiction; destruct a; try contradiction;
      rewrite Hcore in Hf; cbv beta iota in Hf;
      destruct (binary_round_aux _ _ _ _ _ _); congruence. }
  rewrite Hres in Hbr. subst f.
  eapply build_to_int_bounded; eassumption.
Qed.

Lemma mean_coordinate_bounded l f z :
  mean_coordinate l = Ok f -> to_int f = Ok z -> Z.abs z <= max_float_int.
Proof. apply int_truediv_bounded. Qed.

Section AnalysisProperties.

Context {frame : Type}.
Variable shape : frame -> Z * Z.
Variable face_process : frame -> result (list bounding_box).
Variable pose_process : frame -> result (option (list landmark)).

Hypothesis shape_bounded : forall f,
  Z.abs (fst (shape f)) <= max_float_int /\
  Z.abs (snd (shape f)) <= max_float_int.

Lemma center_of_bounded f :
  Z.abs (fst (center_of shape face_process pose_process f)) <= max_float_int /\
  Z.abs (snd (center_of shape face_process pose_process f)) <= max_float_int.
Proof.
  pose proof (detect_subjects_center_of shape face_process pose_process f) as H.
  set (c := center_of shape face_process pose_process f) in *. clearbody c.
  unfold detect_subjects in H. pose proof (shape_bounded f) as [Hh Hw].
  destruct (shape f) as [h w]. simpl in Hh, Hw.
  destruct (detect_pose _ _ _ _ _) as [|s rest].
  - injection H as <-. simpl.
    assert (0 < max_float_int) by (vm_compute; reflexivity).
    split; [apply Z.abs_le|apply Z.abs_le]; split.
    + apply Z.div_le_lower_bound; lia.
    + apply Z.div_le_upper_bound; lia.
    + apply Z.div_le_lower_bound; lia.
    + apply Z.div_le_upper_bound; lia.
  - destruct (mean_coordinate (map subject_x (s :: rest))) as [fx|] eqn:Hfx;
      [|discriminate].
    destruct (mean_coordinate (map subject_y (s :: rest))) as [fy|] eqn:Hfy;
      [|discriminate].
    cbv beta iota delta [bind] in H.
    destruct (to_int fx) as [x|] eqn:Hx; [|discriminate].
    destruct (to_int fy) as [y|] eqn:Hy; [|discriminate].
    injection H as <-. simpl. split.
    + exact (mean_coordinate_bounded _ _ _ Hfx Hx).
    + exact (mean_coordinate_bounded _ _ _ Hfy Hy).
Qed.

Lemma sample_subject_center_total (info : video_info) (cap : capture frame) :
  frame_count cap < 2 ^ 31 ->
  exists seeks subject_center,
    sample_subject_center shape face_process pose_process info cap
    = Ok (seeks, subject_center).
Proof.
  intros Ht. unfold sample_subject_center.
  set (t := frame_count cap) in *. set (s := Z.min 5 t).
  assert (exists frames,
            sample_loop shape face_process pose_process cap (range s) s t [] []
            = Ok (map (fun i => i * t / s) (range s),
                  map (center_of shape face_process pose_process) frames))
    as (frames & Hloop).
  { exists (decoded_frames cap (map (fun i => i * t / s) (range s))).
    rewrite (sample_loop_spec shape face_process pose_process cap s t
               (fun i => i * t / s)); [reflexivity|].
    intros i Hi. apply In_range in Hi.
    apply frame_number_exact; unfold s in *; lia. }
  rewrite Hloop. cbv beta iota delta [bind].
  destruct frames as [|f frames]; [eexists _, _; reflexivity|].
  set (centers := map _ (f :: frames)).
  assert (Forall (fun c => Z.abs (fst c) <= max_float_int /\
                           Z.abs (snd c) <= max_float_int) centers) as Hb.
  { apply List.Forall_forall. intros c Hc.
    apply List.in_map_iff in Hc as (g & <- & _). apply center_of_bounded. }
  destruct (mean_coordinate_total (map fst centers)) as (fx & x & Hfx & Hx).
  { discriminate. }
  { apply List.Forall_forall. intros v Hv.
    apply List.in_map_iff in Hv as (c & <- & Hc).
    apply (proj1 (List.Forall_forall _ _) Hb c Hc). }
  destruct (mean_coordinate_total (map snd centers)) as (fy & y & Hfy & Hy).
  { discriminate. }
  { apply List.Forall_forall. intros v Hv.
    apply List.in_map_iff in Hv as (c & <- & Hc).
    apply (proj1 (List.Forall_forall _ _) Hb c Hc). }
  exists (map (fun i => i * t / s) (range s)), (x, y).
  change (map _ (f :: frames)) with centers.
  destruct centers as [|c rest] eqn:Ec; [discriminate|].
  rewrite Hfx, Hfy. cbv beta iota delta [bind]. rewrite Hx, Hy. reflexivity.
Qed.

End AnalysisProperties.

Lemma pixel_dim_max_float n : pixel_dim n -> Z.abs n <= max_float_int.
Proof.
  intros H. apply pixel_dim_bounds in H.
  assert (2147483648 <= max_float_int) by (vm_compute; discriminate). lia.
Qed.

Lemma probed_1080_1920 : probed (probe_result 1080 1920).
Proof. split; [simpl; lia|]. split; vm_compute; reflexivity. Qed.

Lemma probed_1920_1080 : probed (probe_result 1920 1080).
Proof. split; [simpl; lia|]. split; vm_compute; reflexivity. Qed.

(** X10 ([analyze_video_for_cropping]): for a probed record within the
    tolerance the analysis returns "Already 9:16 aspect ratio" with no
    crop parameters, whatever the capture is (it is not consulted);
    outside the tolerance it never returns that answer. *)
Theorem X10_analysis_within_tolerance_skips_sampling {frame : Type}
    (shape : frame -> Z * Z)
    (face_process : frame -> result (list bounding_box))
    (pose_process : frame -> result (option (list landmark)))
    (info : video_info) (cap : capture frame) :
  probed info -> pixel_dim (width info) -> pixel_dim (height info) ->
  let outcome :=
    analyze_video_for_cropping shape face_process pose_process (Some info) cap in
  (near_target (width info) (height info) ->
   outcome = Ok (AlreadyTarget "Already 9:16 aspect ratio" info)) /\
  (~ near_target (width info) (height info) ->
   forall reason info', outcome <> Ok (AlreadyTarget reason info')).
Proof.
  intros Hp Hw Hh outcome. unfold outcome, analyze_video_for_cropping.
  rewrite (probed_within_tolerance info Hp Hw Hh). unfold near_target.
  destruct (Z.ltb_spec (100 * Z.abs (16 * width info - 9 * height info))
              (16 * height info)) as [Hnear|Hfar].
  - split; [reflexivity|]. intros Hn. contradiction.
  - split; [intros Hn; lia|]. intros _ reason info'.
    destruct (negb (isOpened cap)); [discriminate|].
    destruct (sample_subject_center _ _ _ _ _) as [sampled|]; [|discriminate].
    cbv beta iota delta [bind].
    destruct (calculate_crop_parameters _ _) as [plan|]; [|discriminate].
    cbv beta iota delta [bind].
    destruct (getitem plan "needs_crop"); discriminate.
Qed.

Lemma X10_witness :
  analyze_video_for_cropping (fun _ : unit => (1920, 1080))
    (fun _ => Ok []) (fun _ => Ok None)
    (Some (probe_result 1080 1920)) undecodable_clip
  = Ok (AlreadyTarget "Already 9:16 aspect ratio" (probe_result 1080 1920)).
Proof.
  apply (X10_analysis_within_tolerance_skips_sampling (fun _ : unit => (1920, 1080))
           (fun _ => Ok []) (fun _ => Ok None)
           (probe_result 1080 1920) undecodable_clip).
  - exact probed_1080_1920.
  - unfold pixel_dim. simpl. lia.
  - unfold pixel_dim. simpl. lia.
  - unfold near_target. simpl. lia.
Defined.

Lemma analyze_off_ratio {frame : Type}
    (shape : frame -> Z * Z)
    (face_process : frame -> result (list bounding_box))
    (pose_process : frame -> result (option (list landmark)))
    (info : video_info) (cap : capture frame) :
  probed info -> pixel_dim (width info) -> pixel_dim (height info) ->
  ~ near_target (width info) (height info) ->
  (forall f, pixel_dim (fst (shape f)) /\ pixel_dim (snd (shape f))) ->
  frame_count cap < 2 ^ 31 -> isOpened cap = true ->
  exists subject_center plan,
    calculate_crop_parameters info subject_center = Ok plan /\
    plan
    = (if 9 * height info <? 16 * width info then
         plan_crop
           (clamp (fst subject_center - 9 * height info / 16 / 2) 0
              (width info - 9 * height info / 16))
           0 (9 * height info / 16) (height info) "crop_width"
       else
         plan_crop 0
           (clamp (snd subject_center - 16 * width info / 9 / 2) 0
              (height info - 16 * width info / 9))
           (width info) (16 * width info / 9) "crop_height") /\
    analyze_video_for_cropping shape face_process pose_process (Some info) cap
    = Ok (Analysis (VBool true) info subject_center plan).
Proof.
  intros Hp Hw Hh Hfar Hshape Ht Hopen.
  unfold analyze_video_for_cropping.
  rewrite (probed_within_tolerance info Hp Hw Hh).
  destruct (Z.ltb_spec (100 * Z.abs (16 * width info - 9 * height info))
              (16 * height info)) as [Hnear|_];
    [unfold near_target in Hfar; lia|].
  rewrite Hopen. simpl negb. cbv iota.
  destruct (sample_subject_center_total shape face_process pose_process
              (fun f => conj (pixel_dim_max_float _ (proj1 (Hshape f)))
                             (pixel_dim_max_float _ (proj2 (Hshape f))))
              info cap Ht) as (seeks & [sx sy] & Hs).
  rewrite Hs. cbv beta iota delta [bind]. simpl snd.
  pose proof (calculate_crop_parameters_integer info (sx, sy) Hw Hh) as Hplan.
  pose proof (pixel_dim_bounds _ Hw). pose proof (pixel_dim_bounds _ Hh).
  rewrite integer_plan_far in Hplan by (assumption || lia).
  rewrite Hplan. eexists (sx, sy), _. split; [exact Hplan|].
  split; [reflexivity|].
  destruct (9 * height info <? 16 * width info); reflexivity.
Qed.

(** X11 ([analyze_video_for_cropping]): for a probed record outside the
    tolerance, a capture that cannot be opened gives the error "Could
    not open video file"; otherwise the analysis does not raise, its
    ['needs_processing'] is [True], and its ['crop_params'] is the
    [crop_width] or [crop_height] plan of [calculate_crop_parameters]
    at the averaged subject centre. *)
Theorem X11_analysis_off_ratio_plans_a_crop {frame : Type}
    (shape : frame -> Z * Z)
    (face_process : frame -> result (list bounding_box))
    (pose_process : frame -> result (option (list landmark)))
    (info : video_info) (cap : capture frame) :
  probed info -> pixel_dim (width info) -> pixel_dim (height info) ->
  ~ near_target (width info) (height info) ->
  (forall f, pixel_dim (fst (shape f)) /\ pixel_dim (snd (shape f))) ->
  frame_count cap < 2 ^ 31 ->
  let outcome :=
    analyze_video_for_cropping shape face_process pose_process (Some info) cap in
  (isOpened cap = false ->
   outcome = Ok (AnalysisError "Could not open video file")) /\
  (isOpened cap = true ->
   exists subject_center x y w h operation,
     outcome
     = Ok (Analysis (VBool true) info subject_center
             (plan_crop x y w h operation)) /\
     calculate_crop_parameters info subject_center
     = Ok (plan_crop x y w h operation) /\
     (operation = "crop_width"%string \/ operation = "crop_height"%string)).
Proof.
  intros Hp Hw Hh Hfar Hshape Ht outcome. split; intros Hopen.
  - unfold outcome, analyze_video_for_cropping.
    rewrite (probed_within_tolerance info Hp Hw Hh).
    destruct (Z.ltb_spec (100 * Z.abs (16 * width info - 9 * height info))
                (16 * height info)) as [Hnear|_];
      [unfold near_target in Hfar; lia|].
    rewrite Hopen. reflexivity.
  - destruct (analyze_off_ratio shape face_process pose_process info cap
                Hp Hw Hh Hfar Hshape Ht Hopen)
      as (sc & plan & Hplan & Hshape' & Hout).
    unfold outcome. rewrite Hout. clear Hout. subst plan.
    destruct (9 * height info <? 16 * width info).
    + eexists sc, _, _, _, _, _. split; [reflexivity|]. split; [exact Hplan|].
      left; reflexivity.
    + eexists sc, _, _, _, _, _. split; [reflexivity|]. split; [exact Hplan|].
      right; reflexivity.
Qed.

Lemma X11_witness :
  exists subject_center x y w h operation,
    analyze_video_for_cropping (fun _ : unit => (1080, 1920))
      (fun _ => Ok []) (fun _ => Ok None)
      (Some (probe_result 1920 1080)) undecodable_clip
    = Ok (Analysis (VBool true) (probe_result 1920 1080) subject_center
            (plan_crop x y w h operation)) /\
    calculate_crop_parameters (probe_result 1920 1080) subject_center
    = Ok (plan_crop x y w h operation) /\
    (operation = "crop_width"%string \/ operation = "crop_height"%string).
Proof.
  apply (X11_analysis_off_ratio_plans_a_crop (fun _ : unit => (1080, 1920))
           (fun _ => Ok []) (fun _ => Ok None)
           (probe_result 1920 1080) undecodable_clip).
  - exact probed_1920_1080.
  - unfold pixel_dim. simpl. lia.
  - unfold pixel_dim. simpl. lia.
  - unfold near_target. simpl. lia.
  - intros f. unfold pixel_dim. simpl. lia.
  - simpl. lia.
  - reflexivity.
Defined.

Lemma scaled_indices_sorted (t s : Z) (k : nat) : forall (a : nat),
  0 < s <= t ->
  StronglySorted Z.lt (map (fun i => i * t / s) (map Z.of_nat (seq a k))).
Proof.
  induction k as [|k IH]; intros a Hst; simpl; constructor.
  - apply IH. exact Hst.
  - apply List.Forall_forall. intros n Hn.
    apply List.in_map_iff in Hn as (j & <- & Hj).
    apply List.in_map_iff in Hj as (b & <- & Hb).
    apply in_seq in Hb.
    apply Z.lt_le_trans with ((Z.of_nat a + 1) * t / s).
    + replace ((Z.of_nat a + 1) * t) with (Z.of_nat a * t + t) by lia.
      assert (Z.of_nat a * t / s + 1 <= (Z.of_nat a * t + t) / s); [|lia].
      replace (Z.of_nat a * t / s + 1) with ((Z.of_nat a * t + 1 * s) / s)
        by (rewrite Z.div_add by lia; reflexivity).
      apply Z.div_le_mono; lia.
    + apply Z.div_le_mono; [lia|]. apply Z.mul_le_mono_nonneg_r; lia.
Qed.

(** X12 ([analyze_video_for_cropping]): the frame numbers the sampling
    loop seeks to are strictly increasing and lie in
    [[0, total_frames)], the first one being 0; a capture that reports
    no frames (or a negative count) is not sampled at all. *)
Theorem X12_sampled_frames_increase_inside_clip {frame : Type}
    (shape : frame -> Z * Z)
    (face_process : frame -> result (list bounding_box))
    (pose_process : frame -> result (option (list landmark)))
    (cap : capture frame) :
  let total_frames := frame_count cap in
  let sample_frames := Z.min 5 total_frames in
  total_frames < 2 ^ 31 ->
  exists seeks subject_centers,
    sample_loop shape face_process pose_process cap
      (range sample_frames) sample_frames total_frames [] []
    = Ok (seeks, subject_centers) /\
    StronglySorted Z.lt seeks /\
    Forall (fun frame_num => 0 <= frame_num < total_frames) seeks /\
    (0 < total_frames -> head seeks = Some 0).
Proof.
  intros t s Ht.
  destruct (Z_le_gt_dec t 0) as [Hneg|Hpos].
  - exists [], []. unfold range.
    replace (Z.to_nat s) with 0%nat by (unfold s; lia).
    split; [reflexivity|]. split; [constructor|]. split; [constructor|lia].
  - eexists _, _. split; [|split; [|split]].
    + apply (sample_loop_spec shape face_process pose_process cap s t
               (fun i => i * t / s)).
      intros i Hi. apply In_range in Hi.
      apply frame_number_exact; unfold s in *; lia.
    + simpl app. unfold range. apply scaled_indices_sorted. unfold s. lia.
    + simpl app. apply List.Forall_forall. intros n Hn.
      apply List.in_map_iff in Hn as (i & <- & Hi). apply In_range in Hi.
      assert (0 < s <= 5) by (unfold s; lia).
      split; [apply Z.div_pos; nia|].
      apply Z.div_lt_upper_bound; nia.
    + intros _. simpl app. unfold range.
      destruct (Z.to_nat s) as [|k] eqn:Ek; [unfold s in Ek; lia|].
      reflexivity.
Qed.

Lemma X12_witness :
  exists seeks subject_centers,
    sample_loop (fun _ => (0, 0)) (fun _ => Ok []) (fun _ => Ok None)
      undecodable_clip (range 5) 5 12 [] []
    = Ok (seeks, subject_centers) /\
    StronglySorted Z.lt seeks /\
    Forall (fun frame_num => 0 <= frame_num < 12) seeks /\
    (0 < 12 -> head seeks = Some 0).
Proof.
  apply (X12_sampled_frames_increase_inside_clip (fun _ => (0, 0)) (fun _ => Ok [])
           (fun _ => Ok None) undecodable_clip).
  simpl. lia.
Defined.

(** X13 ([analyze_video_for_cropping]): when the decoded frames have
    the dimensions of the probe and their detections lie inside the
    image, the averaged subject centre is a point of the frame. *)
Theorem X13_average_center_inside_frame {frame : Type}
    (shape : frame -> Z * Z)
    (face_process : frame -> result (list bounding_box))
    (pose_process : frame -> result (option (list landmark)))
    (info : video_info) (cap : capture frame) :
  pixel_dim (width info) -> pixel_dim (height info) ->
  (forall f, shape f = (height info, width info) /\
             detections_inside face_process pose_process f) ->
  frame_count cap < 2 ^ 31 ->
  exists seeks subject_center,
    sample_subject_center shape face_process pose_process info cap
    = Ok (seeks, subject_center) /\
    in_frame (width info) (height info) subject_center.
Proof.
  intros Hw Hh Hframes Ht. unfold sample_subject_center.
  set (t := frame_count cap) in *. set (s := Z.min 5 t).
  rewrite (sample_loop_spec shape face_process pose_process cap s t
             (fun i => i * t / s)).
  2:{ intros i Hi. apply In_range in Hi.
      apply frame_number_exact; unfold s in *; lia. }
  cbv beta iota delta [bind]. simpl app.
  set (frames := decoded_frames cap _).
  assert (Forall (in_frame (width info) (height info))
            (map (center_of shape face_process pose_process) frames)) as Hin.
  { apply List.Forall_forall. intros c Hc.
    apply List.in_map_iff in Hc as (f & <- & _).
    destruct (Hframes f) as [Hshape Hdet].
    pose proof (detect_subjects_in_frame shape face_process pose_process f)
      as H.
    rewrite Hshape in H. simpl in H. apply H; assumption. }
  destruct (map (center_of shape face_process pose_process) frames)
    as [|c rest] eqn:Ec.
  - eexists _, _. split; [reflexivity|].
    apply frame_center_in_frame; assumption.
  - destruct (mean_point_in_frame (c :: rest) (width info) (height info))
      as (x & y & Hxy & Hpoint); try assumption; [discriminate|].
    exists (map (fun i => i * t / s) (range s)), (x, y).
    split; [|exact Hpoint].
    cbv beta iota delta [bind] in Hxy.
    destruct (mean_coordinate (map fst (c :: rest))) as [fx|]; [|discriminate].
    destruct (mean_coordinate (map snd (c :: rest))) as [fy|]; [|discriminate].
    destruct (to_int fx) as [x'|]; [|discriminate].
    destruct (to_int fy) as [y'|]; [|discriminate].
    injection Hxy as <- <-. reflexivity.
Qed.

Lemma X13_witness :
  exists seeks subject_center,
    sample_subject_center (fun _ : unit => (1080, 1920))
      (fun _ => Ok two_faces) (fun _ => Ok (Some centred_body))
      (probe_result 1920 1080) decodable_clip
    = Ok (seeks, subject_center) /\
    in_frame 1920 1080 subject_center.
Proof.
  apply (X13_average_center_inside_frame (fun _ : unit => (1080, 1920))
           (fun _ => Ok two_faces) (fun _ => Ok (Some centred_body))
           (probe_result 1920 1080) decodable_clip).
  - unfold pixel_dim. simpl. lia.
  - unfold pixel_dim. simpl. lia.
  - intros []. split; [reflexivity|exact sample_detections_inside].
  - simpl. lia.
Defined.

(** ** [process_video] *)

Lemma pyval_eqb_VStr v s : pyval_eqb v (VStr s) = true <-> v = VStr s.
Proof.
  destruct v as [b|z|t]; simpl; split; try discriminate.
  - intros H. apply String.eqb_eq in H. congruence.
  - intros H. injection H as ->. apply String.eqb_refl.
Qed.

Lemma select_filter_plan_crop x y w h op :
  op = "crop_width"%string \/ op = "crop_height"%string ->
  select_filter (plan_crop x y w h op) = Ok (Crop x y w h).
Proof. intros [-> | ->]; reflexivity. Qed.

(** X14 ([calculate_crop_parameters], [process_video]): for a plan the
    planner makes outside the tolerance, [process_video] hands FFmpeg a
    crop filter whose rectangle lies inside the source frame, and it
    returns [True] exactly when the FFmpeg run completes. *)
Theorem X14_planned_crop_reaches_ffmpeg
    (info : video_info) (subject_center : Z * Z) :
  pixel_dim (width info) -> pixel_dim (height info) ->
  ~ near_target (width info) (height info) ->
  exists plan x y w h,
    calculate_crop_parameters info subject_center = Ok plan /\
    select_filter plan = Ok (Crop x y w h) /\
    0 <= x /\ 0 <= y /\ 0 <= w /\ 0 <= h /\
    x + w <= width info /\ y + h <= height info /\
    forall source run_ffmpeg,
      process_video (Some source) plan run_ffmpeg
      = match run_ffmpeg (Crop x y w h) (has_audio source) with
        | Ok _ => true
        | Raise _ => false
        end.
Proof.
  intros Hw Hh Hfar. destruct subject_center as [sx sy].
  rewrite (calculate_crop_parameters_integer info _ Hw Hh).
  pose proof (pixel_dim_bounds _ Hw). pose proof (pixel_dim_bounds _ Hh).
  rewrite integer_plan_far by (assumption || lia).
  unfold clamp.
  destruct (Z.ltb_spec (9 * height info) (16 * width info)) as [Hwide|Hnarrow].
  - do 5 eexists. split; [reflexivity|].
    split; [apply select_filter_plan_crop; left; reflexivity|].
    assert (0 <= 9 * height info / 16 < width info) as Htw
      by (split; [apply Z.div_pos; lia|apply Z.div_lt_upper_bound; lia]).
    set (tw := 9 * height info / 16) in *. clearbody tw.
    repeat (split; [lia|]).
    intros source run_ffmpeg. unfold process_video, process_video_body.
    rewrite select_filter_plan_crop by (left; reflexivity).
    cbv beta iota delta [bind]. destruct (run_ffmpeg _ _); reflexivity.
  - do 5 eexists. split; [reflexivity|].
    split; [apply select_filter_plan_crop; right; reflexivity|].
    pose proof (narrow_target_height_fits (width info) (height info)
                  ltac:(lia) Hnarrow) as Hfit.
    assert (0 <= 16 * width info / 9) as Hth by (apply Z.div_pos; lia).
    set (th := 16 * width info / 9) in *. clearbody th.
    repeat (split; [lia|]).
    intros source run_ffmpeg. unfold process_video, process_video_body.
    rewrite select_filter_plan_crop by (right; reflexivity).
    cbv beta iota delta [bind]. destruct (run_ffmpeg _ _); reflexivity.
Qed.

Lemma X14_witness :
  exists plan x y w h,
    calculate_crop_parameters (probe_result 1920 1080) (960, 540) = Ok plan /\
    select_filter plan = Ok (Crop x y w h) /\
    0 <= x /\ 0 <= y /\ 0 <= w /\ 0 <= h /\
    x + w <= 1920 /\ y + h <= 1080 /\
    forall source run_ffmpeg,
      process_video (Some source) plan run_ffmpeg
      = match run_ffmpeg (Crop x y w h) (has_audio source) with
        | Ok _ => true
        | Raise _ => false
        end.
Proof.
  apply (X14_planned_crop_reaches_ffmpeg (probe_result 1920 1080) (960, 540));
    unfold pixel_dim, near_target; simpl; lia.
Defined.

(** X15 ([process_video]): crop parameters whose ['operation'] is none
    of ['crop_width'], ['crop_height'] and ['add_padding'] select no
    filter, whatever else they hold: the video is encoded as it is. *)
Theorem X15_unknown_operation_is_not_filtered (crop_params : dict) (operation : pyval) :
  crop_params !! "operation" = Some operation ->
  operation <> VStr "crop_width" -> operation <> VStr "crop_height" ->
  operation <> VStr "add_padding" ->
  select_filter crop_params = Ok Unfiltered /\
  forall source run_ffmpeg,
    process_video (Some source) crop_params run_ffmpeg
    = match run_ffmpeg Unfiltered (has_audio source) with
      | Ok _ => true
      | Raise _ => false
      end.
Proof.
  intros Hop Hw Hh Hp.
  assert (select_filter crop_params = Ok Unfiltered) as Hsel.
  { unfold select_filter, getitem. rewrite Hop. cbv beta iota delta [bind].
    destruct (pyval_eqb operation (VStr "crop_width")) eqn:E1;
      [apply pyval_eqb_VStr in E1; contradiction|].
    destruct (pyval_eqb operation (VStr "crop_height")) eqn:E2;
      [apply pyval_eqb_VStr in E2; contradiction|].
    destruct (pyval_eqb operation (VStr "add_padding")) eqn:E3;
      [apply pyval_eqb_VStr in E3; contradiction|].
    reflexivity. }
  split; [exact Hsel|].
  intros source run_ffmpeg. unfold process_video, process_video_body.
  rewrite Hsel. cbv beta iota delta [bind].
  destruct (run_ffmpeg _ _); reflexivity.
Qed.

Lemma X15_witness :
  select_filter {[ "operation" := VStr "none" ]} = Ok Unfiltered.
Proof.
  apply (X15_unknown_operation_is_not_filtered {[ "operation" := VStr "none" ]}
           (VStr "none")); [reflexivity|discriminate..].
Defined.

(** X16 ([process_video]): for an ['add_padding'] plan the pad filter
    makes a canvas [crop_width] wide and [crop_height + pad_height] high
    and puts the frame at [(0, pad_height // 2)]: the frame is inside the
    canvas, and the bar below it is as high as the bar above it or one
    pixel higher. *)
Theorem X16_padding_filter_geometry
    (crop_params : dict) (crop_width crop_height pad_height : Z) :
  crop_params !! "operation" = Some (VStr "add_padding") ->
  crop_params !! "crop_width" = Some (VInt crop_width) ->
  crop_params !! "crop_height" = Some (VInt crop_height) ->
  crop_params !! "pad_height" = Some (VInt pad_height) ->
  0 <= pad_height ->
  exists total_height pad_y,
    select_filter crop_params
    = Ok (Pad crop_width total_height 0 pad_y "black") /\
    total_height = crop_height + pad_height /\
    0 <= pad_y /\ pad_y + crop_height <= total_height /\
    let below := total_height - (pad_y + crop_height) in
    pad_y <= below <= pad_y + 1.
Proof.
  intros Hop Hcw Hch Hpad Hnonneg.
  exists (crop_height + pad_height), (pad_height / 2).
  split.
  - unfold select_filter, getint, getitem.
    rewrite Hop, Hcw, Hch, Hpad. reflexivity.
  - split; [reflexivity|].
    pose proof (Z.div_mod pad_height 2 ltac:(lia)).
    pose proof (Z.mod_pos_bound pad_height 2 ltac:(lia)).
    cbv zeta. lia.
Qed.

Lemma X16_witness :
  exists total_height pad_y,
    select_filter (plan_pad 1080 1080 841)
    = Ok (Pad 1080 total_height 0 pad_y "black") /\
    total_height = 1080 + 841 /\
    0 <= pad_y /\ pad_y + 1080 <= total_height /\
    let below := total_height - (pad_y + 1080) in
    pad_y <= below <= pad_y + 1.
Proof.
  apply (X16_padding_filter_geometry (plan_pad 1080 1080 841) 1080 1080 841);
    try reflexivity; lia.
Defined.

(** ** [scan_folder] *)

Lemma files_with_status_spec status : forall history files index name,
  files_with_status status history files = Ok index ->
  (index !! name = files !! name /\
   Forall (fun item => ~ filed_as status name item) history) \/
  (exists before item after,
     history = before ++ item :: after /\
     index !! name = Some item /\ filed_as status name item /\
     Forall (fun later => ~ filed_as status name later) after).
Proof.
  induction history as [|item rest IH]; intros files index name; simpl.
  - intros H. injection H as <-. left. split; [reflexivity|constructor].
  - destruct (json_eqb_str (stream_get item "status" JNull) status) eqn:Hst.
    + unfold stream_item.
      destruct (item !! "filename") as [key|] eqn:Hkey; [|discriminate].
      cbv beta iota delta [bind]. intros H.
      destruct (IH _ index name H) as
        [[Hidx Hnone]|(before & it & after & -> & Hidx & Hit & Hafter)].
      * destruct key as [| | | |filename];
          try (left; split; [exact Hidx|];
               constructor; [intros [_ Hf]; congruence|exact Hnone]).
        destruct (String.eqb_spec filename name) as [->|Hne].
        -- right. exists [], item, rest. split; [reflexivity|].
           rewrite Hidx, lookup_insert_eq. split; [reflexivity|].
           split; [split; assumption|exact Hnone].
        -- left. rewrite Hidx, lookup_insert_ne by exact Hne.
           split; [reflexivity|].
           constructor; [intros [_ Hf]; congruence|exact Hnone].
      * right. exists (item :: before), it, after.
        split; [reflexivity|]. split; [exact Hidx|]. split; assumption.
    + intros H.
      destruct (IH _ index name H) as
        [[Hidx Hnone]|(before & it & after & -> & Hidx & Hit & Hafter)].
      * left. split; [exact Hidx|].
        constructor; [intros [Hs _]; congruence|exact Hnone].
      * right. exists (item :: before), it, after.
        split; [reflexivity|]. split; [exact Hidx|]. split; assumption.
Qed.

(** X17 ([scan_folder]): the index of the history by file name
    ([uploaded_files], [failed_files]) has a name exactly when some item
    of that status carries it, and it holds the last such item of the
    history. *)
Theorem X17_history_index_holds_last_item
    (status name : string) (history : list stream)
    (index : gmap string stream) :
  files_with_status status history ∅ = Ok index ->
  (index !! name = None <->
   Forall (fun item => ~ filed_as status name item) history) /\
  (forall item, index !! name = Some item ->
     exists before after,
       history = before ++ item :: after /\ filed_as status name item /\
       Forall (fun later => ~ filed_as status name later) after).
Proof.
  intros H.
  destruct (files_with_status_spec status history ∅ index name H)
    as [[Hidx Hnone]|(before & it & after & -> & Hidx & Hit & Hafter)].
  - rewrite lookup_empty in Hidx. split.
    + split; [intros _; exact Hnone|intros _; exact Hidx].
    + intros item Hitem. congruence.
  - split.
    + split; [intros Hn; congruence|].
      intros Hall. apply Forall_app in Hall as [_ Hall].
      inversion Hall; subst. contradiction.
    + intros item Hitem. assert (item = it) as -> by congruence.
      exists before, after. repeat split; try assumption; apply Hit.
Qed.

Lemma X17_witness :
  files_with_status "completed" sample_history ∅
  = Ok {[ "clip.mp4"%string :=
            history_item "clip.mp4" "completed" "2025-02-07T10:00:00" ]} /\
  exists before after,
    sample_history
    = before
      ++ history_item "clip.mp4" "completed" "2025-02-07T10:00:00" :: after /\
    filed_as "completed" "clip.mp4"
      (history_item "clip.mp4" "completed" "2025-02-07T10:00:00") /\
    Forall (fun later => ~ filed_as "completed" "clip.mp4" later) after.
Proof.
  assert (files_with_status "completed" sample_history ∅
          = Ok {[ "clip.mp4"%string :=
                    history_item "clip.mp4" "completed"
                      "2025-02-07T10:00:00" ]}) as H
    by (vm_compute; reflexivity).
  split; [exact H|].
  apply (proj2 (X17_history_index_holds_last_item "completed" "clip.mp4"
                  sample_history _ H)).
  reflexivity.
Defined.

Lemma scan_file_verdict {frame : Type} (sc : scanner frame)
    (uploaded_files failed_files : gmap string stream)
    (folder_path filename : string) (entry : scan_entry) :
  scan_file sc uploaded_files failed_files folder_path filename = Ok entry ->
  let video_path := path_join folder_path filename in
  let video_info := probe_file (host sc) video_path in
  let aspect_ratio_ok :=
    match video_info with
    | Some info => within_tolerance (aspect_ratio info) c916
    | None => false
    end in
  entry_path entry = video_path /\
  entry_needs_cropping entry
  = match video_info with Some _ => negb aspect_ratio_ok | None => false end /\
  entry_aspect_ratio entry
  = match video_info with Some info => Some (aspect_ratio info) | None => None end /\
  match uploaded_files !! filename, failed_files !! filename with
  | Some _, _ =>
    entry_valid entry = false /\ entry_status_type entry = "duplicate"%string
  | None, Some _ =>
    entry_valid entry = true /\ entry_status_type entry = "retry"%string
  | None, None =>
    if aspect_ratio_ok then
      (entry_valid entry, entry_message entry, entry_status_type entry)
      = validate_new_file sc video_path
    else
      entry_valid entry = false /\ entry_status_type entry = "wrong_ar"%string /\
      entry_message entry
      = match video_info with
        | Some info =>
          ("Not 9:16 AR (current: " ++ format_2f sc (aspect_ratio info)
           ++ ") - Auto-fix available")%string
        | None => "Cannot read video - Invalid format"%string
        end
  end.
Proof.
  intros H. cbv zeta.
  unfold scan_file in H. rewrite target_ratio_value in H.
  cbv beta iota zeta delta [bind] in H.
  set (video_path := path_join folder_path filename) in *.
  set (video_info := probe_file (host sc) video_path) in *.
  set (aspect_ratio_ok :=
         match video_info with
         | Some info => within_tolerance (aspect_ratio info) c916
         | None => false
         end) in *.
  destruct (uploaded_files !! filename) as [up|].
  - destruct (formatted_date sc _) as [date|]; [|discriminate].
    destruct (if path_exists (host sc) video_path then _ else _) as [size|];
      [|discriminate].
    injection H as <-. simpl. repeat split.
  - destruct (failed_files !! filename) as [fl|].
    + destruct (formatted_date sc _) as [date|]; [|discriminate].
      destruct (if path_exists (host sc) video_path then _ else _) as [size|];
        [|discriminate].
      injection H as <-. simpl. repeat split.
    + destruct aspect_ratio_ok; simpl in H.
      * destruct (validate_new_file sc video_path) as [[valid message] status].
        destruct (if path_exists (host sc) video_path then _ else _) as [size|];
          [|discriminate].
        injection H as <-. simpl. repeat split.
      * destruct (if path_exists (host sc) video_path then _ else _) as [size|];
          [|discriminate].
        injection H as <-. simpl. repeat split.
Qed.

Lemma validate_new_file_cases {frame : Type} (sc : scanner frame) video_path :
  (exists size, getsize sc video_path = Ok size /\ 1024 <= size /\
     validate_new_file sc video_path
     = (true, "Ready to upload", "new")%string) \/
  (exists message,
     validate_new_file sc video_path = (false, message, "invalid"%string)).
Proof.
  unfold validate_new_file.
  destruct (getsize sc video_path) as [size|e]; [|right; eexists; reflexivity].
  destruct (Z.eqb_spec size 0); [right; eexists; reflexivity|].
  destruct (Z.ltb_spec size 1024); [right; eexists; reflexivity|].
  left. exists size. repeat split. lia.
Qed.

(** X18 ([scan_folder]): the verdict on a file.  It is a "duplicate"
    exactly when a completed upload of that name is in the history, a
    "retry" exactly when there is none but a failed one; it is offered
    for upload ([valid]) exactly when it is a "retry" or "new"; a "new"
    file is a readable video within the tolerance of 9:16 of at least
    1024 bytes; and the status is one of the five names. *)
Theorem X18_scan_verdict_table {frame : Type} (sc : scanner frame)
    (uploaded_files failed_files : gmap string stream)
    (folder_path filename : string) (entry : scan_entry) :
  scan_file sc uploaded_files failed_files folder_path filename = Ok entry ->
  (entry_status_type entry = "duplicate"%string <->
   is_Some (uploaded_files !! filename)) /\
  (entry_status_type entry = "retry"%string <->
   uploaded_files !! filename = None /\ is_Some (failed_files !! filename)) /\
  (entry_valid entry = true <->
   entry_status_type entry = "retry"%string \/
   entry_status_type entry = "new"%string) /\
  (entry_status_type entry = "new"%string ->
   exists info size,
     probe_file (host sc) (entry_path entry) = Some info /\
     within_tolerance (aspect_ratio info) c916 = true /\
     getsize sc (entry_path entry) = Ok size /\ 1024 <= size) /\
  In (entry_status_type entry)
    ["new"; "duplicate"; "retry"; "invalid"; "wrong_ar"]%string.
Proof.
  intros H. pose proof (scan_file_verdict sc _ _ _ _ _ H) as Hv.
  cbv zeta in Hv. destruct Hv as (Hpath & _ & _ & Hcase). rewrite Hpath.
  set (video_path := path_join folder_path filename) in *.
  assert (forall A : Type, ~ is_Some (@None A)) as Hnone
    by (intros A [? ?]; discriminate).
  destruct (uploaded_files !! filename) as [up|].
  - destruct Hcase as [Hvalid Hst]. rewrite Hvalid, Hst.
    split; [split; [eauto|reflexivity]|].
    split; [split; [discriminate|intros [? _]; discriminate]|].
    split; [split; [discriminate|intros [?|?]; discriminate]|].
    split; [discriminate|simpl; tauto].
  - destruct (failed_files !! filename) as [fl|].
    + destruct Hcase as [Hvalid Hst]. rewrite Hvalid, Hst.
      split; [split; [discriminate|intros Hs; destruct (Hnone _ Hs)]|].
      split; [split; [eauto|reflexivity]|].
      split; [split; [left; reflexivity|reflexivity]|].
      split; [discriminate|simpl; tauto].
    + destruct (probe_file (host sc) video_path) as [info|] eqn:Hprobe.
      * destruct (within_tolerance (aspect_ratio info) c916) eqn:Hok.
        -- destruct (validate_new_file_cases sc video_path)
             as [(size & Hsize & Hbig & Hval)|(message & Hval)];
             rewrite Hval in Hcase; injection Hcase as Hvalid _ Hst;
             rewrite Hvalid, Hst.
           ++ split; [split; [discriminate|intros Hs; destruct (Hnone _ Hs)]|].
              split; [split; [discriminate
                             |intros [_ Hs]; destruct (Hnone _ Hs)]|].
              split; [split; [right; reflexivity|reflexivity]|].
              split; [|simpl; tauto].
              intros _. exists info, size. repeat split; assumption.
           ++ split; [split; [discriminate|intros Hs; destruct (Hnone _ Hs)]|].
              split; [split; [discriminate
                             |intros [_ Hs]; destruct (Hnone _ Hs)]|].
              split; [split; [discriminate|intros [?|?]; discriminate]|].
              split; [discriminate|simpl; tauto].
        -- destruct Hcase as (Hvalid & Hst & _). rewrite Hvalid, Hst.
           split; [split; [discriminate|intros Hs; destruct (Hnone _ Hs)]|].
           split; [split; [discriminate
                          |intros [_ Hs]; destruct (Hnone _ Hs)]|].
           split; [split; [discriminate|intros [?|?]; discriminate]|].
           split; [discriminate|simpl; tauto].
      * destruct Hcase as (Hvalid & Hst & _). rewrite Hvalid, Hst.
        split; [split; [discriminate|intros Hs; destruct (Hnone _ Hs)]|].
        split; [split; [discriminate
                       |intros [_ Hs]; destruct (Hnone _ Hs)]|].
        split; [split; [discriminate|intros [?|?]; discriminate]|].
        split; [discriminate|simpl; tauto].
Qed.

Lemma X18_witness :
  scan_file (sample_scanner 1080 1920) ∅ ∅ "/videos" "clip.mp4"
  = Ok (scanned_clip 1080 1920 true "Ready to upload" "new" false) /\
  (entry_valid (scanned_clip 1080 1920 true "Ready to upload" "new" false)
   = true <->
   entry_status_type (scanned_clip 1080 1920 true "Ready to upload" "new" false)
   = "retry"%string \/
   entry_status_type (scanned_clip 1080 1920 true "Ready to upload" "new" false)
   = "new"%string).
Proof.
  assert (scan_file (sample_scanner 1080 1920) ∅ ∅ "/videos" "clip.mp4"
          = Ok (scanned_clip 1080 1920 true "Ready to upload" "new" false))
    as H by (vm_compute; reflexivity).
  split; [exact H|].
  exact (proj1 (proj2 (proj2 (X18_scan_verdict_table _ _ _ _ _ _ H)))).
Defined.

(** X19 ([scan_folder], [calculate_crop_parameters]): for a readable
    video the ['needs_cropping'] flag of the scan is the decision of the
    planner: it is set exactly outside the tolerance, and it equals the
    ['needs_crop'] of the plan for every subject centre. *)
Theorem X19_scan_cropping_flag_is_the_planner_decision {frame : Type}
    (sc : scanner frame) (uploaded_files failed_files : gmap string stream)
    (folder_path filename : string) (entry : scan_entry) (info : video_info) :
  scan_file sc uploaded_files failed_files folder_path filename = Ok entry ->
  probe_file (host sc) (path_join folder_path filename) = Some info ->
  pixel_dim (width info) -> pixel_dim (height info) ->
  (entry_needs_cropping entry = true <->
   ~ near_target (width info) (height info)) /\
  forall subject_center,
    exists plan,
      calculate_crop_parameters info subject_center = Ok plan /\
      plan !! "needs_crop" = Some (VBool (entry_needs_cropping entry)).
Proof.
  intros H Hprobe Hw Hh.
  pose proof (scan_file_verdict sc _ _ _ _ _ H) as Hv.
  cbv zeta in Hv. destruct Hv as (_ & Hcrop & _ & _).
  rewrite Hprobe in Hcrop.
  pose proof (proj1 (get_video_info_inv _ _ _ Hprobe)) as Hp.
  assert (target_ratio info = c916) as Htr by apply Hp.
  rewrite <- Htr, (probed_within_tolerance info Hp Hw Hh) in Hcrop.
  rewrite Hcrop. unfold near_target.
  destruct (Z.ltb_spec (100 * Z.abs (16 * width info - 9 * height info))
              (16 * height info)) as [Hnear|Hfar]; simpl.
  - split; [split; [discriminate|intros Hn; contradiction]|].
    intros subject_center. eexists. split.
    + apply calculate_crop_parameters_integer; assumption.
    + unfold integer_plan. destruct subject_center as [sx sy].
      destruct (Z.ltb_spec (100 * Z.abs (16 * width info - 9 * height info))
                  (16 * height info)); [reflexivity|lia].
  - split; [split; [intros _; lia|reflexivity]|].
    intros [sx sy]. eexists. split.
    + apply calculate_crop_parameters_integer; assumption.
    + pose proof (pixel_dim_bounds _ Hw). pose proof (pixel_dim_bounds _ Hh).
      rewrite integer_plan_far by (unfold near_target; lia).
      destruct (9 * height info <? 16 * width info); reflexivity.
Qed.

Lemma X19_witness :
  scan_file (sample_scanner 1920 1080) ∅ ∅ "/videos" "clip.mp4"
  = Ok (scanned_clip 1920 1080 false
          "Not 9:16 AR (current: 1.78) - Auto-fix available" "wrong_ar" true) /\
  (true = true <-> ~ near_target 1920 1080).
Proof.
  assert (scan_file (sample_scanner 1920 1080) ∅ ∅ "/videos" "clip.mp4"
          = Ok (scanned_clip 1920 1080 false
                  "Not 9:16 AR (current: 1.78) - Auto-fix available"
                  "wrong_ar" true)) as H by (vm_compute; reflexivity).
  split; [exact H|].
  refine (proj1 (X19_scan_cropping_flag_is_the_planner_decision
                   (sample_scanner 1920 1080) ∅ ∅ "/videos" "clip.mp4" _
                   (probe_result 1920 1080) H _ _ _)).
  - vm_compute. reflexivity.
  - unfold pixel_dim. simpl. lia.
  - unfold pixel_dim. simpl. lia.
Defined.

(** X20 ([scan_folder]): a file that cannot be probed has no
    aspect ratio, is not flagged for cropping and is never "new"; with no
    earlier upload in the history it is filed as "wrong_ar", not valid,
    with the message "Cannot read video - Invalid format". *)
Theorem X20_unreadable_video_is_filed_under_wrong_ratio {frame : Type}
    (sc : scanner frame) (uploaded_files failed_files : gmap string stream)
    (folder_path filename : string) (entry : scan_entry) :
  scan_file sc uploaded_files failed_files folder_path filename = Ok entry ->
  probe_file (host sc) (path_join folder_path filename) = None ->
  entry_needs_cropping entry = false /\
  entry_aspect_ratio entry = None /\
  entry_status_type entry <> "new"%string /\
  (uploaded_files !! filename = None -> failed_files !! filename = None ->
   entry_valid entry = false /\
   entry_status_type entry = "wrong_ar"%string /\
   entry_message entry = "Cannot read video - Invalid format"%string).
Proof.
  intros H Hprobe.
  pose proof (scan_file_verdict sc _ _ _ _ _ H) as Hv.
  cbv zeta in Hv. destruct Hv as (_ & Hcrop & Har & Hcase).
  rewrite Hprobe in Hcrop, Har, Hcase.
  split; [exact Hcrop|]. split; [exact Har|]. split.
  - destruct (uploaded_files !! filename); [destruct Hcase as [_ ->]; discriminate|].
    destruct (failed_files !! filename); [destruct Hcase as [_ ->]; discriminate|].
    destruct Hcase as (_ & -> & _). discriminate.
  - intros Hup Hfl. rewrite Hup, Hfl in Hcase. exact Hcase.
Qed.

Lemma X20_witness :
  scan_file unreadable_scanner ∅ ∅ "/videos" "clip.mp4"
  = Ok {| entry_filename := "clip.mp4"; entry_path := "/videos/clip.mp4";
          entry_valid := false;
          entry_message := "Cannot read video - Invalid format";
          entry_status_type := "wrong_ar"; entry_youtube_url := JNull;
          entry_upload_date := JNull; entry_needs_cropping := false;
          entry_aspect_ratio := None; entry_size := 4096 |} /\
  probe_file (host unreadable_scanner) (path_join "/videos" "clip.mp4") = None /\
  false = false /\
  "wrong_ar"%string = "wrong_ar"%string /\
  "Cannot read video - Invalid format"%string
  = "Cannot read video - Invalid format"%string.
Proof.
  assert (scan_file unreadable_scanner ∅ ∅ "/videos" "clip.mp4"
          = Ok {| entry_filename := "clip.mp4";
                  entry_path := "/videos/clip.mp4";
                  entry_valid := false;
                  entry_message := "Cannot read video - Invalid format";
                  entry_status_type := "wrong_ar"; entry_youtube_url := JNull;
                  entry_upload_date := JNull; entry_needs_cropping := false;
                  entry_aspect_ratio := None; entry_size := 4096 |}) as H
    by (vm_compute; reflexivity).
  assert (probe_file (host unreadable_scanner) (path_join "/videos" "clip.mp4")
          = None) as Hprobe by reflexivity.
  split; [exact H|]. split; [exact Hprobe|].
  exact (proj2 (proj2 (proj2
           (X20_unreadable_video_is_filed_under_wrong_ratio unreadable_scanner
              ∅ ∅ "/videos" "clip.mp4" _ H Hprobe)))
           (lookup_empty _) (lookup_empty _)).
Defined.

(** ** The routes [/api/analyze_video] and [/api/process_video] *)

(** ** Paths *)

Lemma append_cons a s t : (String a s ++ t)%string = String a (s ++ t).
Proof. reflexivity. Qed.

Lemma append_nil t : (""%string ++ t)%string = t.
Proof. reflexivity. Qed.

Lemma append_nil_r t : (t ++ "")%string = t.
Proof.
  induction t as [|a t IH]; [reflexivity|]. rewrite append_cons, IH. reflexivity.
Qed.

Lemma string_take_drop n p : (string_take n p ++ string_drop n p)%string = p.
Proof.
  revert p. induction n as [|n IH]; intros [|a rest]; simpl; try reflexivity.
  rewrite append_cons, IH. reflexivity.
Qed.

Lemma string_length_app a b :
  String.length (a ++ b) = (String.length a + String.length b)%nat.
Proof.
  induction a as [|c a IH]; [reflexivity|].
  rewrite append_cons. simpl. rewrite IH. reflexivity.
Qed.

Lemma splitext_join p : (fst (splitext p) ++ snd (splitext p))%string = p.
Proof.
  unfold splitext. destruct (_ && _); simpl.
  - apply string_take_drop.
  - apply append_nil_r.
Qed.

Lemma crop_name_differs p :
  (fst (splitext p) ++ "_crop916" ++ snd (splitext p))%string <> p.
Proof.
  intros H. apply (f_equal String.length) in H.
  rewrite <- (splitext_join p) in H at 3.
  rewrite !string_length_app in H. simpl in H. lia.
Qed.

Lemma rfind_from_spec c : forall p i found,
  (~ In c (chars p) /\ rfind_from p c i found = found) \/
  (exists a b, p = (a ++ String c b)%string /\ ~ In c (chars b) /\
     rfind_from p c i found = i + Z.of_nat (String.length a)).
Proof.
  induction p as [|x p IH]; intros i found; simpl.
  - left. split; [tauto|reflexivity].
  - destruct (IH (i + 1) (if Ascii.eqb x c then i else found))
      as [[Hno Hr]|(a & b & -> & Hb & Hr)].
    + destruct (Ascii.eqb_spec x c) as [->|Hne].
      * right. exists ""%string, p. split; [reflexivity|].
        split; [exact Hno|]. rewrite Hr. simpl. lia.
      * left. split; [|exact Hr]. intros [E|E]; [congruence|tauto].
    + right. exists (String x a), b. split; [reflexivity|].
      split; [exact Hb|]. rewrite Hr. simpl String.length. lia.
Qed.

Lemma rfind_spec p c :
  (~ In c (chars p) /\ rfind p c = -1) \/
  (exists a b, p = (a ++ String c b)%string /\ ~ In c (chars b) /\
     rfind p c = Z.of_nat (String.length a)).
Proof. unfold rfind. apply (rfind_from_spec c p 0 (-1)). Qed.

Lemma string_drop_app a b : string_drop (String.length a) (a ++ b) = b.
Proof.
  induction a as [|x a IH]; [destruct b; reflexivity|].
  rewrite append_cons. simpl. exact IH.
Qed.

Lemma chars_app a b : chars (a ++ b) = chars a ++ chars b.
Proof.
  induction a as [|x a IH]; [reflexivity|].
  rewrite append_cons. simpl. rewrite IH. reflexivity.
Qed.

Lemma app_split_length (a b a' b' : string) :
  (a ++ b)%string = (a' ++ b')%string ->
  (String.length a <= String.length a')%nat ->
  exists mid, a' = (a ++ mid)%string /\ b = (mid ++ b')%string.
Proof.
  revert a'. induction a as [|x a IH]; intros a' H Hlen.
  - exists a'. split; [reflexivity|exact H].
  - destruct a' as [|y a']; simpl in Hlen; [lia|].
    rewrite !append_cons in H.
    injection H as -> H. destruct (IH a' H ltac:(lia)) as (mid & -> & ->).
    exists mid. split; reflexivity.
Qed.

(** The extension is empty, or it is the last dot of the path and what
    follows it; it holds no separator and no second dot. *)
Lemma splitext_extension p :
  snd (splitext p) = ""%string \/
  exists rest, snd (splitext p) = String "." rest /\
    ~ In "."%char (chars rest) /\ ~ In "/"%char (chars rest).
Proof.
  unfold splitext.
  destruct (Z.ltb_spec (rfind p "/") (rfind p ".")) as [Hlt|Hge];
    [|left; reflexivity].
  destruct (skip_leading_dots _ _ _); [|left; reflexivity].
  right. simpl.
  destruct (rfind_spec p ".") as [[_ Hd]|(a & b & Hp & Hb & Hd)].
  { destruct (rfind_spec p "/") as [[_ Hs]|(a' & b' & _ & _ & Hs)]; lia. }
  exists b. unfold slice_from. rewrite Hd, Nat2Z.id.
  rewrite Hp at 1. rewrite string_drop_app. split; [reflexivity|].
  split; [exact Hb|].
  destruct (rfind_spec p "/") as [[Hno _]|(a' & b' & Hp' & Hb' & Hs)].
  - intros Hin. apply Hno. rewrite Hp, chars_app. apply in_or_app. right.
    right. exact Hin.
  - rewrite Hs, Hd in Hlt.
    assert ((a' ++ String "/" b')%string = (a ++ String "." b)%string) as E
      by congruence.
    destruct (app_split_length a' (String "/" b') a (String "." b) E ltac:(lia))
      as (mid & -> & Hmid).
    destruct mid as [|m mid];
      [rewrite append_nil in Hmid; discriminate|].
    rewrite append_cons in Hmid. injection Hmid as <- ->.
    intros Hin. apply Hb'. rewrite chars_app. apply in_or_app. right.
    right. exact Hin.
Qed.

Lemma process_video_true probe crop_params run_ffmpeg :
  process_video probe crop_params run_ffmpeg = true ->
  exists info stream,
    probe = Some info /\ select_filter crop_params = Ok stream /\
    run_ffmpeg stream (has_audio info) = Ok tt.
Proof.
  unfold process_video, process_video_body.
  destruct probe as [info|]; [|discriminate].
  destruct (select_filter crop_params) as [stream|]; [|discriminate].
  cbv beta iota delta [bind].
  destruct (run_ffmpeg stream (has_audio info)) as [[]|] eqn:Hrun;
    [|discriminate].
  intros _. exists info, stream. repeat split. exact Hrun.
Qed.

(** X21 ([/api/analyze_video]): for an existing file that probes, the
    route answers with the "Already 9:16" analysis within the tolerance,
    with the error "Could not open video file" when the capture does not
    open, and otherwise with an analysis that needs processing and
    carries the plan of the planner. *)
Theorem X21_analyze_route_answers {frame : Type} (m : machine frame)
    (path : string) (info : video_info) :
  missing_file m (Some path) = false ->
  probe_file m path = Some info ->
  pixel_dim (width info) -> pixel_dim (height info) ->
  (forall f, pixel_dim (fst (frame_shape m f)) /\
             pixel_dim (snd (frame_shape m f))) ->
  frame_count (video_capture m path) < 2 ^ 31 ->
  (near_target (width info) (height info) ->
   analyze_video m (Some path)
   = Analyzed (AlreadyTarget "Already 9:16 aspect ratio" info)) /\
  (~ near_target (width info) (height info) ->
   isOpened (video_capture m path) = false ->
   analyze_video m (Some path) = Failure "Could not open video file") /\
  (~ near_target (width info) (height info) ->
   isOpened (video_capture m path) = true ->
   exists subject_center plan,
     calculate_crop_parameters info subject_center = Ok plan /\
     plan !! "needs_crop" = Some (VBool true) /\
     analyze_video m (Some path)
     = Analyzed (Analysis (VBool true) info subject_center plan)).
Proof.
  intros Hfile Hprobe Hw Hh Hshape Ht.
  pose proof (proj1 (get_video_info_inv _ _ _ Hprobe)) as Hp.
  unfold analyze_video. rewrite Hfile. unfold analyze_file. rewrite Hprobe.
  split; [|split].
  - intros Hnear. unfold analyze_video_for_cropping.
    rewrite (probed_within_tolerance info Hp Hw Hh).
    destruct (Z.ltb_spec (100 * Z.abs (16 * width info - 9 * height info))
                (16 * height info)) as [_|Hfar];
      [reflexivity|unfold near_target in Hnear; lia].
  - intros Hfar Hclosed. unfold analyze_video_for_cropping.
    rewrite (probed_within_tolerance info Hp Hw Hh).
    destruct (Z.ltb_spec (100 * Z.abs (16 * width info - 9 * height info))
                (16 * height info)) as [Hnear|_];
      [unfold near_target in Hfar; lia|].
    rewrite Hclosed. reflexivity.
  - intros Hfar Hopen.
    destruct (analyze_off_ratio (frame_shape m) (face_detection m)
                (pose_detection m) info (video_capture m path)
                Hp Hw Hh Hfar Hshape Ht Hopen)
      as (sc & plan & Hplan & Hshape' & ->).
    exists sc, plan. split; [exact Hplan|]. split; [|reflexivity].
    subst plan. destruct (9 * height info <? 16 * width info); reflexivity.
Qed.

Lemma X21_witness :
  analyze_video (sample_machine 1080 1920) (Some "/videos/clip.mp4"%string)
  = Analyzed (AlreadyTarget "Already 9:16 aspect ratio"
                (probe_result 1080 1920)).
Proof.
  refine (proj1 (X21_analyze_route_answers (sample_machine 1080 1920)
                   "/videos/clip.mp4" (probe_result 1080 1920) _ _ _ _ _ _) _).
  - reflexivity.
  - vm_compute. reflexivity.
  - unfold pixel_dim. simpl. lia.
  - unfold pixel_dim. simpl. lia.
  - intros f. unfold pixel_dim. simpl. lia.
  - simpl. lia.
  - unfold near_target. simpl. lia.
Defined.

(** X22 ([/api/process_video]): for an existing file that probes and
    opens, the route refuses a video within the tolerance ("does not
    need processing"), refuses to overwrite an existing
    [<name>_crop916<ext>], and otherwise runs FFmpeg with a crop
    rectangle inside the frame, answering success exactly when that run
    completes. *)
Theorem X22_route_crops_the_off_ratio_videos {frame : Type} (m : machine frame)
    (path : string) (info : video_info) :
  missing_file m (Some path) = false ->
  probe_file m path = Some info ->
  pixel_dim (width info) -> pixel_dim (height info) ->
  (forall f, pixel_dim (fst (frame_shape m f)) /\
             pixel_dim (snd (frame_shape m f))) ->
  isOpened (video_capture m path) = true ->
  frame_count (video_capture m path) < 2 ^ 31 ->
  let output_path :=
    (fst (splitext path) ++ "_crop916" ++ snd (splitext path))%string in
  (near_target (width info) (height info) ->
   process_video_route m (Some path)
   = Failure "Video does not need processing - already 9:16 aspect ratio") /\
  (~ near_target (width info) (height info) ->
   path_exists m output_path = true ->
   process_video_route m (Some path)
   = Failure ("Processed file already exists: " ++ basename output_path)) /\
  (~ near_target (width info) (height info) ->
   path_exists m output_path = false ->
   exists x y w h a,
     0 <= x /\ 0 <= y /\ 0 <= w /\ 0 <= h /\
     x + w <= width info /\ y + h <= height info /\
     process_video_route m (Some path)
     = match ffmpeg_run m path output_path (Crop x y w h) (has_audio info) with
       | Ok _ => Processed output_path (basename output_path) a
       | Raise _ => Failure "Video processing failed"
       end).
Proof.
  intros Hfile Hprobe Hw Hh Hshape Hopen Ht output_path.
  pose proof (proj1 (get_video_info_inv _ _ _ Hprobe)) as Hp.
  unfold process_video_route. rewrite Hfile. unfold analyze_file.
  rewrite Hprobe. split; [|split].
  - intros Hnear. unfold analyze_video_for_cropping.
    rewrite (probed_within_tolerance info Hp Hw Hh).
    destruct (Z.ltb_spec (100 * Z.abs (16 * width info - 9 * height info))
                (16 * height info)) as [_|Hfar];
      [reflexivity|unfold near_target in Hnear; lia].
  - intros Hfar Hout.
    destruct (analyze_off_ratio (frame_shape m) (face_detection m)
                (pose_detection m) info (video_capture m path)
                Hp Hw Hh Hfar Hshape Ht Hopen)
      as (sc & plan & _ & _ & ->).
    simpl. fold output_path. rewrite Hout. reflexivity.
  - intros Hfar Hout.
    destruct (analyze_off_ratio (frame_shape m) (face_detection m)
                (pose_detection m) info (video_capture m path)
                Hp Hw Hh Hfar Hshape Ht Hopen)
      as (sc & plan & _ & Hplan & ->).
    simpl. fold output_path. rewrite Hout.
    unfold process_file, process_video, process_video_body. rewrite Hprobe.
    pose proof (pixel_dim_bounds _ Hw). pose proof (pixel_dim_bounds _ Hh).
    unfold clamp in Hplan.
    destruct (Z.ltb_spec (9 * height info) (16 * width info))
      as [Hwide|Hnarrow]; subst plan.
    + rewrite select_filter_plan_crop by (left; reflexivity).
      cbv beta iota delta [bind].
      assert (0 <= 9 * height info / 16 < width info) as Htw
        by (split; [apply Z.div_pos; lia|apply Z.div_lt_upper_bound; lia]).
      set (tw := 9 * height info / 16) in *.
      exists (Z.max 0 (Z.min (fst sc - tw / 2) (width info - tw))), 0, tw,
        (height info),
        (Analysis (VBool true) info sc
           (plan_crop (Z.max 0 (Z.min (fst sc - tw / 2) (width info - tw))) 0
              tw (height info) "crop_width")).
      clearbody tw. repeat (split; [lia|]).
      destruct (ffmpeg_run m path output_path _ _); reflexivity.
    + rewrite select_filter_plan_crop by (right; reflexivity).
      cbv beta iota delta [bind].
      pose proof (narrow_target_height_fits (width info) (height info)
                    ltac:(lia) Hnarrow) as Hfit.
      assert (0 <= 16 * width info / 9) as Hth by (apply Z.div_pos; lia).
      set (th := 16 * width info / 9) in *.
      exists 0, (Z.max 0 (Z.min (snd sc - th / 2) (height info - th))),
        (width info), th,
        (Analysis (VBool true) info sc
           (plan_crop 0 (Z.max 0 (Z.min (snd sc - th / 2) (height info - th)))
              (width info) th "crop_height")).
      clearbody th. repeat (split; [lia|]).
      destruct (ffmpeg_run m path output_path _ _); reflexivity.
Qed.

Lemma X22_witness :
  exists x y w h a,
    0 <= x /\ 0 <= y /\ 0 <= w /\ 0 <= h /\
    x + w <= 1920 /\ y + h <= 1080 /\
    process_video_route (sample_machine 1920 1080)
      (Some "/videos/clip.mp4"%string)
    = match
        ffmpeg_run (sample_machine 1920 1080) "/videos/clip.mp4"
          (fst (splitext "/videos/clip.mp4") ++ "_crop916"
           ++ snd (splitext "/videos/clip.mp4"))%string
          (Crop x y w h) (has_audio (probe_result 1920 1080))
      with
      | Ok _ =>
        Processed
          (fst (splitext "/videos/clip.mp4") ++ "_crop916"
           ++ snd (splitext "/videos/clip.mp4"))%string
          (basename
             (fst (splitext "/videos/clip.mp4") ++ "_crop916"
              ++ snd (splitext "/videos/clip.mp4"))%string) a
      | Raise _ => Failure "Video processing failed"
      end.
Proof.
  refine (proj2 (proj2 (X22_route_crops_the_off_ratio_videos
                          (sample_machine 1920 1080) "/videos/clip.mp4"
                          (probe_result 1920 1080) _ _ _ _ _ _ _)) _ _).
  - reflexivity.
  - vm_compute. reflexivity.
  - unfold pixel_dim. simpl. lia.
  - unfold pixel_dim. simpl. lia.
  - intros f. unfold pixel_dim. simpl. lia.
  - reflexivity.
  - simpl. lia.
  - unfold near_target. simpl. lia.
  - reflexivity.
Defined.

(** X23 ([/api/process_video]): whenever the route reports success, the
    output is a new file: the input exists, the output path is the input
    path with ["_crop916"] inserted before its extension (empty, or the
    last dot of the file name and what follows), it differs from the
    input path, no file existed at it, and an FFmpeg run writing it
    completed. *)
Theorem X23_processed_output_is_a_new_file {frame : Type} (m : machine frame)
    (video_path : option string) (output_path output_filename : string)
    (a : analysis) :
  process_video_route m video_path = Processed output_path output_filename a ->
  exists path extension,
    video_path = Some path /\
    path_exists m path = true /\
    extension = snd (splitext path) /\
    (fst (splitext path) ++ extension)%string = path /\
    output_path = (fst (splitext path) ++ "_crop916" ++ extension)%string /\
    (extension = ""%string \/
     exists rest, extension = String "." rest /\
       ~ In "."%char (chars rest) /\ ~ In "/"%char (chars rest)) /\
    output_path <> path /\
    path_exists m output_path = false /\
    output_filename = basename output_path /\
    exists needs_processing info subject_center crop_params stream input_info,
      a = Analysis needs_processing info subject_center crop_params /\
      analyze_file m path = Ok a /\
      select_filter crop_params = Ok stream /\
      ffmpeg_run m path output_path stream (has_audio input_info) = Ok tt.
Proof.
  unfold process_video_route. intros H.
  destruct video_path as [path|]; [|discriminate].
  unfold missing_file in H.
  destruct (String.eqb path "") eqn:Hempty; simpl in H; [discriminate|].
  destruct (path_exists m path) eqn:Hexists; simpl in H; [|discriminate].
  destruct (analyze_file m path) as [[error|reason info|np info sc plan]|] eqn:Ha;
    try discriminate.
  destruct (truthy np); simpl in H; [|discriminate].
  set (out := (fst (splitext path) ++ "_crop916" ++ snd (splitext path))%string)
    in *.
  destruct (path_exists m out) eqn:Hout; [discriminate|].
  destruct (process_file m path out plan) eqn:Hproc; [|discriminate].
  injection H as <- <- <-.
  exists path, (snd (splitext path)).
  split; [reflexivity|]. split; [exact Hexists|]. split; [reflexivity|].
  split; [apply splitext_join|]. split; [reflexivity|].
  split; [apply splitext_extension|]. split; [apply crop_name_differs|].
  split; [exact Hout|]. split; [reflexivity|].
  apply process_video_true in Hproc as (input_info & stream & _ & Hsel & Hrun).
  exists np, info, sc, plan, stream, input_info.
  split; [reflexivity|]. split; [exact Ha|]. split; assumption.
Qed.

Lemma X23_witness :
  exists path extension,
    Some "/videos/clip.mp4"%string = Some path /\
    path_exists (sample_machine 1920 1080) path = true /\
    extension = snd (splitext path) /\
    (fst (splitext path) ++ extension)%string = path /\
    "/videos/clip_crop916.mp4"%string
    = (fst (splitext path) ++ "_crop916" ++ extension)%string /\
    (extension = ""%string \/
     exists rest, extension = String "." rest /\
       ~ In "."%char (chars rest) /\ ~ In "/"%char (chars rest)) /\
    "/videos/clip_crop916.mp4"%string <> path /\
    path_exists (sample_machine 1920 1080) "/videos/clip_crop916.mp4" = false /\
    "clip_crop916.mp4"%string = basename "/videos/clip_crop916.mp4" /\
    exists needs_processing info subject_center crop_params stream input_info,
      Analysis (VBool true) (probe_result 1920 1080) (960, 540)
        (plan_crop 657 0 607 1080 "crop_width")
      = Analysis needs_processing info subject_center crop_params /\
      analyze_file (sample_machine 1920 1080) path
      = Ok (Analysis (VBool true) (probe_result 1920 1080) (960, 540)
              (plan_crop 657 0 607 1080 "crop_width")) /\
      select_filter crop_params = Ok stream /\
      ffmpeg_run (sample_machine 1920 1080) path "/videos/clip_crop916.mp4"
        stream (has_audio input_info) = Ok tt.
Proof.
  apply (X23_processed_output_is_a_new_file (sample_machine 1920 1080)
           (Some "/videos/clip.mp4"%string)).
  vm_compute. reflexivity.
Defined.
